(** * Quantization pipeline of the mobile SMS classifier

    A shallow embedding of [ModelQuantizer]
    (ml_model/mobile_sms_classifier/src/quantization_pipeline.py), of
    [quantize_model], [create_final_report] and the exit code of [main]
    (ml_model/mobile_sms_classifier/train_and_evaluate.py), and of the
    TensorFlow Lite inference of [MobileSmsClassifier]
    (ml_model/mobile_sms_classifier/src/mobile_classifier.py).

    Numbers.  Python floats are modelled as rationals [Q]: the properties
    below are about which operands are compared and divided, not about
    IEEE rounding.  Infinities and NaN have no counterpart.  A division
    of Python floats by zero stops with [ZeroDivisionError]; a division
    by a numpy zero, after which the program goes on with inf or nan,
    stops the model with [NonFinite].

    Effects.  TensorFlow, the tokenizer, the trained classifier and the
    wall clock are external.  They are the fields of an environment [Env];
    every call is appended to a trace together with the answer it got, so
    that theorems can say how often and in which order the environment was
    used.  Files are kept in a store inside the world.

    Taken for granted in the quantizer: the classifier is trained (the
    constructor of [ModelQuantizer] has accepted it) and has the
    tokenizer it was trained with; building a converter from the Keras
    model, tokenizing and writing a file succeed.  The inference of the
    classifier itself keeps track of whether the tokenizer is there.
    Paths are those of [pathlib] on a POSIX system; two strings name the
    same file only if they are equal.  Logging, the creation of the
    output directory and the plots are left out. *)

From Stdlib Require Import List String Ascii Bool Arith ZArith QArith Lia.
From Stdlib Require Import Qfield.
Import ListNotations.
Local Open Scope string_scope.
Local Open Scope Q_scope.
Local Open Scope list_scope.

(** ** Exceptions and results *)

(** The exceptions of Python that the code can meet, [ExternalError]
    for those of the libraries, and [NonFinite], which is no exception:
    it marks a run that the program continues with inf or nan and that
    the model cannot follow. *)
Inductive exn : Type :=
| ValueError
| ZeroDivisionError
| KeyError
| IndexError
| FileNotFoundError
| RecursionError
| TypeError
| AttributeError
| NonFinite
| ExternalError (msg : string).

Inductive result (A : Type) : Type :=
| Ok (a : A)
| Raise (e : exn).

Arguments Ok {A} a.
Arguments Raise {A} e.

Definition rbind {A B} (c : result A) (k : A -> result B) : result B :=
  match c with
  | Ok a => k a
  | Raise e => Raise e
  end.

Declare Scope py_scope.
Delimit Scope py_scope with py.
Notation "x <~ c ;; k" := (rbind c (fun x => k))
  (at level 61, c at next level, right associativity) : py_scope.
Local Open Scope py_scope.

Definition is_ok {A} (r : result A) : bool :=
  match r with Ok _ => true | Raise _ => false end.

(** ** Python dictionaries, in insertion order *)

Definition dict (V : Type) : Type := list (string * V).

Definition dict_keys {V} (d : dict V) : list string := map fst d.
Definition dict_values {V} (d : dict V) : list V := map snd d.
Definition dict_items {V} (d : dict V) : list (string * V) := d.

Fixpoint dict_get {V} (d : dict V) (k : string) : option V :=
  match d with
  | [] => None
  | (k', v) :: d' => if String.eqb k' k then Some v else dict_get d' k
  end.

(** [d[k]] *)
Definition dict_getitem {V} (d : dict V) (k : string) : result V :=
  match dict_get d k with
  | Some v => Ok v
  | None => Raise KeyError
  end.

(** [d[k] = v]: an existing key keeps its place, a new one goes last. *)
Fixpoint dict_setitem {V} (d : dict V) (k : string) (v : V) : dict V :=
  match d with
  | [] => [(k, v)]
  | (k', v') :: d' =>
      if String.eqb k' k then (k', v) :: d' else (k', v') :: dict_setitem d' k v
  end.

(** [del d[k]] for a key that may be missing *)
Fixpoint dict_delete {V} (d : dict V) (k : string) : dict V :=
  match d with
  | [] => []
  | (k', v) :: d' =>
      if String.eqb k' k then dict_delete d' k else (k', v) :: dict_delete d' k
  end.

Definition dict_wf {V} (d : dict V) : Prop := NoDup (dict_keys d).

(** ** Comparisons, [min] and [max] with a key *)

Definition Qltb (a b : Q) : bool := negb (Qle_bool b a).

(** The loop of [min(iterable, key=...)]: the running best is replaced
    only by a strictly smaller key, so the first minimum wins. *)
Fixpoint min_loop {A} (key : A -> result Q) (best : A) (best_key : Q)
         (rest : list A) : result A :=
  match rest with
  | [] => Ok best
  | x :: rest' =>
      k <~ key x ;;
      if Qltb k best_key then min_loop key x k rest'
      else min_loop key best best_key rest'
  end.

Definition py_min {A} (l : list A) (key : A -> result Q) : result A :=
  match l with
  | [] => Raise ValueError
  | x :: rest => k <~ key x ;; min_loop key x k rest
  end.

Fixpoint max_loop {A} (key : A -> result Q) (best : A) (best_key : Q)
         (rest : list A) : result A :=
  match rest with
  | [] => Ok best
  | x :: rest' =>
      k <~ key x ;;
      if Qltb best_key k then max_loop key x k rest'
      else max_loop key best best_key rest'
  end.

Definition py_max {A} (l : list A) (key : A -> result Q) : result A :=
  match l with
  | [] => Raise ValueError
  | x :: rest => k <~ key x ;; max_loop key x k rest
  end.

(** ** Metrics *)

Record QuantizationMetrics : Type := {
  original_size_mb : Q;
  quantized_size_mb : Q;
  size_reduction_ratio : Q;
  original_accuracy : Q;
  quantized_accuracy : Q;
  accuracy_retention : Q;
  original_inference_ms : Q;
  quantized_inference_ms : Q;
  speedup_ratio : Q;
  quantization_method : string
}.

(** ** Selection *)

(** The test of the loop at lines 504-507. *)
Definition meets_constraints (size_threshold_mb accuracy_threshold : Q)
           (item : string * QuantizationMetrics) : bool :=
  Qle_bool (quantized_size_mb (snd item)) size_threshold_mb
  && Qle_bool accuracy_threshold (accuracy_retention (snd item)).

Definition select_best_quantization
           (evaluation_results : dict QuantizationMetrics)
           (size_threshold_mb accuracy_threshold : Q) : result string :=
  let valid_methods :=
    filter (meets_constraints size_threshold_mb accuracy_threshold)
           (dict_items evaluation_results) in
  match valid_methods with
  | [] =>
      (* Fallback *)
      py_min (dict_keys evaluation_results)
             (fun m => metrics <~ dict_getitem evaluation_results m ;;
                       Ok (quantized_size_mb metrics))
  | _ :: _ =>
      best <~ py_min valid_methods
                     (fun x => Ok (quantized_size_mb (snd x))) ;;
      Ok (fst best)
  end.

(** Default thresholds of the signature. *)
Definition default_size_threshold_mb : Q := 20.
Definition default_accuracy_threshold : Q := 9 # 10.

(** ** The report *)

#[warnings="-register-all"]
Inductive json : Type :=
| JNull
| JNum (q : Q)
| JStr (s : string)
| JList (l : list json)
| JObj (fields : list (string * json)).

Definition json_field (j : json) (k : string) : option json :=
  match j with
  | JObj fields => dict_get fields k
  | _ => None
  end.

Definition metrics_json (metrics : QuantizationMetrics) : json :=
  JObj [ ("quantized_size_mb", JNum (quantized_size_mb metrics));
         ("size_reduction_ratio", JNum (size_reduction_ratio metrics));
         ("quantized_accuracy", JNum (quantized_accuracy metrics));
         ("accuracy_retention", JNum (accuracy_retention metrics));
         ("inference_time_ms", JNum (quantized_inference_ms metrics));
         ("speedup_ratio", JNum (speedup_ratio metrics)) ].

(** The record that [create_quantization_report] builds before it dumps
    it to [output_path]. *)
Definition quantization_report
           (evaluation_results : dict QuantizationMetrics) : result json :=
  let methods_tested := JList (map JStr (dict_keys evaluation_results)) in
  match dict_values evaluation_results with
  | [] =>
      Ok (JObj [ ("summary",
                  JObj [ ("original_model_size_mb", JNull);
                         ("original_accuracy", JNull);
                         ("quantization_methods_tested", methods_tested);
                         ("best_method_by_size", JNull);
                         ("best_method_by_accuracy", JNull);
                         ("recommendation", JNull) ]);
                 ("detailed_results", JObj []);
                 ("performance_comparison", JObj []) ])
  | first_result :: _ =>
      best_size <~ py_min (dict_keys evaluation_results)
                   (fun k => metrics <~ dict_getitem evaluation_results k ;;
                             Ok (quantized_size_mb metrics)) ;;
      best_accuracy <~ py_max (dict_keys evaluation_results)
                   (fun k => metrics <~ dict_getitem evaluation_results k ;;
                             Ok (accuracy_retention metrics)) ;;
      Ok (JObj [ ("summary",
                  JObj [ ("original_model_size_mb",
                          JNum (original_size_mb first_result));
                         ("original_accuracy",
                          JNum (original_accuracy first_result));
                         ("quantization_methods_tested", methods_tested);
                         ("best_method_by_size", JStr best_size);
                         ("best_method_by_accuracy", JStr best_accuracy);
                         ("recommendation", JNull) ]);
                 ("detailed_results",
                  JObj (fold_left
                          (fun acc item =>
                             dict_setitem acc (fst item)
                                          (metrics_json (snd item)))
                          (dict_items evaluation_results) []));
                 ("performance_comparison", JObj []) ])
  end.

(** ** Tensors, converter settings and the environment *)

Definition bytes : Type := list Byte.byte.

(** A batch of token rows, one row per text. *)
Definition tensor : Type := list (list Z).

(** Class scores, one row per input row. *)
Definition output_tensor : Type := list (list Q).

Inductive dtype : Type := tf_int8 | tf_float16.

Inductive optimize : Type := Optimize_DEFAULT.

(** The attributes of a [TFLiteConverter] that the pipeline sets.  The
    representative dataset is the sequence of batches its generator
    yields, or the exception the generator stops with. *)
Record converter_config : Type := {
  optimizations : list optimize;
  representative_dataset : option (result (list (tensor * tensor)));
  supported_types : list dtype;
  inference_input_type : option dtype;
  inference_output_type : option dtype
}.

(** [tf.lite.TFLiteConverter.from_keras_model(model)] *)
Definition from_keras_model : converter_config :=
  {| optimizations := [];
     representative_dataset := None;
     supported_types := [];
     inference_input_type := None;
     inference_output_type := None |}.

(** Assignments to the attributes of a converter. *)
Definition set_optimizations (v : list optimize) (c : converter_config)
  : converter_config :=
  {| optimizations := v;
     representative_dataset := representative_dataset c;
     supported_types := supported_types c;
     inference_input_type := inference_input_type c;
     inference_output_type := inference_output_type c |}.

Definition set_representative_dataset
           (v : result (list (tensor * tensor))) (c : converter_config)
  : converter_config :=
  {| optimizations := optimizations c;
     representative_dataset := Some v;
     supported_types := supported_types c;
     inference_input_type := inference_input_type c;
     inference_output_type := inference_output_type c |}.

Definition set_supported_types (v : list dtype) (c : converter_config)
  : converter_config :=
  {| optimizations := optimizations c;
     representative_dataset := representative_dataset c;
     supported_types := v;
     inference_input_type := inference_input_type c;
     inference_output_type := inference_output_type c |}.

Definition set_inference_input_type (v : dtype) (c : converter_config)
  : converter_config :=
  {| optimizations := optimizations c;
     representative_dataset := representative_dataset c;
     supported_types := supported_types c;
     inference_input_type := Some v;
     inference_output_type := inference_output_type c |}.

Definition set_inference_output_type (v : dtype) (c : converter_config)
  : converter_config :=
  {| optimizations := optimizations c;
     representative_dataset := representative_dataset c;
     supported_types := supported_types c;
     inference_input_type := inference_input_type c;
     inference_output_type := Some v |}.

(** What a loaded interpreter tells about its tensors. *)
Record interpreter_details : Type := {
  input_details : list (list Z);
  output_details : list (list Z);
  tensor_details : nat
}.

(** Calls to the outside, with the answers they got. *)
Inductive event : Type :=
| EvTime (t : Q)
| EvConvert (converter : converter_config) (r : result bytes)
| EvInvoke (model_content : bytes) (input_ids attention_mask : tensor)
           (r : result output_tensor)
| EvModelSize (r : result Q)
| EvEvaluateModel (test_texts : list string) (test_labels : list Z)
                  (r : result (Q * Q)).

Definition trace_t : Type := list event.

(** The collaborators of the pipeline.  Each may answer differently as
    the run goes on: it is given the trace so far.
    - [tokenizer]: the ids and the attention mask of one text, padded;
    - [tflite_convert]: [converter.convert()];
    - [tflite_interpreter]: [tf.lite.Interpreter] and [allocate_tensors];
    - [tflite_invoke]: [set_tensor] twice, [invoke], [get_tensor];
    - [time_time]: [time.time()];
    - [classifier_calculate_model_size]: [_calculate_model_size()];
    - [classifier_evaluate_model]: the accuracy and the average inference
      time of [MobileSmsClassifier.evaluate_model];
    - [np_sqrt]: the square root of [np.std];
    - [json_dump]: the serialization of the report. *)
Class Env : Type := {
  tokenizer : string -> list Z * list Z;
  tflite_convert : trace_t -> converter_config -> result bytes;
  tflite_interpreter : bytes -> result interpreter_details;
  tflite_invoke : trace_t -> bytes -> tensor -> tensor -> result output_tensor;
  time_time : trace_t -> Q;
  classifier_calculate_model_size : trace_t -> result Q;
  classifier_evaluate_model :
    trace_t -> list string -> list Z -> result (Q * Q);
  np_sqrt : Q -> Q;
  json_dump : json -> bytes
}.

(** ** The world and its monad *)

Record world : Type := {
  files : dict bytes;
  trace : trace_t
}.

Definition M (A : Type) : Type := world -> result A * world.

Definition ret {A} (a : A) : M A := fun w => (Ok a, w).

Definition bind {A B} (c : M A) (k : A -> M B) : M B :=
  fun w => match c w with
           | (Ok a, w') => k a w'
           | (Raise e, w') => (Raise e, w')
           end.

Notation "x <- c ;; k" := (bind c (fun x => k))
  (at level 61, c at next level, right associativity) : py_scope.
Notation "c ;;; k" := (bind c (fun _ => k))
  (at level 61, right associativity) : py_scope.

Definition lift {A} (r : result A) : M A := fun w => (r, w).

(** [try: c except Exception as e: handler e] *)
Definition try_except {A} (c : M A) (handler : exn -> M A) : M A :=
  fun w => match c w with
           | (Ok a, w') => (Ok a, w')
           | (Raise e, w') => handler e w'
           end.

Definition record_event (e : event) (w : world) : world :=
  {| files := files w; trace := trace w ++ [e] |}.

(** [for x in l: s = body x s] *)
Fixpoint for_each {A S} (l : list A) (body : A -> S -> M S) (s : S) : M S :=
  match l with
  | [] => ret s
  | x :: l' => s' <- body x s ;; for_each l' body s'
  end.

(** [for _ in range(n): s = body s] *)
Fixpoint for_range {S} (n : nat) (body : S -> M S) (s : S) : M S :=
  match n with
  | O => ret s
  | S n' => s' <- body s ;; for_range n' body s'
  end.

(** [Path(path).unlink()] as far as the store goes *)
Definition unlink (path : string) (w : world) : world :=
  {| files := dict_delete (files w) path; trace := trace w |}.

(** The file that [_calculate_model_size] saves the Keras model to. *)
Definition temp_model_path : string := "temp_model.h5".

Section Primitives.
Context {E : Env}.

Definition now : M Q :=
  fun w => let t := time_time (trace w) in (Ok t, record_event (EvTime t) w).

Definition convert (converter : converter_config) : M bytes :=
  fun w => let r := tflite_convert (trace w) converter in
           (r, record_event (EvConvert converter r) w).

Definition invoke (model_content : bytes) (input_ids attention_mask : tensor)
  : M output_tensor :=
  fun w => let r := tflite_invoke (trace w) model_content
                                  input_ids attention_mask in
           (r, record_event (EvInvoke model_content input_ids
                                      attention_mask r) w).

(** [MobileSmsClassifier._calculate_model_size] of a trained classifier
    saves the model to temp_model.h5 in the working directory, takes the
    size of that file and unlinks it.  The oracle answers with the size;
    in the store the file is gone afterwards, whether or not there was
    one before.  When the saving fails, the failure is the outcome; what
    is left of the file then is not described. *)
Definition calculate_model_size : M Q :=
  fun w => let r := classifier_calculate_model_size (trace w) in
           (r, record_event (EvModelSize r)
                 (if is_ok r then unlink temp_model_path w else w)).

(** [MobileSmsClassifier.evaluate_model] of a trained classifier: the
    oracle answers with the accuracy and the average inference time.
    The metrics it builds end with a call of [_calculate_model_size], so
    that a call that returns has removed temp_model.h5 as well. *)
Definition evaluate_model (test_texts : list string) (test_labels : list Z)
  : M (Q * Q) :=
  fun w => let r := classifier_evaluate_model (trace w)
                                              test_texts test_labels in
           (r, record_event (EvEvaluateModel test_texts test_labels r)
                 (if is_ok r then unlink temp_model_path w else w)).
End Primitives.

(** [with open(path, 'wb') as f: f.write(content)] *)
Definition write_file (path : string) (content : bytes) : M unit :=
  fun w => (Ok tt, {| files := dict_setitem (files w) path content;
                      trace := trace w |}).

(** [with open(path, 'rb') as f: f.read()] *)
Definition read_file (path : string) : M bytes :=
  fun w => match dict_get (files w) path with
           | Some content => (Ok content, w)
           | None => (Raise FileNotFoundError, w)
           end.

(** ** Lists, ranges and numpy reductions *)

(** [l[:n]] and [l[i:j]] for indices that are not negative. *)
Definition py_slice_to {A} (n : nat) (l : list A) : list A := firstn n l.
Definition py_slice {A} (i j : nat) (l : list A) : list A :=
  firstn (j - i) (skipn i l).

(** [l[i]] *)
Definition py_index {A} (l : list A) (i : nat) : result A :=
  match nth_error l i with
  | Some x => Ok x
  | None => Raise IndexError
  end.

Fixpoint range_loop (fuel i stop step : nat) : list nat :=
  match fuel with
  | O => []
  | S fuel' =>
      if (i <? stop)%nat then i :: range_loop fuel' (i + step) stop step
      else []
  end.

(** [range(start, stop, step)] with a step that is not negative; at most
    [stop] indices can be produced, which bounds the recursion. *)
Definition py_range (start stop step : nat) : result (list nat) :=
  if (step =? 0)%nat then Raise ValueError
  else Ok (range_loop stop start stop step).

Definition np_sum (l : list Q) : Q := fold_left Qplus l 0.

Definition Qlen {A} (l : list A) : Q := inject_Z (Z.of_nat (List.length l)).

(** [np.mean]: the sum and the quotient stand for those of numpy, whose
    rounding is not modelled.  On the empty list numpy answers nan, which
    the callers below never get to use: [np.min] raises first. *)
Definition np_mean (l : list Q) : Q := np_sum l / Qlen l.

Definition np_min (l : list Q) : result Q :=
  match l with
  | [] => Raise ValueError
  | x :: rest => Ok (fold_left (fun m y => if Qltb y m then y else m) rest x)
  end.

Definition np_max (l : list Q) : result Q :=
  match l with
  | [] => Raise ValueError
  | x :: rest => Ok (fold_left (fun m y => if Qltb m y then y else m) rest x)
  end.

Fixpoint argmax_loop (best : nat) (best_val : Q) (i : nat) (rest : list Q)
  : nat :=
  match rest with
  | [] => best
  | y :: rest' =>
      if Qltb best_val y then argmax_loop i y (S i) rest'
      else argmax_loop best best_val (S i) rest'
  end.

(** [np.argmax]: the first index of the largest entry. *)
Definition np_argmax (l : list Q) : result nat :=
  match l with
  | [] => Raise ValueError
  | x :: rest => Ok (argmax_loop 0 x 1 rest)
  end.

(** [a / b] on Python floats and [a / b] on integers: Python raises
    [ZeroDivisionError] when [b] is zero. *)
Definition float_div (a b : Q) : result Q :=
  if Qeq_bool b 0 then Raise ZeroDivisionError else Ok (a / b).

(** [a / b] where [b] is a numpy float64.  With [b] zero numpy warns,
    answers inf or nan and the program goes on; the model has no such
    values and stops there. *)
Definition np_true_div (a b : Q) : result Q :=
  if Qeq_bool b 0 then Raise NonFinite else Ok (a / b).

Definition int_true_div (a b : nat) : result Q :=
  match b with
  | O => Raise ZeroDivisionError
  | S _ => Ok (Z.of_nat a # Pos.of_nat b)
  end.

(** ** Paths *)

(** [s.split('/')] *)
Fixpoint split_slash (s : string) : list string :=
  match s with
  | EmptyString => [EmptyString]
  | String c rest =>
      if Ascii.eqb c "/"%char then EmptyString :: split_slash rest
      else match split_slash rest with
           | x :: xs => String c x :: xs
           | [] => [String c EmptyString]
           end
  end.

(** [s.lstrip('/')] *)
Fixpoint lstrip_slash (s : string) : string :=
  match s with
  | String c rest => if Ascii.eqb c "/"%char then lstrip_slash rest else s
  | EmptyString => s
  end.

(** A path of [pathlib] on a POSIX system: its root, which is empty,
    "/" or "//", and the names below the root. *)
Record pure_path : Type := {
  path_root : string;
  path_names : list string
}.

(** The root and the rest of a path string: leading slashes make the
    root "/", except that exactly two of them make it "//". *)
Definition splitroot (part : string) : string * string :=
  let stripped := lstrip_slash part in
  let slashes := (String.length part - String.length stripped)%nat in
  if (slashes =? 0)%nat then ("", part)
  else if (slashes =? 2)%nat then ("//", stripped)
       else ("/", stripped).

(** [Path(s)]: empty names and "." are dropped. *)
Definition Path (s : string) : pure_path :=
  let (root, rel) := splitroot s in
  {| path_root := root;
     path_names :=
       filter (fun x => negb (String.eqb x "") && negb (String.eqb x "."))
              (split_slash rel) |}.

(** [p / name]: a [name] with a root replaces [p]. *)
Definition path_div (p : pure_path) (name : string) : pure_path :=
  let q := Path name in
  if String.eqb (path_root q) "" then
    {| path_root := path_root p;
       path_names := path_names p ++ path_names q |}
  else q.

(** [str(p)] *)
Definition path_str (p : pure_path) : string :=
  match path_root p ++ String.concat "/" (path_names p) with
  | EmptyString => "."
  | s => s
  end.

(** [str(Path(dir) / name)] *)
Definition path_join (dir name : string) : string :=
  path_str (path_div (Path dir) name).

(** What [str(Path(dir) / name)] starts with when [name] is a plain file
    name. *)
Definition path_dir_prefix (dir : string) : string :=
  path_root (Path dir)
  ++ match path_names (Path dir) with
     | [] => ""
     | names => String.concat "/" names ++ "/"
     end.

(** ** The quantizer *)

Record processed_data : Type := {
  input_ids : tensor;
  attention_mask : tensor
}.

Record model_metadata : Type := {
  conversion_time_seconds : Q;
  meta_input_details : list (list Z);
  meta_output_details : list (list Z);
  num_tensors : nat
}.

Record TFLiteModelInfo : Type := {
  model_path : string;
  size_mb : Q;
  input_shape : list Z;
  output_shape : list Z;
  quantization_type : string;
  inference_time_ms : Q;
  accuracy : Q;
  metadata : model_metadata
}.

Section Quantizer.
Context {E : Env}.

(** [MobileSmsClassifier.preprocess_data] without labels. *)
Definition preprocess_data (texts : list string) : processed_data :=
  {| input_ids := map (fun t => fst (tokenizer t)) texts;
     attention_mask := map (fun t => snd (tokenizer t)) texts |}.

(** The batches of [representative_data_gen]. *)
Definition create_representative_dataset
           (texts : list string) (batch_size : nat)
  : result (list (tensor * tensor)) :=
  let processed := preprocess_data texts in
  starts <~ py_range 0 (List.length texts) batch_size ;;
  Ok (map (fun i =>
             let end_idx := Nat.min (i + batch_size) (List.length texts) in
             (py_slice i end_idx (input_ids processed),
              py_slice i end_idx (attention_mask processed)))
          starts).

Definition _get_tflite_model_info
           (model_path : string) (model_content : bytes)
           (quantization_type : string) (conversion_time : Q)
  : result TFLiteModelInfo :=
  let size_mb := Z.of_nat (List.length model_content) # 1048576 in
  interpreter <~ tflite_interpreter model_content ;;
  input_shape <~ py_index (input_details interpreter) 0 ;;
  output_shape <~ py_index (output_details interpreter) 0 ;;
  Ok {| model_path := model_path;
        size_mb := size_mb;
        input_shape := input_shape;
        output_shape := output_shape;
        quantization_type := quantization_type;
        inference_time_ms := 0;
        accuracy := 0;
        metadata :=
          {| conversion_time_seconds := conversion_time;
             meta_input_details := input_details interpreter;
             meta_output_details := output_details interpreter;
             num_tensors := tensor_details interpreter |} |}.

Definition dynamic_converter : converter_config :=
  set_optimizations [Optimize_DEFAULT] from_keras_model.

Definition quantize_dynamic (output_path : string) : M TFLiteModelInfo :=
  let converter := dynamic_converter in
  start_time <- now ;;
  quantized_model <- convert converter ;;
  end_time <- now ;;
  let conversion_time := end_time - start_time in
  write_file output_path quantized_model ;;;
  lift (_get_tflite_model_info output_path quantized_model
                               "dynamic" conversion_time).

Definition float16_converter : converter_config :=
  let converter := set_optimizations [Optimize_DEFAULT] from_keras_model in
  set_supported_types [tf_float16] converter.

Definition quantize_float16 (output_path : string) : M TFLiteModelInfo :=
  let converter := float16_converter in
  start_time <- now ;;
  quantized_model <- convert converter ;;
  end_time <- now ;;
  let conversion_time := end_time - start_time in
  write_file output_path quantized_model ;;;
  lift (_get_tflite_model_info output_path quantized_model
                               "float16" conversion_time).

(** The converter of [quantize_int8] after the [if use_fallback]. *)
Definition int8_converter (calibration_texts : list string)
           (use_fallback : bool) : converter_config :=
  let converter := set_optimizations [Optimize_DEFAULT] from_keras_model in
  let converter :=
    set_representative_dataset
      (create_representative_dataset calibration_texts 1) converter in
  if use_fallback then
    (* Allow float fallback for unsupported operations *)
    set_supported_types [tf_int8] converter
  else
    (* Force INT8 for everything *)
    let converter := set_supported_types [tf_int8] converter in
    let converter := set_inference_input_type tf_int8 converter in
    set_inference_output_type tf_int8 converter.

(** [quantize_int8] calls itself in its handler; [fuel] bounds the
    depth of the calls.  [quantize_int8_fuel_irrelevant] shows that
    depth two is never exceeded. *)
Fixpoint quantize_int8_rec (fuel : nat) (output_path : string)
         (calibration_texts : list string) (use_fallback : bool)
  : M TFLiteModelInfo :=
  match fuel with
  | O => lift (Raise RecursionError)
  | S fuel' =>
      let converter := int8_converter calibration_texts use_fallback in
      let quantization_type :=
        if use_fallback then "int8_fallback" else "int8" in
      start_time <- now ;;
      attempt <- try_except
        (quantized_model <- convert converter ;;
         end_time <- now ;;
         ret (inl (quantized_model, end_time - start_time)))
        (fun e =>
           if negb use_fallback then
             (* Retrying with float fallback *)
             info <- quantize_int8_rec fuel' output_path
                                       calibration_texts true ;;
             ret (inr info)
           else lift (Raise e)) ;;
      match attempt with
      | inr info => ret info
      | inl (quantized_model, conversion_time) =>
          write_file output_path quantized_model ;;;
          lift (_get_tflite_model_info output_path quantized_model
                                       quantization_type conversion_time)
      end
  end.

Definition quantize_int8 (output_path : string)
           (calibration_texts : list string) (use_fallback : bool)
  : M TFLiteModelInfo :=
  quantize_int8_rec 2 output_path calibration_texts use_fallback.

Definition quantize_all_methods (output_dir : string)
           (calibration_texts : list string) : M (dict TFLiteModelInfo) :=
  let results : dict TFLiteModelInfo := [] in
  (* Dynamic quantization *)
  results <- try_except
    (let dynamic_path :=
       path_join output_dir "mobile_classifier_dynamic.tflite" in
     info <- quantize_dynamic dynamic_path ;;
     ret (dict_setitem results "dynamic" info))
    (fun _ => ret results) ;;
  (* Float16 quantization *)
  results <- try_except
    (let float16_path :=
       path_join output_dir "mobile_classifier_float16.tflite" in
     info <- quantize_float16 float16_path ;;
     ret (dict_setitem results "float16" info))
    (fun _ => ret results) ;;
  (* INT8 quantization with fallback *)
  results <- try_except
    (let int8_path :=
       path_join output_dir "mobile_classifier_int8.tflite" in
     info <- quantize_int8 int8_path calibration_texts true ;;
     ret (dict_setitem results "int8" info))
    (fun _ => ret results) ;;
  ret results.
End Quantizer.

(** ** Benchmark, accuracy and the evaluation loop *)

Definition default_num_runs : nat := 100.

Section Evaluation.
Context {E : Env}.

(** [np.std]: the root of the mean squared deviation. *)
Definition np_std (l : list Q) : Q :=
  let mean := np_mean l in
  np_sqrt (np_mean (map (fun x => (x - mean) * (x - mean)) l)).

(** One turn of the timing loop: the state is the list [times]. *)
Definition benchmark_run (model_content : bytes) (processed : processed_data)
           (times : list Q) : M (list Q) :=
  start_time <- now ;;
  _ <- invoke model_content (input_ids processed)
              (attention_mask processed) ;;
  end_time <- now ;;
  ret (times ++ [(end_time - start_time) * 1000]).

Definition benchmark_tflite_model (model_path : string)
           (test_texts : list string) (num_runs : nat) : M (dict Q) :=
  model_content <- read_file model_path ;;
  _ <- lift (tflite_interpreter model_content) ;;
  let sample_text :=
    match test_texts with
    | text :: _ => text
    | [] => "Test message"
    end in
  let processed := preprocess_data [sample_text] in
  times <- for_range num_runs (benchmark_run model_content processed) [] ;;
  let avg_time := np_mean times in
  min_time <- lift (np_min times) ;;
  max_time <- lift (np_max times) ;;
  let std_time := np_std times in
  ret [ ("avg_inference_time_ms", avg_time);
        ("min_inference_time_ms", min_time);
        ("max_inference_time_ms", max_time);
        ("std_inference_time_ms", std_time);
        ("total_benchmark_time_s", np_sum times / 1000) ].

(** One turn of the scoring loop: the state is [correct_predictions]. *)
Definition accuracy_step (model_content : bytes) (pair : string * Z)
           (correct_predictions : nat) : M nat :=
  let '(text, true_label) := pair in
  let processed := preprocess_data [text] in
  output_data <- invoke model_content (input_ids processed)
                        (attention_mask processed) ;;
  scores <- lift (py_index output_data 0) ;;
  predicted_label <- lift (np_argmax scores) ;;
  ret (if (Z.of_nat predicted_label =? true_label)%Z
       then S correct_predictions else correct_predictions).

Definition _evaluate_tflite_accuracy (model_path : string)
           (test_texts : list string) (test_labels : list Z) : M Q :=
  model_content <- read_file model_path ;;
  _ <- lift (tflite_interpreter model_content) ;;
  correct_predictions <-
    for_each (combine test_texts test_labels)
             (accuracy_step model_content) 0%nat ;;
  lift (int_true_div correct_predictions (List.length test_texts)).

(** The body of the loop of [evaluate_quantized_models].  The sizes and
    the accuracies are Python floats, so that the first two divisions
    are Python's; the average time of the benchmark is the numpy float64
    of [np.mean], so that the third is numpy's. *)
Definition evaluate_one (original_size original_accuracy
                         original_inference_time : Q)
           (test_texts : list string) (test_labels : list Z)
           (item : string * TFLiteModelInfo)
           (evaluation_results : dict QuantizationMetrics)
  : M (dict QuantizationMetrics) :=
  let '(method, model_info) := item in
  benchmark_results <-
    benchmark_tflite_model (model_path model_info)
                           (py_slice_to 10 test_texts) default_num_runs ;;
  quantized_accuracy <-
    _evaluate_tflite_accuracy (model_path model_info)
                              test_texts test_labels ;;
  size_reduction <- lift (float_div original_size (size_mb model_info)) ;;
  accuracy_retention <-
    lift (float_div quantized_accuracy original_accuracy) ;;
  avg_inference_time_ms <-
    lift (dict_getitem benchmark_results "avg_inference_time_ms") ;;
  speedup <-
    lift (np_true_div original_inference_time avg_inference_time_ms) ;;
  let metrics :=
    {| original_size_mb := original_size;
       quantized_size_mb := size_mb model_info;
       size_reduction_ratio := size_reduction;
       original_accuracy := original_accuracy;
       quantized_accuracy := quantized_accuracy;
       accuracy_retention := accuracy_retention;
       original_inference_ms := original_inference_time;
       quantized_inference_ms := avg_inference_time_ms;
       speedup_ratio := speedup;
       quantization_method := method |} in
  ret (dict_setitem evaluation_results method metrics).

Definition evaluate_quantized_models
           (quantized_models : dict TFLiteModelInfo)
           (test_texts : list string) (test_labels : list Z)
  : M (dict QuantizationMetrics) :=
  (* Get original model metrics *)
  original_size <- calculate_model_size ;;
  original_metrics <- evaluate_model test_texts test_labels ;;
  let original_accuracy := fst original_metrics in
  let original_inference_time := snd original_metrics in
  for_each (dict_items quantized_models)
           (evaluate_one original_size original_accuracy
                         original_inference_time test_texts test_labels)
           [].

Definition create_quantization_report
           (evaluation_results : dict QuantizationMetrics)
           (output_path : string) : M unit :=
  report <- lift (quantization_report evaluation_results) ;;
  write_file output_path (json_dump report).

(** ** The pipeline step of train_and_evaluate.py *)

Record pipeline_data : Type := {
  train_texts : list string;
  test_texts : list string;
  test_labels : list Z
}.

Record quantization_results : Type := {
  quantized_models : dict TFLiteModelInfo;
  evaluation_results : dict QuantizationMetrics;
  best_method : string
}.

(** [data['train_texts'][:500]] *)
Definition calibration_sample_size : nat := 500.

Definition calibration_texts_of (data : pipeline_data) : list string :=
  py_slice_to calibration_sample_size (train_texts data).

(** [quantize_model]; [target_size_mb] is
    [self.config['model']['target_size_mb']].  The plot that follows the
    report is left out. *)
Definition quantize_model (data : pipeline_data) (target_size_mb : Q)
  : M quantization_results :=
  let calibration_texts := calibration_texts_of data in
  quantized_models <-
    quantize_all_methods "models/quantized" calibration_texts ;;
  evaluation_results <-
    evaluate_quantized_models quantized_models
                              (py_slice_to 100 (test_texts data))
                              (py_slice_to 100 (test_labels data)) ;;
  best_method <-
    lift (select_best_quantization evaluation_results
                                   target_size_mb (9 # 10)) ;;
  create_quantization_report
    evaluation_results "evaluation/reports/quantization_report.json" ;;;
  ret {| quantized_models := quantized_models;
         evaluation_results := evaluation_results;
         best_method := best_method |}.
End Evaluation.

(** ** Vocabulary of the statements *)

(** [x] sits in [l], has [P], every [P]-member before it has a strictly
    larger [f], and every [P]-member after it has an [f] at least as
    large: [x] is the first of the [P]-members of smallest [f]. *)
Definition first_min_among {A} (P : A -> Prop) (f : A -> Q)
           (l : list A) (x : A) : Prop :=
  exists pre post,
    l = pre ++ x :: post /\ P x /\
    (forall y, In y pre -> P y -> f x < f y) /\
    (forall y, In y post -> P y -> f x <= f y).

(** [x] is the first member of [l] of smallest [f]. *)
Definition first_min {A} (f : A -> Q) (l : list A) (x : A) : Prop :=
  first_min_among (fun _ => True) f l x.

(** The size the fallback reads through [evaluation_results[m]]. *)
Definition method_size (d : dict QuantizationMetrics) (m : string) : Q :=
  match dict_get d m with
  | Some metrics => quantized_size_mb metrics
  | None => 0
  end.

Definition method_retention (d : dict QuantizationMetrics) (m : string) : Q :=
  match dict_get d m with
  | Some metrics => accuracy_retention metrics
  | None => 0
  end.

Definition item_size (item : string * QuantizationMetrics) : Q :=
  quantized_size_mb (snd item).

(** Both deployment constraints hold for a candidate. *)
Definition satisfies (size_threshold_mb accuracy_threshold : Q)
           (item : string * QuantizationMetrics) : Prop :=
  quantized_size_mb (snd item) <= size_threshold_mb /\
  accuracy_threshold <= accuracy_retention (snd item).

(** What the selection looks at. *)
Definition selection_view (item : string * QuantizationMetrics)
  : string * Q * Q :=
  (fst item, quantized_size_mb (snd item), accuracy_retention (snd item)).

(** Two results agree up to a relation on their values. *)
Definition result_rel {A B} (R : A -> B -> Prop)
           (ra : result A) (rb : result B) : Prop :=
  match ra, rb with
  | Ok a, Ok b => R a b
  | Raise e, Raise e' => e = e'
  | _, _ => False
  end.

(** ** Sample candidates *)

Definition sample_metrics (method : string) (size retention latency : Q)
  : QuantizationMetrics :=
  {| original_size_mb := 60;
     quantized_size_mb := size;
     size_reduction_ratio := 60 / size;
     original_accuracy := 1;
     quantized_accuracy := retention;
     accuracy_retention := retention;
     original_inference_ms := 50;
     quantized_inference_ms := latency;
     speedup_ratio := 50 / latency;
     quantization_method := method |}.

(** dynamic 8 MB / 0.97, float16 15 MB / 0.99, int8 3 MB / 0.85 *)
Definition sample_results : dict QuantizationMetrics :=
  [ ("dynamic", sample_metrics "dynamic" 8 (97 # 100) 20);
    ("float16", sample_metrics "float16" 15 (99 # 100) 30);
    ("int8", sample_metrics "int8" 3 (85 # 100) 10) ].

(** The same candidates with other latencies. *)
Definition sample_results_slow : dict QuantizationMetrics :=
  [ ("dynamic", sample_metrics "dynamic" 8 (97 # 100) 200);
    ("float16", sample_metrics "float16" 15 (99 # 100) 3);
    ("int8", sample_metrics "int8" 3 (85 # 100) 1000) ].

(** ** Vocabulary for the accuracy evaluation *)

(** Whether the label read off one answer of the interpreter (the first
    index of the largest score of its first row) is [true_label]. *)
Definition is_correct (output_data : output_tensor) (true_label : Z) : bool :=
  match py_index output_data 0 with
  | Ok scores =>
      match np_argmax scores with
      | Ok predicted_label => (Z.of_nat predicted_label =? true_label)%Z
      | Raise _ => false
      end
  | Raise _ => false
  end.

Definition count_correct (outs : list output_tensor) (labels : list Z) : nat :=
  List.length (filter (fun p => is_correct (fst p) (snd p))
                      (combine outs labels)).

(** The interpreter calls of a scoring loop that got the answers [outs]
    for the first texts of [texts]. *)
Definition accuracy_events {E : Env} (model_content : bytes)
           (texts : list string) (outs : list output_tensor) : list event :=
  map (fun p => EvInvoke model_content
                         (input_ids (preprocess_data [fst p]))
                         (attention_mask (preprocess_data [fst p]))
                         (Ok (snd p)))
      (combine texts outs).

(** ** A sample environment *)

Definition sample_tokenizer (text : string) : list Z * list Z :=
  ([Z.of_nat (String.length text)], [1%Z]).

(** One byte for dynamic range, two for float16, three for int8. *)
Definition sample_model (converter : converter_config) : bytes :=
  match supported_types converter with
  | [] => [Byte.x01]
  | tf_float16 :: _ => [Byte.x02; Byte.x02]
  | tf_int8 :: _ => [Byte.x03; Byte.x03; Byte.x03]
  end.

Definition sample_interpreter (model_content : bytes)
  : result interpreter_details :=
  Ok {| input_details := [[1; 128]; [1; 128]]%Z;
        output_details := [[1; 2]]%Z;
        tensor_details := 10 |}.

(** Class 0 for a text of even length, class 1 for one of odd length. *)
Definition sample_scores (input_ids : tensor) : output_tensor :=
  match input_ids with
  | (n :: _) :: _ => if Z.even n then [[1; 0]] else [[0; 1]]
  | _ => [[1; 0]]
  end.

(** The clock shows how many calls were made before. *)
Definition sample_clock (tr : trace_t) : Q :=
  inject_Z (Z.of_nat (List.length tr)).

(** Everything goes through; the original model weighs 60 MB, is always
    right and takes 50 ms, and cannot be evaluated on no text at all. *)
Definition sample_env : Env :=
  {| tokenizer := sample_tokenizer;
     tflite_convert := fun _ converter => Ok (sample_model converter);
     tflite_interpreter := sample_interpreter;
     tflite_invoke := fun _ _ input_ids _ => Ok (sample_scores input_ids);
     time_time := sample_clock;
     classifier_calculate_model_size := fun _ => Ok 60;
     classifier_evaluate_model :=
       fun _ test_texts _ =>
         match test_texts with
         | [] => Raise ZeroDivisionError
         | _ :: _ => Ok (1, 50)
         end;
     np_sqrt := fun q => q;
     json_dump := fun _ => [] |}.

Definition empty_world : world := {| files := []; trace := [] |}.

(** A world that holds one model file. *)
Definition sample_world : world :=
  {| files := [("model.tflite", [Byte.x01])]; trace := [] |}.

(** ** Vocabulary for the benchmark *)

(** One timed run: the clock before, the answer of the interpreter, the
    clock after. *)
Definition timed_run : Type := Q * output_tensor * Q.

Definition run_time_ms (r : timed_run) : Q := (snd r - fst (fst r)) * 1000.

Definition run_times (runs : list timed_run) : list Q := map run_time_ms runs.

(** The calls of a timing loop that went through [runs], all on the one
    preprocessed [sample_text]. *)
Definition benchmark_events {E : Env} (model_content : bytes)
           (sample_text : string) (runs : list timed_run) : list event :=
  flat_map (fun r =>
              [ EvTime (fst (fst r));
                EvInvoke model_content
                         (input_ids (preprocess_data [sample_text]))
                         (attention_mask (preprocess_data [sample_text]))
                         (Ok (snd (fst r)));
                EvTime (snd r) ])
           runs.

(** ** Vocabulary for the evaluation loop *)

(** The two calls that measure the original model. *)
Definition is_baseline_event (e : event) : bool :=
  match e with
  | EvModelSize _ | EvEvaluateModel _ _ _ => true
  | _ => false
  end.

Definition baseline_free (evs : list event) : Prop :=
  Forall (fun e => is_baseline_event e = false) evs.

(** The ratios of one entry, against the baseline [b_size], [b_acc],
    [b_lat]: each ratio is what the division of the code answers on the
    two values named. *)
Definition ratios_against (b_size b_acc b_lat : Q)
           (metrics : QuantizationMetrics) : Prop :=
  original_size_mb metrics = b_size /\
  original_accuracy metrics = b_acc /\
  original_inference_ms metrics = b_lat /\
  float_div b_size (quantized_size_mb metrics)
  = Ok (size_reduction_ratio metrics) /\
  float_div (quantized_accuracy metrics) b_acc
  = Ok (accuracy_retention metrics) /\
  np_true_div b_lat (quantized_inference_ms metrics)
  = Ok (speedup_ratio metrics).

(** The quantized accuracy and latency of [metrics] were measured on the
    model file of [info]: by a benchmark on the first ten test texts and,
    right after it, by the accuracy evaluation on all of them. *)
Definition measured_on {E : Env} (test_texts : list string)
           (test_labels : list Z) (info : TFLiteModelInfo)
           (metrics : QuantizationMetrics) : Prop :=
  exists w0 benchmark_results w1 w2,
    benchmark_tflite_model (model_path info) (py_slice_to 10 test_texts)
                           default_num_runs w0
    = (Ok benchmark_results, w1) /\
    dict_get benchmark_results "avg_inference_time_ms"
    = Some (quantized_inference_ms metrics) /\
    _evaluate_tflite_accuracy (model_path info) test_texts test_labels w1
    = (Ok (quantized_accuracy metrics), w2).

(** The entry that the evaluation makes for a converted model: under
    the same key, named after it, with the size of the model, its own
    measurements and the ratios against the baseline. *)
Definition evaluated_entry {E : Env} (test_texts : list string)
           (test_labels : list Z) (b_size b_acc b_lat : Q)
           (item : string * TFLiteModelInfo)
           (entry : string * QuantizationMetrics) : Prop :=
  fst entry = fst item /\
  quantization_method (snd entry) = fst item /\
  quantized_size_mb (snd entry) = size_mb (snd item) /\
  measured_on test_texts test_labels (snd item) (snd entry) /\
  ratios_against b_size b_acc b_lat (snd entry).

Definition sample_data : pipeline_data :=
  {| train_texts := ["win a prize now"; "your otp is 1234"; "lunch today?"];
     test_texts := ["ab"; "abc"; "abcd"];
     test_labels := [0; 1; 1]%Z |}.

(** ** Vocabulary for the conversions *)

Definition is_convert_event (e : event) : bool :=
  match e with
  | EvConvert _ _ => true
  | _ => false
  end.

Definition convert_events (evs : list event) : list event :=
  filter is_convert_event evs.

(** The entry a strategy leaves in the results: none when it raised. *)
Definition kept {A} (method : string) (r : result A) : dict A :=
  match r with
  | Ok info => [(method, info)]
  | Raise _ => []
  end.

(** ** More sample runs *)

(** The three conversions on the sample environment, from an empty
    world. *)
Definition sample_conversion : result (dict TFLiteModelInfo) * world :=
  @quantize_all_methods sample_env "models/quantized"
                        (calibration_texts_of sample_data) empty_world.

Definition sample_models : dict TFLiteModelInfo :=
  match fst sample_conversion with
  | Ok models => models
  | Raise _ => []
  end.

Definition sample_models_world : world := snd sample_conversion.

(** The interpreter fails on the one-byte model (dynamic range) and
    answers on the others. *)
Definition failing_benchmark_env : Env :=
  {| tokenizer := sample_tokenizer;
     tflite_convert := fun _ converter => Ok (sample_model converter);
     tflite_interpreter := sample_interpreter;
     tflite_invoke :=
       fun _ model_content input_ids _ =>
         match model_content with
         | [_] => Raise (ExternalError "invoke failed")
         | _ => Ok (sample_scores input_ids)
         end;
     time_time := sample_clock;
     classifier_calculate_model_size := fun _ => Ok 60;
     classifier_evaluate_model := fun _ _ _ => Ok (1, 50);
     np_sqrt := fun q => q;
     json_dump := fun _ => [] |}.

(** No conversion goes through. *)
Definition failing_convert_env : Env :=
  {| tokenizer := sample_tokenizer;
     tflite_convert := fun _ _ => Raise (ExternalError "conversion failed");
     tflite_interpreter := sample_interpreter;
     tflite_invoke := fun _ _ input_ids _ => Ok (sample_scores input_ids);
     time_time := sample_clock;
     classifier_calculate_model_size := fun _ => Ok 60;
     classifier_evaluate_model := fun _ _ _ => Ok (1, 50);
     np_sqrt := fun q => q;
     json_dump := fun _ => [] |}.

(** Full int8 input and output types cannot be converted; the relaxed
    variant can. *)
Definition strict_failing_env : Env :=
  {| tokenizer := sample_tokenizer;
     tflite_convert :=
       fun _ converter =>
         match inference_input_type converter with
         | Some _ => Raise (ExternalError "unsupported operation")
         | None => Ok (sample_model converter)
         end;
     tflite_interpreter := sample_interpreter;
     tflite_invoke := fun _ _ input_ids _ => Ok (sample_scores input_ids);
     time_time := sample_clock;
     classifier_calculate_model_size := fun _ => Ok 60;
     classifier_evaluate_model := fun _ _ _ => Ok (1, 50);
     np_sqrt := fun q => q;
     json_dump := fun _ => [] |}.

(** A training corpus of 400 texts, fewer than the 500 asked for. *)
Definition short_corpus_data : pipeline_data :=
  {| train_texts := repeat "sms" 400;
     test_texts := ["ab"; "abc"; "abcd"];
     test_labels := [0; 1; 1]%Z |}.

(** No test text at all. *)
Definition no_test_data : pipeline_data :=
  {| train_texts := ["win a prize now"; "your otp is 1234"; "lunch today?"];
     test_texts := [];
     test_labels := [] |}.

Definition report_path : string :=
  "evaluation/reports/quantization_report.json".

(** The float16 conversion fails; the other two go through. *)
Definition float16_failing_env : Env :=
  {| tokenizer := sample_tokenizer;
     tflite_convert :=
       fun _ converter =>
         match supported_types converter with
         | tf_float16 :: _ => Raise (ExternalError "conversion failed")
         | _ => Ok (sample_model converter)
         end;
     tflite_interpreter := sample_interpreter;
     tflite_invoke := fun _ _ input_ids _ => Ok (sample_scores input_ids);
     time_time := sample_clock;
     classifier_calculate_model_size := fun _ => Ok 60;
     classifier_evaluate_model := fun _ _ _ => Ok (1, 50);
     np_sqrt := fun q => q;
     json_dump := fun _ => [] |}.

(** ** Vocabulary for the report *)

(** [x] is the first member of [l] of largest [f]. *)
Definition first_max {A} (f : A -> Q) (l : list A) (x : A) : Prop :=
  exists pre post,
    l = pre ++ x :: post /\
    (forall y, In y pre -> f y < f x) /\
    (forall y, In y post -> f y <= f x).

Definition item_retention (item : string * QuantizationMetrics) : Q :=
  accuracy_retention (snd item).

(** [j[k1][k2]] on nested objects. *)
Definition json_path2 (j : json) (k1 k2 : string) : option json :=
  match json_field j k1 with
  | Some inner => json_field inner k2
  | None => None
  end.

(** ** Vocabulary for single conversions *)

(** A run that asks for one conversion with [converter]: if that fails,
    the error is the outcome and no file is touched; if it succeeds, the
    model is stored under [path] (whether or not it can then be
    described) and the outcome is its description as [qtype]. *)
Definition single_attempt {E : Env} (run : M TFLiteModelInfo)
           (converter : converter_config) (path qtype : string)
           (w : world) : Prop :=
  exists res w' evs r,
    run w = (res, w') /\
    trace w' = trace w ++ evs /\
    convert_events evs = [EvConvert converter r] /\
    (forall e, r = Raise e -> res = Raise e /\ files w' = files w) /\
    (forall model,
        r = Ok model ->
        files w' = dict_setitem (files w) path model /\
        exists conversion_time,
          res = _get_tflite_model_info path model qtype conversion_time).

(** The name of the model file of a method. *)
Definition model_file_name (method : string) : string :=
  "mobile_classifier_" ++ method ++ ".tflite".

(** How the entry of a method is labelled. *)
Definition entry_quantization_type (method : string) : string :=
  if String.eqb method "int8" then "int8_fallback" else method.

(** ** Vocabulary for the evaluation results *)

(** A computation that leaves the file store as it found it, whatever
    its outcome. *)
Definition keeps_files {A} (c : M A) : Prop :=
  forall w, files (snd (c w)) = files w.

(** An entry of the evaluation results belongs to a converted model. *)
Definition entry_of_model (item : string * TFLiteModelInfo)
           (entry : string * QuantizationMetrics) : Prop :=
  fst entry = fst item /\
  quantization_method (snd entry) = fst item /\
  quantized_size_mb (snd entry) = size_mb (snd item).

(** ** The final report of train_and_evaluate.py *)

(** The values of the final report: it holds booleans and an integer
    next to what the quantization report holds.  [PNpBool] is a
    [numpy.bool_], the outcome of a comparison with a numpy float64. *)
#[warnings="-register-all"]
Inductive pyval : Type :=
| PNone
| PBool (b : bool)
| PNpBool (b : bool)
| PInt (z : Z)
| PFloat (q : Q)
| PStr (s : string)
| PList (l : list pyval)
| PDict (fields : list (string * pyval)).

Definition pyval_field (v : pyval) (k : string) : option pyval :=
  match v with
  | PDict fields => dict_get fields k
  | _ => None
  end.

(** [v[k1][k2]] and [v[k1][k2][k3]] on nested dictionaries. *)
Definition pyval_path2 (v : pyval) (k1 k2 : string) : option pyval :=
  match pyval_field v k1 with
  | Some inner => pyval_field inner k2
  | None => None
  end.


(** [self.config['model']], as far as the report reads it. *)
Record model_config : Type := {
  config_target_size_mb : Q;
  config_target_inference_ms : Q
}.

(** [list(MobileSmsClassifier.CATEGORIES.keys())] *)
Definition CATEGORY_NAMES : list string :=
  ["INBOX"; "SPAM"; "OTP"; "BANKING"; "ECOMMERCE"; "NEEDS_REVIEW"].

(** [l[-1]] *)
Definition py_last {A} (l : list A) : result A :=
  match rev l with
  | x :: _ => Ok x
  | [] => Raise IndexError
  end.

Definition size_note_excellent : string :=
  "✅ Excellent size - well under mobile limit".
Definition size_note_good : string :=
  "✅ Good size - meets mobile requirements".
Definition size_note_large : string :=
  "⚠️ Large size - may impact app performance".
Definition speed_note_excellent : string :=
  "✅ Excellent speed - very fast inference".
Definition speed_note_good : string :=
  "✅ Good speed - meets performance targets".
Definition speed_note_slow : string :=
  "⚠️ Slow inference - may need optimization".
Definition accuracy_note_excellent : string :=
  "✅ Excellent accuracy retention".
Definition accuracy_note_good : string :=
  "✅ Good accuracy retention".
Definition accuracy_note_low : string :=
  "⚠️ Low accuracy retention - consider different quantization".

(** The three [if/elif/else] chains that fill [performance_notes]. *)
Definition performance_notes (best_metrics : QuantizationMetrics)
  : list string :=
  let notes : list string := [] in
  let notes :=
    if Qle_bool (quantized_size_mb best_metrics) 10
    then notes ++ [size_note_excellent]
    else if Qle_bool (quantized_size_mb best_metrics) 20
         then notes ++ [size_note_good]
         else notes ++ [size_note_large] in
  let notes :=
    if Qle_bool (quantized_inference_ms best_metrics) 50
    then notes ++ [speed_note_excellent]
    else if Qle_bool (quantized_inference_ms best_metrics) 100
         then notes ++ [speed_note_good]
         else notes ++ [speed_note_slow] in
  let notes :=
    if Qle_bool (95 # 100) (accuracy_retention best_metrics)
    then notes ++ [accuracy_note_excellent]
    else if Qle_bool (90 # 100) (accuracy_retention best_metrics)
         then notes ++ [accuracy_note_good]
         else notes ++ [accuracy_note_low] in
  notes.

(** The dictionary that [create_final_report] builds.
    [training_history] maps a name to its list of values per epoch and
    [evaluation_metrics] a name to a number: these are the entries the
    function reads.  The metrics of the best method come from
    [evaluate_quantized_models]: [quantized_inference_ms] is the
    numpy float64 that [np.mean] answered in the benchmark, so that
    [inference_ok] is a [numpy.bool_]; the sizes and the accuracies are
    Python floats and their comparisons Python booleans. *)
Definition final_report (config : model_config)
           (training_history : dict (list Q))
           (evaluation_metrics : dict Q)
           (results : quantization_results) : result pyval :=
  let best_method := best_method results in
  best_metrics <~ dict_getitem (evaluation_results results) best_method ;;
  final_accuracy <~ dict_getitem evaluation_metrics "accuracy" ;;
  final_loss <~ match dict_get training_history "val_loss" with
                | Some val_loss => x <~ py_last val_loss ;; Ok (PFloat x)
                | None => Ok PNone
                end ;;
  let training_epochs :=
    match dict_get training_history "accuracy" with
    | Some accuracy => Z.of_nat (List.length accuracy)
    | None => 0%Z
    end in
  model_size_mb <~ dict_getitem evaluation_metrics "model_size_mb" ;;
  Ok (PDict
    [ ("model_info",
       PDict [ ("model_type", PStr "DistilBERT-based Mobile Classifier");
               ("target_size_mb", PFloat (config_target_size_mb config));
               ("target_inference_ms",
                PFloat (config_target_inference_ms config));
               ("categories", PList (map PStr CATEGORY_NAMES)) ]);
      ("training_results",
       PDict [ ("final_accuracy", PFloat final_accuracy);
               ("final_loss", final_loss);
               ("training_epochs", PInt training_epochs);
               ("model_size_mb", PFloat model_size_mb) ]);
      ("quantization_results",
       PDict [ ("best_method", PStr best_method);
               ("final_size_mb", PFloat (quantized_size_mb best_metrics));
               ("size_reduction_ratio",
                PFloat (size_reduction_ratio best_metrics));
               ("accuracy_retention",
                PFloat (accuracy_retention best_metrics));
               ("inference_time_ms",
                PFloat (quantized_inference_ms best_metrics));
               ("meets_mobile_requirements",
                PDict [ ("size_ok",
                         PBool (Qle_bool (quantized_size_mb best_metrics)
                                         (config_target_size_mb config)));
                        ("inference_ok",
                         PNpBool (Qle_bool
                                    (quantized_inference_ms best_metrics)
                                    (config_target_inference_ms config)));
                        ("accuracy_ok",
                         PBool (Qle_bool (90 # 100)
                                  (accuracy_retention best_metrics))) ]) ]);
      ("deployment_info",
       PDict [ ("recommended_model",
                PStr ("models/quantized/mobile_classifier_"
                      ++ best_method ++ ".tflite"));
               ("android_integration",
                PStr "Use TFLiteInferenceEngine.kt for Android integration");
               ("performance_notes",
                PList (map PStr (performance_notes best_metrics))) ]) ]).

Definition final_report_path : string :=
  "evaluation/reports/final_report.json".

(** Whether [json.dump] can encode a value: it has an encoding for
    [None], booleans, numbers, strings, lists and dictionaries with
    string keys, and none for a [numpy.bool_]. *)
Fixpoint json_serializable (v : pyval) : bool :=
  match v with
  | PNpBool _ => false
  | PList l => forallb json_serializable l
  | PDict fields =>
      forallb (fun field => json_serializable (snd field)) fields
  | _ => true
  end.

(** [create_final_report]: the report is built and dumped to
    [final_report_path].  [json.dump] writes while it encodes: on a
    value without encoding it raises [TypeError] and the file, opened
    for writing, keeps what was written until then.  [dump report] is
    the text of a report that can be encoded, [dump_prefix report] the
    part written of one that cannot.  The report is returned after the
    dump. *)
Definition create_final_report (dump dump_prefix : pyval -> bytes)
           (config : model_config)
           (training_history : dict (list Q))
           (evaluation_metrics : dict Q)
           (results : quantization_results) : M pyval :=
  report <- lift (final_report config training_history
                               evaluation_metrics results) ;;
  if json_serializable report then
    write_file final_report_path (dump report) ;;;
    ret report
  else
    write_file final_report_path (dump_prefix report) ;;;
    lift (Raise TypeError).

(** Truth value of a Python value. *)
Definition py_truthy (v : pyval) : bool :=
  match v with
  | PNone => false
  | PBool b => b
  | PNpBool b => b
  | PInt z => negb (z =? 0)%Z
  | PFloat q => negb (Qeq_bool q 0)
  | PStr s => negb (String.eqb s "")
  | PList l => match l with [] => false | _ :: _ => true end
  | PDict fields => match fields with [] => false | _ :: _ => true end
  end.

(** [all(final_report['quantization_results']['meets_mobile_requirements'].values())] *)
Definition mobile_ready (final_report : pyval) : result bool :=
  match pyval_path2 final_report "quantization_results"
                    "meets_mobile_requirements" with
  | Some (PDict flags) => Ok (forallb py_truthy (dict_values flags))
  | _ => Raise KeyError
  end.

(** [main] without [--data-only] and [--evaluate-only], once the
    pipeline object is there: [run_complete_pipeline] inside the
    [try ... except Exception] of [main], and the exit code.  [steps]
    stands for the first three steps of the pipeline (preparing the
    data, training, evaluating the trained model), which hand over the
    data, the training history and the evaluation metrics.  Printing and
    logging are left out. *)
Definition main_complete_pipeline {E : Env}
           (dump dump_prefix : pyval -> bytes) (config : model_config)
           (steps : M (pipeline_data * dict (list Q) * dict Q)) : M Z :=
  try_except
    (pipeline_start <- now ;;
     prepared <- steps ;;
     let '(data, training_history, evaluation_metrics) := prepared in
     (* Step 4: Quantize model *)
     quantization_results <-
       quantize_model data (config_target_size_mb config) ;;
     (* Step 5: Create final report *)
     final_report <-
       create_final_report dump dump_prefix config training_history
                           evaluation_metrics quantization_results ;;
     end_time <- now ;;
     let pipeline_time := end_time - pipeline_start in
     (* Print summary *)
     _ <- lift (dict_getitem (evaluation_results quantization_results)
                             (best_method quantization_results)) ;;
     _ <- lift (mobile_ready final_report) ;;
     _ <- lift (mobile_ready final_report) ;;
     (* Return success/failure based on mobile requirements *)
     mobile_ready <- lift (mobile_ready final_report) ;;
     ret (if mobile_ready then 0%Z else 1%Z))
    (fun _ => ret 1%Z).

(** ** Sample inputs of the final report *)

Definition sample_config : model_config :=
  {| config_target_size_mb := 20; config_target_inference_ms := 100 |}.

Definition sample_history : dict (list Q) :=
  [ ("loss", [8 # 10; 5 # 10]); ("accuracy", [7 # 10; 9 # 10]);
    ("val_loss", [9 # 10; 6 # 10]) ].

Definition sample_evaluation_metrics : dict Q :=
  [ ("accuracy", 95 # 100); ("avg_inference_time_ms", 50);
    ("model_size_mb", 60) ].


Definition sample_dump (report : pyval) : bytes := [].

(** What is written of a report that cannot be encoded: here one byte. *)
Definition sample_dump_prefix (report : pyval) : bytes := [Byte.x7b].

(** ** Inference with the classifier (mobile_classifier.py) *)

Record MobileClassificationResult : Type := {
  category : string;
  category_id : nat;
  confidence : Q;
  probabilities : dict Q;
  processing_time_ms : Q;
  result_model_version : string
}.

(** The attributes of a [MobileSmsClassifier] that the TensorFlow Lite
    path uses.  [self_tokenizer_loaded] tells whether [self.tokenizer]
    is a tokenizer (the one of the environment) or still the [None] of
    [__init__].  [self_interpreter] is the model content the interpreter
    was built from; [None] stands for the attribute not being there
    ([__init__] does not set it). *)
Record classifier_state : Type := {
  self_tokenizer_loaded : bool;
  self_tflite_model : option bytes;
  self_interpreter : option bytes;
  self_model_version : string
}.

(** The state [__init__] leaves. *)
Definition new_classifier : classifier_state :=
  {| self_tokenizer_loaded := false;
     self_tflite_model := None;
     self_interpreter := None;
     self_model_version := "1.0.0" |}.

(** The classifier after a [load_tokenizer] that returns. *)
Definition load_tokenizer (self : classifier_state) : classifier_state :=
  {| self_tokenizer_loaded := true;
     self_tflite_model := self_tflite_model self;
     self_interpreter := self_interpreter self;
     self_model_version := self_model_version self |}.

(** [self.preprocess_data(texts)] on a classifier: calling a tokenizer
    that is [None] raises [TypeError]. *)
Definition classifier_preprocess_data {E : Env} (self : classifier_state)
           (texts : list string) : result processed_data :=
  if self_tokenizer_loaded self then Ok (preprocess_data texts)
  else Raise TypeError.

(** [load_tflite_model]: the classifier as the call leaves it when it
    returns.  [tflite_interpreter] stands for building the interpreter
    and allocating its tensors.  A call that raises after the file was
    read leaves the classifier partly updated; that state is not
    described here. *)
Definition load_tflite_model {E : Env} (self : classifier_state)
           (model_path : string) : M classifier_state :=
  content <- read_file model_path ;;
  (* Create interpreter *)
  _ <- lift (tflite_interpreter content) ;;
  ret {| self_tokenizer_loaded := self_tokenizer_loaded self;
         self_tflite_model := Some content;
         self_interpreter := Some content;
         self_model_version := self_model_version self |}.

(** The dictionary comprehension over
    [zip(self.CATEGORY_NAMES, probabilities)]. *)
Definition probability_dict (scores : list Q) : dict Q :=
  fold_left (fun d p => dict_setitem d (fst p) (snd p))
            (combine CATEGORY_NAMES scores) [].

Definition classify_with_tflite {E : Env} (self : classifier_state)
           (sms_text : string) : M MobileClassificationResult :=
  match self_tflite_model self with
  | None => lift (Raise ValueError)
  | Some _ =>
      start_time <- now ;;
      (* Preprocess input *)
      processed_data <- lift (classifier_preprocess_data self [sms_text]) ;;
      interpreter <- lift (match self_interpreter self with
                           | Some content => Ok content
                           | None => Raise AttributeError
                           end) ;;
      predictions <- invoke interpreter (input_ids processed_data)
                            (attention_mask processed_data) ;;
      end_time <- now ;;
      let processing_time := (end_time - start_time) * 1000 in
      (* Extract results *)
      scores <- lift (py_index predictions 0) ;;
      predicted_class <- lift (np_argmax scores) ;;
      confidence <- lift (py_index scores predicted_class) ;;
      let prob_dict := probability_dict scores in
      category <- lift (py_index CATEGORY_NAMES predicted_class) ;;
      ret {| category := category;
             category_id := predicted_class;
             confidence := confidence;
             probabilities := prob_dict;
             processing_time_ms := processing_time;
             result_model_version :=
               (self_model_version self ++ "-tflite")%string |}
  end.

(** A classifier with its tokenizer whose interpreter is loaded from the
    sample model. *)
Definition sample_classifier : classifier_state :=
  {| self_tokenizer_loaded := true;
     self_tflite_model := Some [Byte.x01];
     self_interpreter := Some [Byte.x01];
     self_model_version := "1.0.0" |}.


(** * Properties *)

(** ** Comparisons *)

Lemma Qltb_lt (a b : Q) : Qltb a b = true <-> a < b.
Proof.
  unfold Qltb. rewrite negb_true_iff. split.
  - intros H. apply Qnot_le_lt. intros Hle.
    apply Qle_bool_iff in Hle. congruence.
  - intros H. destruct (Qle_bool b a) eqn:Hb; [|reflexivity].
    apply Qle_bool_iff in Hb. exfalso. exact (Qlt_not_le _ _ H Hb).
Qed.

Lemma Qltb_ge (a b : Q) : Qltb a b = false <-> b <= a.
Proof.
  unfold Qltb. rewrite negb_false_iff. apply Qle_bool_iff.
Qed.

Lemma meets_constraints_satisfies s a item :
  meets_constraints s a item = true <-> satisfies s a item.
Proof.
  unfold meets_constraints, satisfies.
  rewrite andb_true_iff, !Qle_bool_iff. reflexivity.
Qed.

(** ** Dictionaries *)

Lemma dict_get_in {V} (d : dict V) k v :
  dict_wf d -> In (k, v) d -> dict_get d k = Some v.
Proof.
  unfold dict_wf, dict_keys.
  induction d as [|[k' v'] d IH]; simpl; intros Hwf Hin; [contradiction|].
  inversion Hwf as [|? ? Hnotin Hwf']; subst.
  destruct Hin as [Heq|Hin].
  - inversion Heq; subst. now rewrite String.eqb_refl.
  - destruct (String.eqb_spec k' k) as [->|Hne].
    + exfalso. apply Hnotin. change k with (fst (k, v)). now apply in_map.
    + now apply IH.
Qed.

Lemma dict_get_setitem_same {V} (d : dict V) k v :
  dict_get (dict_setitem d k v) k = Some v.
Proof.
  induction d as [|[k' v'] d IH]; simpl.
  - now rewrite String.eqb_refl.
  - destruct (String.eqb_spec k' k) as [->|Hne]; simpl.
    + now rewrite String.eqb_refl.
    + destruct (String.eqb_spec k' k); [contradiction|exact IH].
Qed.

(** ** The first minimum *)

Section FirstMin.
Context {A : Type} (f : A -> Q) (key : A -> result Q).

Lemma first_min_step_keep seen best x :
  first_min f seen best -> f best <= f x ->
  first_min f (seen ++ [x]) best.
Proof.
  intros (pre & post & -> & _ & Hpre & Hpost) Hle.
  exists pre, (post ++ [x]). repeat split; auto.
  - now rewrite <- app_assoc.
  - intros y Hy _. apply in_app_or in Hy. destruct Hy as [Hy|[<-|[]]]; auto.
Qed.

Lemma first_min_step_replace seen best x :
  first_min f seen best -> f x < f best ->
  first_min f (seen ++ [x]) x.
Proof.
  intros (pre & post & -> & _ & Hpre & Hpost) Hlt.
  exists (pre ++ best :: post), []. repeat split; auto.
  - intros y Hy _. apply in_app_or in Hy. destruct Hy as [Hy|[<-|Hy]].
    + eapply Qlt_trans; [exact Hlt|]. now apply Hpre.
    + exact Hlt.
    + eapply Qlt_le_trans; [exact Hlt|]. now apply Hpost.
  - intros y [].
Qed.

Lemma min_loop_first_min rest :
  forall seen best,
    (forall x, In x rest -> key x = Ok (f x)) ->
    first_min f seen best ->
    exists m, min_loop key best (f best) rest = Ok m /\
              first_min f (seen ++ rest) m.
Proof.
  induction rest as [|x rest IH]; intros seen best Hkey Hmin; simpl.
  - exists best. rewrite app_nil_r. auto.
  - rewrite (Hkey x (or_introl eq_refl)). simpl.
    assert (Hrest : forall y, In y rest -> key y = Ok (f y))
      by (intros y Hy; apply Hkey; now right).
    replace (seen ++ x :: rest) with ((seen ++ [x]) ++ rest)
      by (now rewrite <- app_assoc).
    destruct (Qltb (f x) (f best)) eqn:Hcmp.
    + apply IH; auto. apply first_min_step_replace with best; auto.
      now apply Qltb_lt.
    + apply IH; auto. apply first_min_step_keep; auto.
      now apply Qltb_ge.
Qed.

Lemma py_min_first_min l :
  l <> [] ->
  (forall x, In x l -> key x = Ok (f x)) ->
  exists m, py_min l key = Ok m /\ first_min f l m.
Proof.
  destruct l as [|x rest]; [congruence|]. intros _ Hkey. simpl.
  rewrite (Hkey x (or_introl eq_refl)). simpl.
  apply min_loop_first_min with (seen := [x]).
  - intros y Hy. apply Hkey. now right.
  - exists [], []. repeat split; auto; intros y [].
Qed.
End FirstMin.

(** ** From the filtered list and from the keys back to the dictionary *)

Lemma first_min_filter {A} (p : A -> bool) (f : A -> Q) (x : A) (l : list A) :
  forall pre post,
    filter p l = pre ++ x :: post ->
    (forall y, In y pre -> f x < f y) ->
    (forall y, In y post -> f x <= f y) ->
    first_min_among (fun y => p y = true) f l x.
Proof.
  unfold first_min_among.
  induction l as [|a l IH]; intros pre post Hsplit Hpre Hpost; simpl in Hsplit.
  - destruct pre; discriminate.
  - destruct (p a) eqn:Hpa.
    + destruct pre as [|b pre]; simpl in Hsplit; inversion Hsplit; subst.
      * exists [], l. split; [reflexivity|]. split; [exact Hpa|]. split.
        -- intros y [].
        -- intros y Hy Hpy. apply Hpost. apply filter_In. auto.
      * destruct (IH pre post) as (pre1 & post1 & -> & Hpx & Hb & Ha); auto.
        { intros y Hy. apply Hpre. now right. }
        exists (b :: pre1), post1.
        split; [reflexivity|]. split; [exact Hpx|]. split; [|exact Ha].
        intros y [<-|Hy] Hpy; auto. apply Hpre. now left.
    + destruct (IH pre post) as (pre1 & post1 & -> & Hpx & Hb & Ha); auto.
      exists (a :: pre1), post1.
      split; [reflexivity|]. split; [exact Hpx|]. split; [|exact Ha].
      intros y [<-|Hy] Hpy; auto. congruence.
Qed.

Lemma method_size_item d item :
  dict_wf d -> In item d -> method_size d (fst item) = item_size item.
Proof.
  intros Hwf Hin. destruct item as [m metrics]. unfold method_size, item_size.
  simpl. now rewrite (dict_get_in d m metrics Hwf Hin).
Qed.

Lemma first_min_keys d m :
  dict_wf d ->
  first_min (method_size d) (dict_keys d) m ->
  exists metrics, first_min item_size d (m, metrics).
Proof.
  intros Hwf (pre & post & Hsplit & _ & Hpre & Hpost).
  unfold dict_keys in Hsplit.
  apply map_eq_app in Hsplit. destruct Hsplit as (d1 & d2 & -> & <- & H2).
  apply map_eq_cons in H2. destruct H2 as ([m' metrics] & d3 & -> & Hm & <-).
  simpl in Hm. subst m'.
  assert (Hx : method_size (d1 ++ (m, metrics) :: d3) m
               = item_size (m, metrics)).
  { apply (method_size_item (d1 ++ (m, metrics) :: d3) (m, metrics) Hwf).
    apply in_or_app. right. now left. }
  exists metrics, d1, d3. repeat split; auto.
  - intros y Hy _. rewrite <- Hx.
    rewrite <- (method_size_item (d1 ++ (m, metrics) :: d3) y Hwf).
    + apply Hpre; auto. now apply in_map.
    + apply in_or_app. now left.
  - intros y Hy _. rewrite <- Hx.
    rewrite <- (method_size_item (d1 ++ (m, metrics) :: d3) y Hwf).
    + apply Hpost; auto. now apply in_map.
    + apply in_or_app. right. now right.
Qed.

Lemma size_key_total (d : dict QuantizationMetrics) m :
  In m (dict_keys d) ->
  (metrics <~ dict_getitem d m ;; Ok (quantized_size_mb metrics))
  = Ok (method_size d m).
Proof.
  unfold dict_keys, dict_getitem, method_size. intros Hin.
  destruct (dict_get d m) eqn:Hget; [reflexivity|]. exfalso.
  induction d as [|[k v] d IH]; simpl in *; [contradiction|].
  destruct (String.eqb_spec k m); [discriminate|].
  destruct Hin as [Heq|Hin]; [contradiction|]. now apply IH.
Qed.

Lemma fallback_first_min (d : dict QuantizationMetrics) :
  d <> [] -> dict_wf d ->
  exists m metrics,
    py_min (dict_keys d)
           (fun m => metrics <~ dict_getitem d m ;;
                     Ok (quantized_size_mb metrics)) = Ok m /\
    first_min item_size d (m, metrics).
Proof.
  intros Hne Hwf.
  destruct (py_min_first_min (method_size d)
              (fun m => metrics <~ dict_getitem d m ;;
                        Ok (quantized_size_mb metrics)) (dict_keys d))
    as (m & Hm & Hmin).
  - destruct d; [congruence|discriminate].
  - intros x Hx. now apply size_key_total.
  - destruct (first_min_keys d m Hwf Hmin) as (metrics & Hfm).
    exists m, metrics. auto.
Qed.

(** The selection, in both of its branches. *)
Lemma select_best_quantization_first_min_general
        (d : dict QuantizationMetrics) (size_threshold_mb accuracy_threshold : Q) :
  d <> [] -> dict_wf d ->
  exists m metrics,
    select_best_quantization d size_threshold_mb accuracy_threshold = Ok m /\
    ((exists y, In y d /\ satisfies size_threshold_mb accuracy_threshold y) ->
     first_min_among (satisfies size_threshold_mb accuracy_threshold)
                     item_size d (m, metrics)) /\
    ((forall y, In y d ->
                ~ satisfies size_threshold_mb accuracy_threshold y) ->
     first_min item_size d (m, metrics)).
Proof.
  intros Hne Hwf. unfold select_best_quantization, dict_items.
  set (p := meets_constraints size_threshold_mb accuracy_threshold).
  destruct (filter p d) as [|v valid] eqn:Hvalid.
  - destruct (fallback_first_min d Hne Hwf) as (m & metrics & Hm & Hmin).
    exists m, metrics. split; [exact Hm|]. split; [|auto].
    intros (y & Hy & Hsat). exfalso.
    assert (Hin : In y (filter p d)).
    { apply filter_In. split; auto. now apply meets_constraints_satisfies. }
    rewrite Hvalid in Hin. contradiction.
  - destruct (py_min_first_min item_size
                (fun x => Ok (quantized_size_mb (snd x))) (v :: valid))
      as ([m metrics] & Hm & pre & post & Hsplit & _ & Hpre & Hpost);
      [discriminate|reflexivity|].
    exists m, metrics. rewrite Hm. simpl. split; [reflexivity|].
    assert (Hfm : first_min_among (fun y => p y = true) item_size d (m, metrics)).
    { rewrite <- Hvalid in Hsplit.
      apply (first_min_filter p item_size (m, metrics) d pre post Hsplit).
      - intros y Hy. now apply Hpre.
      - intros y Hy. now apply Hpost. }
    destruct Hfm as (pre1 & post1 & Hd & Hpx & H1 & H2). split.
    + intros _. exists pre1, post1.
      split; [exact Hd|]. split; [now apply meets_constraints_satisfies|].
      split.
      * intros y Hy Hs. apply H1; auto. now apply meets_constraints_satisfies.
      * intros y Hy Hs. apply H2; auto. now apply meets_constraints_satisfies.
    + intros Hnone. exfalso. apply (Hnone (m, metrics)).
      * rewrite Hd. apply in_or_app. right. now left.
      * now apply meets_constraints_satisfies.
Qed.

(** C1: on a non-empty map, [select_best_quantization] returns a method
    of the map.  If some method has [quantized_size_mb <= size_threshold_mb]
    and [accuracy_retention >= accuracy_threshold], the returned one is such
    a method of smallest size, the first of them in insertion order among
    equals.  If none has, it is the first method of globally smallest
    size. *)
Theorem select_best_quantization_first_min
        (d : dict QuantizationMetrics) (size_threshold_mb accuracy_threshold : Q) :
  d <> [] -> dict_wf d ->
  exists m metrics,
    select_best_quantization d size_threshold_mb accuracy_threshold = Ok m /\
    ((exists y, In y d /\ satisfies size_threshold_mb accuracy_threshold y) ->
     first_min_among (satisfies size_threshold_mb accuracy_threshold)
                     item_size d (m, metrics)) /\
    ((forall y, In y d ->
                ~ satisfies size_threshold_mb accuracy_threshold y) ->
     first_min item_size d (m, metrics)).
Proof.
  exact (select_best_quantization_first_min_general
           d size_threshold_mb accuracy_threshold).
Qed.

(** A run of C1 on the sample candidates: with 20 MB and 0.90 the two
    compliant methods are dynamic and float16 and the smaller one wins. *)
Lemma select_best_quantization_first_min_witness :
  exists m metrics,
    select_best_quantization sample_results 20 (9 # 10) = Ok m /\
    ((exists y, In y sample_results /\ satisfies 20 (9 # 10) y) ->
     first_min_among (satisfies 20 (9 # 10)) item_size
                     sample_results (m, metrics)) /\
    ((forall y, In y sample_results -> ~ satisfies 20 (9 # 10) y) ->
     first_min item_size sample_results (m, metrics)).
Proof.
  apply select_best_quantization_first_min.
  - discriminate.
  - repeat constructor; simpl; intuition discriminate.
Defined.

(** With 20 MB and 0.90 int8 is too inaccurate and dynamic is the
    smaller of the other two; with 5 MB nothing complies and int8, the
    smallest of all, is the answer. *)
Example select_best_quantization_20mb :
  select_best_quantization sample_results 20 (9 # 10) = Ok "dynamic".
Proof. reflexivity. Qed.

Example select_best_quantization_5mb :
  select_best_quantization sample_results 5 (9 # 10) = Ok "int8".
Proof. reflexivity. Qed.

(** ** Selection looks at sizes and retentions only *)

Lemma min_loop_rel {A B} (R : A -> B -> Prop)
      (keyA : A -> result Q) (keyB : B -> result Q) :
  (forall a b, R a b -> keyA a = keyB b) ->
  forall la lb, Forall2 R la lb ->
  forall a b k, R a b ->
    result_rel R (min_loop keyA a k la) (min_loop keyB b k lb).
Proof.
  intros Hkey la lb HF.
  induction HF as [|x y la lb Hxy HF IH]; intros a b k Hab; simpl.
  - exact Hab.
  - rewrite (Hkey x y Hxy). destruct (keyB y) as [ky|e]; simpl; [|reflexivity].
    destruct (Qltb ky k); now apply IH.
Qed.

Lemma py_min_rel {A B} (R : A -> B -> Prop)
      (keyA : A -> result Q) (keyB : B -> result Q) la lb :
  (forall a b, R a b -> keyA a = keyB b) ->
  Forall2 R la lb ->
  result_rel R (py_min la keyA) (py_min lb keyB).
Proof.
  intros Hkey HF. destruct HF as [|x y la lb Hxy HF]; simpl; [reflexivity|].
  rewrite (Hkey x y Hxy). destruct (keyB y) as [ky|e]; simpl; [|reflexivity].
  now apply min_loop_rel.
Qed.

Lemma Forall2_eq_refl {A} (l : list A) : Forall2 eq l l.
Proof. induction l; constructor; auto. Qed.

Lemma same_view_Forall2 (d1 d2 : dict QuantizationMetrics) :
  map selection_view d1 = map selection_view d2 ->
  Forall2 (fun x y => selection_view x = selection_view y) d1 d2.
Proof.
  revert d2. induction d1 as [|x d1 IH]; intros [|y d2] H; simpl in H;
    try discriminate; constructor.
  - exact (f_equal (hd (selection_view x)) H).
  - apply IH. exact (f_equal (@tl _) H).
Qed.

Lemma same_view_meets s a x y :
  selection_view x = selection_view y ->
  meets_constraints s a x = meets_constraints s a y.
Proof.
  unfold selection_view, meets_constraints. intros H.
  injection H as Hm Hs Ha. now rewrite Hs, Ha.
Qed.

Lemma same_view_filter s a (d1 d2 : dict QuantizationMetrics) :
  Forall2 (fun x y => selection_view x = selection_view y) d1 d2 ->
  Forall2 (fun x y => selection_view x = selection_view y)
          (filter (meets_constraints s a) d1)
          (filter (meets_constraints s a) d2).
Proof.
  induction 1 as [|x y d1 d2 Hxy HF IH]; simpl; [constructor|].
  rewrite (same_view_meets s a x y Hxy).
  destruct (meets_constraints s a y); [constructor|]; auto.
Qed.

Lemma same_view_size_key (d1 d2 : dict QuantizationMetrics) m :
  Forall2 (fun x y => selection_view x = selection_view y) d1 d2 ->
  (metrics <~ dict_getitem d1 m ;; Ok (quantized_size_mb metrics))
  = (metrics <~ dict_getitem d2 m ;; Ok (quantized_size_mb metrics)).
Proof.
  unfold dict_getitem.
  induction 1 as [|[k1 v1] [k2 v2] d1 d2 Hxy HF IH]; simpl; [reflexivity|].
  unfold selection_view in Hxy. simpl in Hxy.
  injection Hxy as Hk Hs Ha. subst k2.
  destruct (String.eqb k1 m); simpl; [now rewrite Hs|exact IH].
Qed.

(** C9: two metrics maps over the same methods in the same order that
    agree on [quantized_size_mb] and [accuracy_retention] of every method
    get the same answer from [select_best_quantization], whatever their
    other fields (latencies, speedups, baselines) are. *)
Theorem select_best_quantization_depends_on_size_and_retention
        (d1 d2 : dict QuantizationMetrics)
        (size_threshold_mb accuracy_threshold : Q) :
  map selection_view d1 = map selection_view d2 ->
  select_best_quantization d1 size_threshold_mb accuracy_threshold
  = select_best_quantization d2 size_threshold_mb accuracy_threshold.
Proof.
  intros Hview. pose proof (same_view_Forall2 d1 d2 Hview) as HF.
  pose proof (same_view_filter size_threshold_mb accuracy_threshold
                               d1 d2 HF) as HFv.
  unfold select_best_quantization, dict_items.
  destruct HFv as [|x y v1 v2 Hxy HFv].
  - assert (Hkeys : dict_keys d1 = dict_keys d2).
    { unfold dict_keys.
      replace (map fst d1) with (map (fun v => fst (fst v))
                                     (map selection_view d1))
        by (rewrite map_map; reflexivity).
      rewrite Hview, map_map. reflexivity. }
    rewrite Hkeys.
    pose proof (py_min_rel eq
      (fun m => metrics <~ dict_getitem d1 m ;; Ok (quantized_size_mb metrics))
      (fun m => metrics <~ dict_getitem d2 m ;; Ok (quantized_size_mb metrics))
      (dict_keys d2) (dict_keys d2)) as Hrel.
    assert (Hsame : Forall2 eq (dict_keys d2) (dict_keys d2)).
    { apply Forall2_eq_refl. }
    specialize (Hrel (fun a b Hab =>
                        eq_trans (same_view_size_key d1 d2 a HF)
                                 (f_equal _ Hab)) Hsame).
    unfold result_rel in Hrel.
    destruct (py_min (dict_keys d2) _), (py_min (dict_keys d2) _);
      try contradiction; congruence.
  - pose proof (py_min_rel
      (fun x y => selection_view x = selection_view y)
      (fun x => Ok (quantized_size_mb (snd x)))
      (fun x => Ok (quantized_size_mb (snd x)))
      (x :: v1) (y :: v2)) as Hrel.
    assert (Hk : forall a b : string * QuantizationMetrics,
               selection_view a = selection_view b ->
               Ok (quantized_size_mb (snd a)) = Ok (quantized_size_mb (snd b))).
    { intros a b Hab. unfold selection_view in Hab.
      injection Hab as Hm Hs Ha. now rewrite Hs. }
    specialize (Hrel Hk (Forall2_cons x y Hxy HFv)).
    unfold result_rel in Hrel.
    destruct (py_min (x :: v1) _) as [b1|e1], (py_min (y :: v2) _) as [b2|e2];
      simpl; try contradiction; [|congruence].
    unfold selection_view in Hrel. injection Hrel as Hm Hs Ha.
    now rewrite Hm.
Qed.

(** C9 on the sample candidates measured twice with other latencies. *)
Lemma select_best_quantization_depends_on_size_and_retention_witness :
  map selection_view sample_results = map selection_view sample_results_slow /\
  select_best_quantization sample_results 20 (9 # 10)
  = select_best_quantization sample_results_slow 20 (9 # 10).
Proof.
  split; [reflexivity|].
  apply select_best_quantization_depends_on_size_and_retention.
  reflexivity.
Defined.

(** ** The report and the missing flag *)

Lemma max_loop_total {A} (f : A -> Q) (key : A -> result Q) rest :
  forall best best_key,
    (forall x, In x rest -> key x = Ok (f x)) ->
    exists m, max_loop key best best_key rest = Ok m.
Proof.
  induction rest as [|x rest IH]; intros best best_key Hkey; simpl.
  - now exists best.
  - rewrite (Hkey x (or_introl eq_refl)). simpl.
    destruct (Qltb best_key (f x)); apply IH; intros y Hy; apply Hkey;
      now right.
Qed.

Lemma retention_key_total (d : dict QuantizationMetrics) m :
  In m (dict_keys d) ->
  (metrics <~ dict_getitem d m ;; Ok (accuracy_retention metrics))
  = Ok (method_retention d m).
Proof.
  unfold dict_keys, dict_getitem, method_retention. intros Hin.
  destruct (dict_get d m) eqn:Hget; [reflexivity|]. exfalso.
  induction d as [|[k v] d IH]; simpl in *; [contradiction|].
  destruct (String.eqb_spec k m); [discriminate|].
  destruct Hin as [Heq|Hin]; [contradiction|]. now apply IH.
Qed.

(** On a non-empty well-formed map the report is built, and its summary
    has no key [constraints_satisfied]. *)
Lemma quantization_report_no_flag (d : dict QuantizationMetrics) :
  d <> [] -> dict_wf d ->
  exists report summary,
    quantization_report d = Ok report /\
    json_field report "summary" = Some summary /\
    json_field summary "constraints_satisfied" = None.
Proof.
  intros Hne Hwf. unfold quantization_report.
  destruct (fallback_first_min d Hne Hwf) as (bs & _ & Hbs & _).
  destruct d as [|[k v] d]; [congruence|]. cbn [dict_values map snd].
  rewrite Hbs. cbn [rbind].
  assert (Hmax : exists ba,
             py_max (dict_keys ((k, v) :: d))
               (fun k0 => metrics <~ dict_getitem ((k, v) :: d) k0 ;;
                          Ok (accuracy_retention metrics)) = Ok ba).
  { cbn [dict_keys map fst py_max].
    rewrite (retention_key_total ((k, v) :: d) k (or_introl eq_refl)).
    cbn [rbind].
    apply (max_loop_total (method_retention ((k, v) :: d))).
    intros x Hx. apply retention_key_total. now right. }
  destruct Hmax as (ba & Hba). rewrite Hba. cbn [rbind].
  eexists. eexists. split; [reflexivity|]. split; reflexivity.
Qed.

(** C2, as the code has it: when no candidate satisfies both
    constraints, [select_best_quantization] still returns normally, with
    the first candidate of globally smallest size; what it returns is
    the bare method name, and the report built from the same metrics has
    no [constraints_satisfied] entry in its summary. *)
Theorem select_best_quantization_falls_back_without_flag
        (d : dict QuantizationMetrics)
        (size_threshold_mb accuracy_threshold : Q) :
  d <> [] -> dict_wf d ->
  (forall y, In y d -> ~ satisfies size_threshold_mb accuracy_threshold y) ->
  exists m metrics report summary,
    select_best_quantization d size_threshold_mb accuracy_threshold = Ok m /\
    first_min item_size d (m, metrics) /\
    quantization_report d = Ok report /\
    json_field report "summary" = Some summary /\
    json_field summary "constraints_satisfied" = None.
Proof.
  intros Hne Hwf Hnone.
  destruct (select_best_quantization_first_min_general
              d size_threshold_mb accuracy_threshold Hne Hwf)
    as (m & metrics & Hsel & _ & Hfall).
  destruct (quantization_report_no_flag d Hne Hwf)
    as (report & summary & Hrep & Hsum & Hflag).
  exists m, metrics, report, summary. auto 6.
Qed.

Lemma sample_results_infeasible :
  forall y, In y sample_results -> ~ satisfies 5 (9 # 10) y.
Proof.
  intros y Hy [Hsize Hacc]. simpl in Hy.
  destruct Hy as [<-|[<-|[<-|[]]]]; simpl in *;
    unfold Qle in *; simpl in *; lia.
Qed.

(** C2, as the code has it, on the sample candidates with 5 MB and
    0.90. *)
Lemma select_best_quantization_falls_back_without_flag_witness :
  exists m metrics report summary,
    select_best_quantization sample_results 5 (9 # 10) = Ok m /\
    first_min item_size sample_results (m, metrics) /\
    quantization_report sample_results = Ok report /\
    json_field report "summary" = Some summary /\
    json_field summary "constraints_satisfied" = None.
Proof.
  apply select_best_quantization_falls_back_without_flag.
  - discriminate.
  - repeat constructor; simpl; intuition discriminate.
  - intros y Hy [Hsize Hacc]. simpl in Hy.
    destruct Hy as [<-|[<-|[<-|[]]]]; simpl in *;
      unfold Qle in *; simpl in *; lia.
Defined.

(** C2 fails as stated: with 5 MB no sample candidate complies when 0.90
    is asked and int8 complies when 0.80 is asked, yet the selection
    answers the same bare name in both cases, and the report, which does
    not see the thresholds, has no [constraints_satisfied] entry. *)
Lemma constraints_satisfied_flag_absent :
  (forall y, In y sample_results -> ~ satisfies 5 (9 # 10) y) /\
  (exists y, In y sample_results /\ satisfies 5 (8 # 10) y) /\
  select_best_quantization sample_results 5 (9 # 10) = Ok "int8" /\
  select_best_quantization sample_results 5 (8 # 10) = Ok "int8" /\
  exists report summary,
    quantization_report sample_results = Ok report /\
    json_field report "summary" = Some summary /\
    json_field summary "constraints_satisfied" = None.
Proof.
  split; [exact sample_results_infeasible|].
  split.
  { exists ("int8", sample_metrics "int8" 3 (85 # 100) 10). split.
    - simpl. auto.
    - split; unfold Qle; simpl; lia. }
  split; [reflexivity|]. split; [reflexivity|].
  eexists. eexists. split; [reflexivity|]. split; reflexivity.
Qed.

(** ** No candidate at all *)

Lemma select_best_quantization_empty (size_threshold_mb accuracy_threshold : Q) :
  select_best_quantization [] size_threshold_mb accuracy_threshold
  = Raise ValueError.
Proof. reflexivity. Qed.

(** ** Accuracy evaluation *)

Section AccuracyFacts.
Context {E : Env}.

Lemma accuracy_step_ok content text label c w c' w' :
  accuracy_step content (text, label) c w = (Ok c', w') ->
  exists out,
    w' = record_event
           (EvInvoke content (input_ids (preprocess_data [text]))
                     (attention_mask (preprocess_data [text])) (Ok out)) w /\
    c' = (c + (if is_correct out label then 1 else 0))%nat.
Proof.
  unfold accuracy_step, bind, invoke, lift, ret, is_correct.
  destruct (tflite_invoke _ _ _ _) as [out|e]; [|discriminate].
  destruct (py_index out 0) as [scores|e] eqn:Hrow; [|discriminate].
  destruct (np_argmax scores) as [p|e] eqn:Harg; [|discriminate].
  intros H. injection H as Hc Hw. exists out. split; [now symmetry|].
  rewrite Hrow, Harg. subst c'. destruct (Z.of_nat p =? label)%Z; lia.
Qed.

Lemma accuracy_loop_ok content pairs :
  forall c w c' w',
    for_each pairs (accuracy_step content) c w = (Ok c', w') ->
    exists outs,
      List.length outs = List.length pairs /\
      trace w' = trace w ++ accuracy_events content (map fst pairs) outs /\
      files w' = files w /\
      c' = (c + count_correct outs (map snd pairs))%nat.
Proof.
  induction pairs as [|[text label] pairs IH]; intros c w c' w' Hrun.
  - simpl in Hrun. unfold ret in Hrun. injection Hrun as <- <-.
    exists []. simpl. rewrite app_nil_r.
    unfold count_correct. simpl. repeat split; auto; lia.
  - cbn [for_each] in Hrun. unfold bind in Hrun at 1.
    destruct (accuracy_step content (text, label) c w) as [[c1|e] w1] eqn:Hstep;
      [|discriminate].
    apply accuracy_step_ok in Hstep. destruct Hstep as (out & -> & ->).
    apply IH in Hrun. destruct Hrun as (outs & Hlen & Htr & Hfiles & ->).
    exists (out :: outs). simpl. split; [now rewrite Hlen|].
    split; [|split; [exact Hfiles|]].
    + rewrite Htr. simpl. unfold accuracy_events. simpl.
      now rewrite <- app_assoc.
    + unfold count_correct. simpl.
      destruct (is_correct out label); simpl; lia.
Qed.

Lemma accuracy_step_total content pair c w :
  (forall tr ids mask, exists score scores rest,
      tflite_invoke tr content ids mask = Ok ((score :: scores) :: rest)) ->
  exists c' w', accuracy_step content pair c w = (Ok c', w').
Proof.
  intros Hinv. destruct pair as [text label].
  unfold accuracy_step, bind, invoke, lift, ret. cbv zeta.
  destruct (Hinv (trace w) (input_ids (preprocess_data [text]))
                 (attention_mask (preprocess_data [text])))
    as (score & scores & rest & Heq).
  rewrite Heq. cbn [py_index nth_error np_argmax]. eauto.
Qed.

Lemma accuracy_loop_total content pairs :
  (forall tr ids mask, exists score scores rest,
      tflite_invoke tr content ids mask = Ok ((score :: scores) :: rest)) ->
  forall c w, exists c' w',
      for_each pairs (accuracy_step content) c w = (Ok c', w').
Proof.
  intros Hinv. induction pairs as [|pair pairs IH]; intros c w;
    cbn [for_each].
  - exists c, w. reflexivity.
  - unfold bind at 1.
    destruct (accuracy_step_total content pair c w Hinv) as (c1 & w1 & ->).
    apply IH.
Qed.

Lemma count_correct_le outs labels :
  (count_correct outs labels <= List.length labels)%nat.
Proof.
  unfold count_correct.
  eapply Nat.le_trans; [apply filter_length_le|].
  rewrite length_combine. apply Nat.le_min_r.
Qed.

Lemma int_true_div_ok a b q :
  int_true_div a b = Ok q -> q = (Z.of_nat a # Pos.of_nat b).
Proof.
  unfold int_true_div. destruct b; [discriminate|]. congruence.
Qed.

(** Once the model file is read and loaded, what is left is the loop
    and the division. *)
Lemma evaluate_tflite_accuracy_loaded path content texts labels w :
  dict_get (files w) path = Some content ->
  is_ok (tflite_interpreter content) = true ->
  _evaluate_tflite_accuracy path texts labels w
  = match for_each (combine texts labels) (accuracy_step content) 0%nat w with
    | (Ok c, w1) => (int_true_div c (List.length texts), w1)
    | (Raise e, w1) => (Raise e, w1)
    end.
Proof.
  intros Hfile Hload.
  destruct (tflite_interpreter content) as [details|e] eqn:Hint;
    [|discriminate].
  unfold _evaluate_tflite_accuracy, bind, read_file, lift.
  rewrite Hfile, Hint. reflexivity.
Qed.

(** C10: [_evaluate_tflite_accuracy] divides the number of correct
    predictions by [len(test_texts)] without a guard.  For a model file
    that loads: on an empty text list it stops with [ZeroDivisionError],
    whatever the labels; a run that returns has called the interpreter
    once per zipped pair (as many as the shorter list has), counted the
    pairs whose argmax is the label, and divided by the full length of
    the text list, so texts beyond the labels add to the denominator
    only; and when the interpreter answers every call with a non-empty
    score row, a non-empty text list does give a result. *)
Theorem evaluate_tflite_accuracy_unguarded_division
        path content (texts : list string) (labels : list Z) w :
  dict_get (files w) path = Some content ->
  is_ok (tflite_interpreter content) = true ->
  (texts = [] ->
   _evaluate_tflite_accuracy path texts labels w
   = (Raise ZeroDivisionError, w)) /\
  (forall acc w',
      _evaluate_tflite_accuracy path texts labels w = (Ok acc, w') ->
      exists outs,
        List.length outs = Nat.min (List.length texts) (List.length labels) /\
        trace w' = trace w ++ accuracy_events content texts outs /\
        acc = (Z.of_nat (count_correct outs labels)
               # Pos.of_nat (List.length texts)) /\
        (count_correct outs labels <= List.length labels)%nat) /\
  (texts <> [] ->
   (forall tr ids mask, exists score scores rest,
       tflite_invoke tr content ids mask = Ok ((score :: scores) :: rest)) ->
   exists acc w',
     _evaluate_tflite_accuracy path texts labels w = (Ok acc, w')).
Proof.
  intros Hfile Hload.
  rewrite (evaluate_tflite_accuracy_loaded path content texts labels w
                                           Hfile Hload).
  split; [|split].
  - intros ->. reflexivity.
  - intros acc w' Hrun.
    destruct (for_each (combine texts labels) (accuracy_step content) 0%nat w)
      as [[c|e] w1] eqn:Hloop; [|discriminate].
    apply accuracy_loop_ok in Hloop.
    destruct Hloop as (outs & Hlen & Htr & _ & Hc).
    injection Hrun as Hdiv <-. apply int_true_div_ok in Hdiv.
    assert (Houts : List.length outs
                    = Nat.min (List.length texts) (List.length labels))
      by (now rewrite Hlen, length_combine).
    assert (Hev : accuracy_events content (map fst (combine texts labels)) outs
                  = accuracy_events content texts outs).
    { unfold accuracy_events. f_equal.
      clear - Houts. revert labels outs Houts.
      induction texts as [|t texts IH]; intros [|l labels] [|o outs] H;
        simpl in *; try reflexivity; try discriminate.
      f_equal. apply IH. now injection H. }
    assert (Hcc : count_correct outs (map snd (combine texts labels))
                  = count_correct outs labels).
    { unfold count_correct. f_equal. f_equal.
      clear - Houts. revert labels outs Houts.
      induction texts as [|t texts IH]; intros [|l labels] [|o outs] H;
        simpl in *; try reflexivity; try discriminate.
      f_equal. apply IH. now injection H. }
    exists outs. split; [exact Houts|].
    split; [now rewrite Htr, Hev|]. split.
    + rewrite Hdiv, Hc, Hcc. reflexivity.
    + apply count_correct_le.
  - intros Hne Hinv.
    destruct (accuracy_loop_total content (combine texts labels) Hinv 0%nat w)
      as (c & w1 & Hloop).
    rewrite Hloop. unfold int_true_div.
    destruct texts as [|t texts]; [congruence|]. simpl. eauto.
Qed.
End AccuracyFacts.

(** C10 on the sample environment: three texts, two labels; both scored
    pairs are right and the accuracy is 2/3. *)
Lemma evaluate_tflite_accuracy_unguarded_division_witness :
  let texts := ["ab"; "abc"; "a"] in
  let labels := [0; 1]%Z in
  let run := @_evaluate_tflite_accuracy sample_env "model.tflite"
                                        texts labels sample_world in
  fst run = Ok (2 # 3) /\
  exists outs,
    List.length outs = 2%nat /\
    trace (snd run) = @accuracy_events sample_env [Byte.x01] texts outs /\
    count_correct outs labels = 2%nat.
Proof.
  intros texts labels run. split; [reflexivity|].
  destruct (@evaluate_tflite_accuracy_unguarded_division
              sample_env "model.tflite" [Byte.x01] texts labels sample_world
              eq_refl eq_refl) as (_ & Hscored & _).
  destruct (Hscored (2 # 3) (snd run) eq_refl)
    as (outs & Hlen & Htr & Hacc & _).
  exists outs. split; [exact Hlen|]. split; [exact Htr|].
  injection Hacc as Hnum. lia.
Defined.

(** ** Benchmark *)

Lemma fold_min_spec rest :
  forall x,
    let m := fold_left (fun m y => if Qltb y m then y else m) rest x in
    In m (x :: rest) /\ m <= x /\ forall y, In y rest -> m <= y.
Proof.
  induction rest as [|a rest IH]; intros x; simpl.
  - split; [now left|]. split; [apply Qle_refl|intros y []].
  - destruct (Qltb a x) eqn:Hcmp.
    + destruct (IH a) as (Hin & Hle & Hall). simpl in Hin.
      apply Qltb_lt in Hcmp. split; [|split].
      * destruct Hin as [<-|Hin]; auto.
      * apply Qle_trans with a; auto. now apply Qlt_le_weak.
      * intros y [<-|Hy]; auto.
    + destruct (IH x) as (Hin & Hle & Hall). simpl in Hin.
      apply Qltb_ge in Hcmp. split; [|split]; auto.
      * destruct Hin as [<-|Hin]; auto.
      * intros y [<-|Hy]; auto. now apply Qle_trans with x.
Qed.

Lemma fold_max_spec rest :
  forall x,
    let m := fold_left (fun m y => if Qltb m y then y else m) rest x in
    In m (x :: rest) /\ x <= m /\ forall y, In y rest -> y <= m.
Proof.
  induction rest as [|a rest IH]; intros x; simpl.
  - split; [now left|]. split; [apply Qle_refl|intros y []].
  - destruct (Qltb x a) eqn:Hcmp.
    + destruct (IH a) as (Hin & Hle & Hall). simpl in Hin.
      apply Qltb_lt in Hcmp. split; [|split].
      * destruct Hin as [<-|Hin]; auto.
      * apply Qle_trans with a; auto. now apply Qlt_le_weak.
      * intros y [<-|Hy]; auto.
    + destruct (IH x) as (Hin & Hle & Hall). simpl in Hin.
      apply Qltb_ge in Hcmp. split; [|split]; auto.
      * destruct Hin as [<-|Hin]; auto.
      * intros y [<-|Hy]; auto. now apply Qle_trans with x.
Qed.

Lemma np_min_spec l :
  l <> [] ->
  exists m, np_min l = Ok m /\ In m l /\ forall y, In y l -> m <= y.
Proof.
  destruct l as [|x rest]; [congruence|]. intros _. simpl.
  destruct (fold_min_spec rest x) as (Hin & Hle & Hall).
  eexists. split; [reflexivity|]. split; [exact Hin|].
  intros y [<-|Hy]; auto.
Qed.

Lemma np_max_spec l :
  l <> [] ->
  exists m, np_max l = Ok m /\ In m l /\ forall y, In y l -> y <= m.
Proof.
  destruct l as [|x rest]; [congruence|]. intros _. simpl.
  destruct (fold_max_spec rest x) as (Hin & Hle & Hall).
  eexists. split; [reflexivity|]. split; [exact Hin|].
  intros y [<-|Hy]; auto.
Qed.

Section BenchmarkFacts.
Context {E : Env}.

Lemma benchmark_loop_total content sample_text n :
  (forall tr, is_ok (tflite_invoke tr content
                       (input_ids (preprocess_data [sample_text]))
                       (attention_mask (preprocess_data [sample_text])))
              = true) ->
  forall times w, exists runs w',
      for_range n (benchmark_run content (preprocess_data [sample_text]))
                times w
      = (Ok (times ++ run_times runs), w') /\
      List.length runs = n /\
      trace w' = trace w ++ benchmark_events content sample_text runs /\
      files w' = files w.
Proof.
  intros Hinv. induction n as [|n IH]; intros times w; cbn [for_range].
  - exists [], w. simpl. rewrite !app_nil_r. auto.
  - unfold bind at 1. unfold benchmark_run at 1.
    unfold bind, now, invoke, ret.
    cbn [trace record_event files].
    specialize (Hinv (trace w ++ [EvTime (time_time (trace w))])).
    destruct (tflite_invoke _ content _ _) as [out|e] eqn:Hout;
      [|discriminate].
    match goal with
    | |- context [for_range n _ ?t ?w1] =>
        destruct (IH t w1) as (runs & w' & Hrun & Hlen & Htr & Hfiles)
    end.
    exists ((time_time (trace w), out,
             time_time ((trace w ++ [EvTime (time_time (trace w))])
                        ++ [EvInvoke content
                              (input_ids (preprocess_data [sample_text]))
                              (attention_mask (preprocess_data [sample_text]))
                              (Ok out)])) :: runs), w'.
    rewrite Hrun. cbn [trace files] in Htr, Hfiles.
    split; [|split; [|split]].
    + simpl. now rewrite <- app_assoc.
    + simpl. now rewrite Hlen.
    + rewrite Htr. simpl. rewrite <- !app_assoc. reflexivity.
    + exact Hfiles.
Qed.
End BenchmarkFacts.

Section BenchmarkStatistics.
Context {E : Env}.

(** C8: for a model file that loads and an interpreter that answers,
    [benchmark_tflite_model] with [num_runs > 0] preprocesses one text
    (the first test text, or "Test message"), then does exactly
    [num_runs] runs one after the other, each a clock reading, one
    inference on that same input and a clock reading; the time of a run
    is the difference of its two readings times 1000, no run is dropped,
    and the result holds the mean, the minimum, the maximum and the
    standard deviation of these [num_runs] times.  The number of runs
    used when the caller gives none is 100. *)
Theorem benchmark_tflite_model_statistics
        path content (test_texts : list string) (num_runs : nat) w :
  (0 < num_runs)%nat ->
  dict_get (files w) path = Some content ->
  is_ok (tflite_interpreter content) = true ->
  (forall tr,
      is_ok (tflite_invoke tr content
               (input_ids (preprocess_data [hd "Test message" test_texts]))
               (attention_mask
                  (preprocess_data [hd "Test message" test_texts])))
      = true) ->
  default_num_runs = 100%nat /\
  exists runs d w' avg mn mx sd,
    benchmark_tflite_model path test_texts num_runs w = (Ok d, w') /\
    List.length runs = num_runs /\
    trace w' = trace w ++ benchmark_events content
                            (hd "Test message" test_texts) runs /\
    dict_get d "avg_inference_time_ms" = Some avg /\
    dict_get d "min_inference_time_ms" = Some mn /\
    dict_get d "max_inference_time_ms" = Some mx /\
    dict_get d "std_inference_time_ms" = Some sd /\
    avg = np_sum (run_times runs) / Qlen (run_times runs) /\
    (In mn (run_times runs) /\ forall t, In t (run_times runs) -> mn <= t) /\
    (In mx (run_times runs) /\ forall t, In t (run_times runs) -> t <= mx) /\
    sd = np_sqrt (np_sum (map (fun t => (t - avg) * (t - avg))
                              (run_times runs))
                  / Qlen (run_times runs)).
Proof.
  intros Hpos Hfile Hload Hinv. split; [reflexivity|].
  destruct (tflite_interpreter content) as [details|e] eqn:Hint;
    [|discriminate].
  destruct (benchmark_loop_total content (hd "Test message" test_texts)
                                 num_runs Hinv [] w)
    as (runs & w' & Hloop & Hlen & Htr & _).
  cbn [app] in Hloop.
  assert (Hne : run_times runs <> []).
  { destruct runs; simpl in *; [lia|discriminate]. }
  destruct (np_min_spec (run_times runs) Hne) as (mn & Hmn & Hmin).
  destruct (np_max_spec (run_times runs) Hne) as (mx & Hmx & Hmax).
  exists runs.
  exists [ ("avg_inference_time_ms", np_mean (run_times runs));
           ("min_inference_time_ms", mn);
           ("max_inference_time_ms", mx);
           ("std_inference_time_ms", np_std (run_times runs));
           ("total_benchmark_time_s", np_sum (run_times runs) / 1000) ].
  exists w', (np_mean (run_times runs)), mn, mx, (np_std (run_times runs)).
  split.
  { unfold benchmark_tflite_model, bind, read_file, lift, ret.
    rewrite Hfile, Hint.
    replace (match test_texts with
             | [] => "Test message"
             | text :: _ => text
             end) with (hd "Test message" test_texts)
      by (destruct test_texts; reflexivity).
    rewrite Hloop, Hmn, Hmx. reflexivity. }
  split; [exact Hlen|]. split; [exact Htr|].
  repeat (split; [reflexivity|]).
  split; [exact Hmin|]. split; [exact Hmax|].
  unfold np_std, np_mean, Qlen. now rewrite length_map.
Qed.
End BenchmarkStatistics.

(** C8 on the sample environment: three runs on one input; the clock
    advances by two between the readings of a run, so every time is
    2000 ms. *)
Lemma benchmark_tflite_model_statistics_witness :
  default_num_runs = 100%nat /\
  exists runs d w' avg mn mx sd,
    @benchmark_tflite_model sample_env "model.tflite" ["ab"; "abc"] 3
                            sample_world = (Ok d, w') /\
    List.length runs = 3%nat /\
    trace w' = trace sample_world
               ++ @benchmark_events sample_env [Byte.x01]
                                    (hd "Test message" ["ab"; "abc"]) runs /\
    dict_get d "avg_inference_time_ms" = Some avg /\
    dict_get d "min_inference_time_ms" = Some mn /\
    dict_get d "max_inference_time_ms" = Some mx /\
    dict_get d "std_inference_time_ms" = Some sd /\
    avg = np_sum (run_times runs) / Qlen (run_times runs) /\
    (In mn (run_times runs) /\ forall t, In t (run_times runs) -> mn <= t) /\
    (In mx (run_times runs) /\ forall t, In t (run_times runs) -> t <= mx) /\
    sd = @np_sqrt sample_env
           (np_sum (map (fun t => (t - avg) * (t - avg)) (run_times runs))
            / Qlen (run_times runs)).
Proof.
  apply (@benchmark_tflite_model_statistics sample_env).
  - lia.
  - reflexivity.
  - reflexivity.
  - intros tr. reflexivity.
Defined.

(** ** The evaluation loop *)


Lemma in_dict_setitem {V} (d : dict V) k v item :
  In item (dict_setitem d k v) -> item = (k, v) \/ In item d.
Proof.
  induction d as [|[k' v'] d IH]; simpl.
  - intros [<-|[]]. now left.
  - destruct (String.eqb_spec k' k) as [->|Hne]; simpl.
    + intros [<-|Hin]; auto.
    + intros [<-|Hin]; auto. destruct (IH Hin); auto.
Qed.

Lemma dict_setitem_new {V} (d : dict V) k v :
  ~ In k (dict_keys d) -> dict_setitem d k v = d ++ [(k, v)].
Proof.
  unfold dict_keys. induction d as [|[k' v'] d IH]; simpl; intros Hnot.
  - reflexivity.
  - destruct (String.eqb_spec k' k) as [->|Hne].
    + exfalso. apply Hnot. now left.
    + f_equal. apply IH. intros Hin. apply Hnot. now right.
Qed.

Lemma baseline_free_app evs1 evs2 :
  baseline_free evs1 -> baseline_free evs2 -> baseline_free (evs1 ++ evs2).
Proof. unfold baseline_free. intros. apply Forall_app. auto. Qed.

Section EvaluationFacts.
Context {E : Env}.

Lemma benchmark_events_baseline_free content text runs :
  baseline_free (benchmark_events content text runs).
Proof.
  unfold baseline_free, benchmark_events.
  induction runs as [|r runs IH]; simpl; repeat constructor. exact IH.
Qed.

Lemma accuracy_events_baseline_free content texts outs :
  baseline_free (accuracy_events content texts outs).
Proof.
  unfold baseline_free, accuracy_events.
  induction (combine texts outs); simpl; repeat constructor. assumption.
Qed.

Lemma benchmark_run_ok content processed times w times' w' :
  benchmark_run content processed times w = (Ok times', w') ->
  exists evs, trace w' = trace w ++ evs /\ baseline_free evs.
Proof.
  unfold benchmark_run, bind, now, invoke, ret. cbn [trace record_event].
  destruct (tflite_invoke _ _ _ _) as [out|e]; [|discriminate].
  intros H. injection H as _ <-. unfold record_event. cbn [trace].
  rewrite <- !app_assoc. eexists. split; [reflexivity|].
  repeat constructor.
Qed.

Lemma benchmark_loop_ok content processed n :
  forall times w times' w',
    for_range n (benchmark_run content processed) times w = (Ok times', w') ->
    exists evs, trace w' = trace w ++ evs /\ baseline_free evs.
Proof.
  induction n as [|n IH]; intros times w times' w' Hrun; cbn [for_range] in Hrun.
  - unfold ret in Hrun. injection Hrun as _ <-. exists [].
    rewrite app_nil_r. split; [reflexivity|constructor].
  - unfold bind in Hrun at 1.
    destruct (benchmark_run content processed times w) as [[t1|e] w1] eqn:Hstep;
      [|discriminate].
    apply benchmark_run_ok in Hstep. destruct Hstep as (evs1 & Htr1 & Hfree1).
    apply IH in Hrun. destruct Hrun as (evs2 & Htr2 & Hfree2).
    exists (evs1 ++ evs2). rewrite Htr2, Htr1, <- app_assoc.
    split; [reflexivity|]. now apply baseline_free_app.
Qed.

Lemma benchmark_tflite_model_ok path texts n w d w' :
  benchmark_tflite_model path texts n w = (Ok d, w') ->
  exists evs, trace w' = trace w ++ evs /\ baseline_free evs.
Proof.
  unfold benchmark_tflite_model. unfold bind at 1. unfold read_file at 1.
  destruct (dict_get (files w) path) as [content|]; [|discriminate].
  unfold bind at 1. unfold lift at 1.
  destruct (tflite_interpreter content) as [details|e]; [|discriminate].
  unfold bind at 1.
  destruct (for_range n _ [] w) as [[times|e] w1] eqn:Hloop; [|discriminate].
  apply benchmark_loop_ok in Hloop.
  unfold bind, lift, ret.
  destruct (np_min times); [|discriminate].
  destruct (np_max times); [|discriminate].
  intros H. injection H as _ <-. exact Hloop.
Qed.

Lemma evaluate_tflite_accuracy_ok path texts labels w acc w' :
  _evaluate_tflite_accuracy path texts labels w = (Ok acc, w') ->
  exists evs, trace w' = trace w ++ evs /\ baseline_free evs.
Proof.
  unfold _evaluate_tflite_accuracy. unfold bind at 1. unfold read_file at 1.
  destruct (dict_get (files w) path) as [content|]; [|discriminate].
  unfold bind at 1. unfold lift at 1.
  destruct (tflite_interpreter content) as [details|e]; [|discriminate].
  unfold bind at 1.
  destruct (for_each _ _ 0%nat w) as [[c|e] w1] eqn:Hloop; [|discriminate].
  apply accuracy_loop_ok in Hloop. destruct Hloop as (outs & _ & Htr & _).
  unfold lift. intros H. injection H as _ <-.
  eexists. split; [exact Htr|]. apply accuracy_events_baseline_free.
Qed.


Lemma dict_getitem_ok {V} (d : dict V) k v :
  dict_getitem d k = Ok v -> dict_get d k = Some v.
Proof.
  unfold dict_getitem. destruct (dict_get d k); [|discriminate]. congruence.
Qed.

Lemma evaluate_one_ok b_size b_acc b_lat texts labels m info ev w ev' w' :
  evaluate_one b_size b_acc b_lat texts labels (m, info) ev w = (Ok ev', w') ->
  exists metrics evs,
    ev' = dict_setitem ev m metrics /\
    evaluated_entry texts labels b_size b_acc b_lat (m, info) (m, metrics) /\
    trace w' = trace w ++ evs /\ baseline_free evs.
Proof.
  unfold evaluate_one. unfold bind at 1.
  destruct (benchmark_tflite_model _ _ _ w) as [[d|e] w1] eqn:Hbench;
    [|discriminate].
  pose proof Hbench as Hbench'.
  apply benchmark_tflite_model_ok in Hbench'.
  destruct Hbench' as (evs1 & Htr1 & Hfree1).
  unfold bind at 1.
  destruct (_evaluate_tflite_accuracy _ _ _ w1) as [[qa|e] w2] eqn:Hacc;
    [|discriminate].
  pose proof Hacc as Hacc'.
  apply evaluate_tflite_accuracy_ok in Hacc'.
  destruct Hacc' as (evs2 & Htr2 & Hfree2).
  unfold bind, lift, ret.
  destruct (float_div b_size (size_mb info)) as [sr|e] eqn:Hsr; [|discriminate].
  destruct (float_div qa b_acc) as [ar|e] eqn:Har; [|discriminate].
  destruct (dict_getitem d "avg_inference_time_ms") as [avg|e] eqn:Havg;
    [|discriminate].
  destruct (np_true_div b_lat avg) as [sp|e] eqn:Hsp; [|discriminate].
  apply dict_getitem_ok in Havg.
  intros H. injection H as <- <-.
  eexists. exists (evs1 ++ evs2). split; [reflexivity|].
  split; [|split].
  - unfold evaluated_entry, measured_on, ratios_against. cbn.
    split; [reflexivity|]. split; [reflexivity|]. split; [reflexivity|].
    split; [exists w, d, w1, w2; auto|]. auto 7.
  - now rewrite Htr2, Htr1, <- app_assoc.
  - now apply baseline_free_app.
Qed.

Lemma evaluate_loop_ok b_size b_acc b_lat texts labels models :
  forall ev w ev' w',
    for_each models (evaluate_one b_size b_acc b_lat texts labels) ev w
    = (Ok ev', w') ->
    (exists evs, trace w' = trace w ++ evs /\ baseline_free evs) /\
    (forall m metrics,
        In (m, metrics) ev' ->
        In (m, metrics) ev \/
        (ratios_against b_size b_acc b_lat metrics /\
         exists info, In (m, info) models /\
                      quantized_size_mb metrics = size_mb info)) /\
    (NoDup (dict_keys ev ++ dict_keys models) ->
     dict_keys ev' = dict_keys ev ++ dict_keys models) /\
    (NoDup (dict_keys ev ++ dict_keys models) ->
     exists entries,
       ev' = ev ++ entries /\
       Forall2 (evaluated_entry texts labels b_size b_acc b_lat)
               models entries).
Proof.
  induction models as [|[m info] models IH]; intros ev w ev' w' Hrun;
    cbn [for_each] in Hrun.
  - unfold ret in Hrun. injection Hrun as <- <-. split; [|split; [|split]].
    + exists []. rewrite app_nil_r. split; [reflexivity|constructor].
    + auto.
    + intros _. simpl. now rewrite app_nil_r.
    + intros _. exists []. rewrite app_nil_r. split; [reflexivity|constructor].
  - unfold bind in Hrun at 1.
    destruct (evaluate_one _ _ _ _ _ (m, info) ev w) as [[ev1|e] w1] eqn:Hone;
      [|discriminate].
    apply evaluate_one_ok in Hone.
    destruct Hone as (metrics1 & evs1 & -> & Hentry & Htr1 & Hfree1).
    pose proof Hentry as (_ & _ & Hsize & _ & Hratios). cbn [fst snd] in *.
    apply IH in Hrun.
    destruct Hrun as ((evs2 & Htr2 & Hfree2) & Hentries & Hkeys & Hall).
    assert (Hfresh : NoDup (dict_keys ev ++ dict_keys ((m, info) :: models))
                     -> ~ In m (dict_keys ev)).
    { intros Hnodup Hin. simpl in Hnodup.
      apply NoDup_remove_2 in Hnodup. apply Hnodup.
      apply in_or_app. now left. }
    assert (Hnext : NoDup (dict_keys ev ++ dict_keys ((m, info) :: models))
                    -> NoDup (dict_keys (ev ++ [(m, metrics1)])
                              ++ dict_keys models)).
    { intros Hnodup. unfold dict_keys in *. rewrite map_app, <- app_assoc.
      exact Hnodup. }
    split; [|split; [|split]].
    + exists (evs1 ++ evs2). rewrite Htr2, Htr1, <- app_assoc.
      split; [reflexivity|]. now apply baseline_free_app.
    + intros m' metrics' Hin. destruct (Hentries m' metrics' Hin) as [Hold|Hnew].
      * apply in_dict_setitem in Hold. destruct Hold as [Heq|Hold]; auto.
        injection Heq as -> ->. right. split; [exact Hratios|].
        exists info. split; [now left|exact Hsize].
      * right. destruct Hnew as (Hr & info' & Hin' & Hs).
        split; [exact Hr|]. exists info'. split; [now right|exact Hs].
    + intros Hnodup.
      rewrite (dict_setitem_new ev m metrics1 (Hfresh Hnodup)) in Hkeys.
      rewrite (Hkeys (Hnext Hnodup)).
      unfold dict_keys. rewrite map_app, <- app_assoc. reflexivity.
    + intros Hnodup.
      rewrite (dict_setitem_new ev m metrics1 (Hfresh Hnodup)) in Hall.
      destruct (Hall (Hnext Hnodup)) as (entries & -> & HF).
      exists ((m, metrics1) :: entries). rewrite <- app_assoc.
      split; [reflexivity|]. constructor; [exact Hentry|exact HF].
Qed.
End EvaluationFacts.

Section EvaluationRun.
Context {E : Env}.

(** How [evaluate_quantized_models] starts: the two measurements of the
    original model, then the loop. *)
Lemma evaluate_quantized_models_unfold models texts labels w :
  evaluate_quantized_models models texts labels w
  = match classifier_calculate_model_size (trace w) with
    | Raise e => (Raise e, record_event (EvModelSize (Raise e)) w)
    | Ok b_size =>
        let w1 := record_event (EvModelSize (Ok b_size))
                               (unlink temp_model_path w) in
        match classifier_evaluate_model (trace w1) texts labels with
        | Raise e =>
            (Raise e, record_event (EvEvaluateModel texts labels (Raise e)) w1)
        | Ok b =>
            for_each models
                     (evaluate_one b_size (fst b) (snd b) texts labels) []
                     (record_event (EvEvaluateModel texts labels (Ok b))
                                   (unlink temp_model_path w1))
        end
    end.
Proof.
  unfold evaluate_quantized_models, dict_items.
  unfold bind at 1. unfold calculate_model_size at 1.
  destruct (classifier_calculate_model_size (trace w)) as [b_size|e];
    cbn [is_ok]; [|reflexivity].
  unfold bind at 1. unfold evaluate_model at 1.
  destruct (classifier_evaluate_model _ texts labels) as [b|e];
    cbn [is_ok]; reflexivity.
Qed.

(** A run of [evaluate_quantized_models] that returns. *)
Lemma evaluate_quantized_models_run models texts labels w ev w' :
  evaluate_quantized_models models texts labels w = (Ok ev, w') ->
  exists b_size b_acc b_lat evs,
    classifier_calculate_model_size (trace w) = Ok b_size /\
    trace w' = trace w ++ EvModelSize (Ok b_size)
                 :: EvEvaluateModel texts labels (Ok (b_acc, b_lat)) :: evs /\
    baseline_free evs /\
    (forall m metrics,
        In (m, metrics) ev ->
        ratios_against b_size b_acc b_lat metrics /\
        exists info, In (m, info) models /\
                     quantized_size_mb metrics = size_mb info) /\
    (dict_wf models -> dict_keys ev = dict_keys models) /\
    (dict_wf models ->
     Forall2 (evaluated_entry texts labels b_size b_acc b_lat) models ev).
Proof.
  rewrite evaluate_quantized_models_unfold.
  destruct (classifier_calculate_model_size (trace w)) as [b_size|e] eqn:Hsize;
    [|discriminate].
  cbv zeta.
  destruct (classifier_evaluate_model _ texts labels) as [[b_acc b_lat]|e];
    [|discriminate].
  cbn [fst snd]. intros Hloop.
  apply evaluate_loop_ok in Hloop.
  destruct Hloop as ((evs & Htr & Hfree) & Hentries & Hkeys & Hall).
  unfold record_event, unlink in Htr. cbn [trace] in Htr.
  exists b_size, b_acc, b_lat, evs. split; [reflexivity|].
  split; [|split; [exact Hfree|split; [|split]]].
  - rewrite Htr, <- !app_assoc. reflexivity.
  - intros m metrics Hin. destruct (Hentries m metrics Hin) as [[]|Hnew].
    exact Hnew.
  - intros Hwf. apply Hkeys. exact Hwf.
  - intros Hwf. destruct (Hall Hwf) as (entries & -> & HF). exact HF.
Qed.

End EvaluationRun.


(** ** The retry of [quantize_int8] *)

Section Int8Retry.
Context {E : Env}.

(** Two levels of calls are all [quantize_int8] ever needs. *)
Lemma quantize_int8_fuel_irrelevant n path texts use_fallback w :
  quantize_int8_rec (S (S n)) path texts use_fallback w
  = quantize_int8 path texts use_fallback w.
Proof.
  unfold quantize_int8. destruct use_fallback; reflexivity.
Qed.

(** C6: when the strict attempt of [quantize_int8] (all int8, no float
    fallback) fails in [converter.convert()], the conversion is tried
    once more with the fallback settings and never a third time: the
    run makes exactly two conversion calls, the strict one and the
    relaxed one; if the relaxed one fails too its error is what the
    caller gets, and if it goes through its model is written to
    [output_path] and described as int8_fallback. *)
Theorem quantize_int8_retries_once path texts w e :
  let strict := int8_converter texts false in
  let relaxed := int8_converter texts true in
  let tr1 := trace w ++ [EvTime (time_time (trace w))] in
  let tr2 := tr1 ++ [EvConvert strict (Raise e)] in
  let tr3 := tr2 ++ [EvTime (time_time tr2)] in
  tflite_convert tr1 strict = Raise e ->
  exists res w' evs,
    quantize_int8 path texts false w = (res, w') /\
    trace w' = trace w ++ evs /\
    convert_events evs
    = [EvConvert strict (Raise e);
       EvConvert relaxed (tflite_convert tr3 relaxed)] /\
    (forall e2, tflite_convert tr3 relaxed = Raise e2 -> res = Raise e2) /\
    (forall model,
        tflite_convert tr3 relaxed = Ok model ->
        dict_get (files w') path = Some model /\
        exists conversion_time,
          res = _get_tflite_model_info path model
                                       "int8_fallback" conversion_time).
Proof.
  intros strict relaxed tr1 tr2 tr3 Hstrict.
  unfold quantize_int8. cbn [quantize_int8_rec].
  unfold bind, try_except, now, convert, lift, ret, write_file, record_event.
  cbn [trace files negb].
  fold strict. fold tr1. rewrite Hstrict. cbn [trace files negb].
  fold tr2. fold relaxed. fold tr3.
  destruct (tflite_convert tr3 relaxed) as [model|e2] eqn:Hrelaxed.
  - cbn [trace files].
    destruct (_get_tflite_model_info path model "int8_fallback" _)
      as [info|e3] eqn:Hinfo.
    + eexists. eexists. eexists. split; [reflexivity|]. cbn [trace files].
      split.
      { unfold tr3, tr2, tr1. rewrite <- !app_assoc. reflexivity. }
      split; [reflexivity|]. split; [discriminate|].
      intros model' Hm. injection Hm as <-. split; [apply dict_get_setitem_same|].
      eexists. symmetry. exact Hinfo.
    + eexists. eexists. eexists. split; [reflexivity|]. cbn [trace files].
      split.
      { unfold tr3, tr2, tr1. rewrite <- !app_assoc. reflexivity. }
      split; [reflexivity|]. split; [discriminate|].
      intros model' Hm. injection Hm as <-. split; [apply dict_get_setitem_same|].
      eexists. symmetry. exact Hinfo.
  - eexists. eexists. eexists. split; [reflexivity|]. cbn [trace files].
    split.
    { unfold tr3, tr2, tr1. rewrite <- !app_assoc. reflexivity. }
    split; [reflexivity|]. split; [intros e3 H3; congruence|discriminate].
Qed.
End Int8Retry.

(** C6 where full int8 cannot be converted and the relaxed variant can:
    the second attempt delivers the model. *)
Lemma quantize_int8_retries_once_witness :
  exists res w' evs,
    @quantize_int8 strict_failing_env "int8.tflite" ["ab"; "abc"] false
                   empty_world = (res, w') /\
    trace w' = trace empty_world ++ evs /\
    List.length (convert_events evs) = 2%nat /\
    is_ok res = true /\
    dict_get (files w') "int8.tflite"
    = Some [Byte.x03; Byte.x03; Byte.x03].
Proof.
  destruct (@quantize_int8_retries_once
              strict_failing_env "int8.tflite" ["ab"; "abc"] empty_world
              (ExternalError "unsupported operation") eq_refl)
    as (res & w' & evs & Hrun & Htr & Hconv & _ & Hok).
  exists res, w', evs. split; [exact Hrun|]. split; [exact Htr|].
  split; [now rewrite Hconv|].
  destruct (Hok [Byte.x03; Byte.x03; Byte.x03] eq_refl)
    as (Hfile & t & Hres).
  split; [|exact Hfile]. rewrite Hres. reflexivity.
Defined.

(** ** Failures of single strategies *)

Lemma detailed_results_keys (items : dict QuantizationMetrics) :
  forall acc : dict json,
    NoDup (dict_keys acc ++ dict_keys items) ->
    dict_keys (fold_left (fun acc item =>
                            dict_setitem acc (fst item)
                                         (metrics_json (snd item)))
                         items acc)
    = dict_keys acc ++ dict_keys items.
Proof.
  induction items as [|[m metrics] items IH]; intros acc Hnodup; simpl.
  - now rewrite app_nil_r.
  - simpl in Hnodup.
    assert (Hfresh : ~ In m (dict_keys acc)).
    { intros Hin. apply NoDup_remove_2 in Hnodup. apply Hnodup.
      apply in_or_app. now left. }
    rewrite (dict_setitem_new acc m (metrics_json metrics) Hfresh).
    rewrite IH.
    + unfold dict_keys. rewrite map_app, <- app_assoc. reflexivity.
    + unfold dict_keys in *. rewrite map_app, <- app_assoc. exact Hnodup.
Qed.

(** On a non-empty well-formed map the report lists every method of the
    map, in order, under [quantization_methods_tested] and under
    [detailed_results]. *)
Lemma quantization_report_lists_methods (d : dict QuantizationMetrics) :
  d <> [] -> dict_wf d ->
  exists report summary detailed,
    quantization_report d = Ok report /\
    json_field report "summary" = Some summary /\
    json_field summary "quantization_methods_tested"
    = Some (JList (map JStr (dict_keys d))) /\
    json_field report "detailed_results" = Some (JObj detailed) /\
    dict_keys detailed = dict_keys d.
Proof.
  intros Hne Hwf. unfold quantization_report.
  destruct (fallback_first_min d Hne Hwf) as (bs & _ & Hbs & _).
  destruct d as [|[k v] d]; [congruence|]. cbn [dict_values map snd].
  rewrite Hbs. cbn [rbind].
  assert (Hmax : exists ba,
             py_max (dict_keys ((k, v) :: d))
               (fun k0 => metrics <~ dict_getitem ((k, v) :: d) k0 ;;
                          Ok (accuracy_retention metrics)) = Ok ba).
  { cbn [dict_keys map fst py_max].
    rewrite (retention_key_total ((k, v) :: d) k (or_introl eq_refl)).
    cbn [rbind].
    apply (max_loop_total (method_retention ((k, v) :: d))).
    intros x Hx. apply retention_key_total. now right. }
  destruct Hmax as (ba & Hba). rewrite Hba. cbn [rbind].
  eexists. eexists. eexists. split; [reflexivity|].
  split; [reflexivity|]. split; [reflexivity|]. split; [reflexivity|].
  unfold dict_items. rewrite detailed_results_keys; [reflexivity|].
  exact Hwf.
Qed.

Lemma kept_three_wf {A} (r1 r2 r3 : result A) :
  dict_wf (kept "dynamic" r1 ++ kept "float16" r2 ++ kept "int8" r3).
Proof.
  unfold dict_wf, dict_keys.
  destruct r1, r2, r3; simpl; repeat constructor; simpl;
    intuition discriminate.
Qed.

Lemma for_each_app {A S} (body : A -> S -> M S) (l1 l2 : list A) :
  forall s w,
    for_each (l1 ++ l2) body s w
    = match for_each l1 body s w with
      | (Ok s1, w1) => for_each l2 body s1 w1
      | (Raise e, w1) => (Raise e, w1)
      end.
Proof.
  induction l1 as [|a l1 IH]; intros s w; [reflexivity|].
  cbn [app for_each]. unfold bind.
  destruct (body a s w) as [[s1|e] w1]; [apply IH|reflexivity].
Qed.

Section Isolation.
Context {E : Env}.

(** A benchmark or an accuracy evaluation that raises makes the body of
    the evaluation loop raise. *)
Lemma evaluate_one_raises b_size b_acc b_lat texts labels m info ev w e w' :
  benchmark_tflite_model (model_path info) (py_slice_to 10 texts)
                         default_num_runs w = (Raise e, w') \/
  (exists d w1,
      benchmark_tflite_model (model_path info) (py_slice_to 10 texts)
                             default_num_runs w = (Ok d, w1) /\
      _evaluate_tflite_accuracy (model_path info) texts labels w1
      = (Raise e, w')) ->
  evaluate_one b_size b_acc b_lat texts labels (m, info) ev w = (Raise e, w').
Proof.
  unfold evaluate_one. intros [Hbench|(d & w1 & Hbench & Hacc)].
  - unfold bind at 1. now rewrite Hbench.
  - unfold bind at 1. rewrite Hbench. unfold bind at 1. now rewrite Hacc.
Qed.

(** [quantize_all_methods] runs the three conversions one after the
    other whatever the earlier ones did, and keeps those that returned. *)
Lemma quantize_all_methods_kept output_dir calibration_texts w :
  let s1 := quantize_dynamic
              (path_join output_dir "mobile_classifier_dynamic.tflite") w in
  let s2 := quantize_float16
              (path_join output_dir "mobile_classifier_float16.tflite")
              (snd s1) in
  let s3 := quantize_int8
              (path_join output_dir "mobile_classifier_int8.tflite")
              calibration_texts true (snd s2) in
  quantize_all_methods output_dir calibration_texts w
  = (Ok (kept "dynamic" (fst s1) ++ kept "float16" (fst s2)
         ++ kept "int8" (fst s3)),
     snd s3).
Proof.
  intros s1 s2 s3. subst s1 s2 s3.
  unfold quantize_all_methods.
  unfold bind at 1. unfold try_except at 1. unfold bind at 1.
  destruct (quantize_dynamic _ w) as [[i1|e1] w1]; cbn [fst snd kept ret];
    unfold bind at 1; unfold try_except at 1; unfold bind at 1;
    destruct (quantize_float16 _ w1) as [[i2|e2] w2]; cbn [fst snd kept ret];
    unfold bind at 1; unfold try_except at 1; unfold bind at 1;
    destruct (quantize_int8 _ calibration_texts true w2) as [[i3|e3] w3];
    reflexivity.
Qed.

Lemma create_quantization_report_written ev path w report :
  quantization_report ev = Ok report ->
  exists w',
    create_quantization_report ev path w = (Ok tt, w') /\
    dict_get (files w') path = Some (json_dump report).
Proof.
  intros Hreport. unfold create_quantization_report, bind, lift, write_file.
  rewrite Hreport. eexists. split; [reflexivity|].
  cbn [files]. apply dict_get_setitem_same.
Qed.

(** C7, as the code has it: a conversion that raises is caught inside
    [quantize_all_methods], which always returns, has tried all three
    strategies and holds exactly those that converted; when the
    evaluation of these models returns, its result has the same methods
    in the same order, and if there is at least one the report is
    written and lists exactly them under [quantization_methods_tested]
    and [detailed_results].  The evaluation loop has no such handler: a
    benchmark or an accuracy evaluation that raises for one model ends
    the loop with that error, whatever was evaluated before and whatever
    models are left. *)
Theorem conversion_failure_is_isolated output_dir calibration_texts w :
  let s1 := quantize_dynamic
              (path_join output_dir "mobile_classifier_dynamic.tflite") w in
  let s2 := quantize_float16
              (path_join output_dir "mobile_classifier_float16.tflite")
              (snd s1) in
  let s3 := quantize_int8
              (path_join output_dir "mobile_classifier_int8.tflite")
              calibration_texts true (snd s2) in
  let models := kept "dynamic" (fst s1) ++ kept "float16" (fst s2)
                ++ kept "int8" (fst s3) in
  quantize_all_methods output_dir calibration_texts w = (Ok models, snd s3) /\
  (forall test_texts test_labels ev w2,
    evaluate_quantized_models models test_texts test_labels (snd s3)
    = (Ok ev, w2) ->
    dict_keys ev = dict_keys models /\
    (models <> [] ->
     forall output_path, exists report summary detailed w3,
       create_quantization_report ev output_path w2 = (Ok tt, w3) /\
       dict_get (files w3) output_path = Some (json_dump report) /\
       json_field report "summary" = Some summary /\
       json_field summary "quantization_methods_tested"
       = Some (JList (map JStr (dict_keys models))) /\
       json_field report "detailed_results" = Some (JObj detailed) /\
       dict_keys detailed = dict_keys models)) /\
  (forall b_size b_acc b_lat test_texts test_labels
          done m info rest ev0 w0 ev1 w1 e w2,
      for_each done
               (evaluate_one b_size b_acc b_lat test_texts test_labels)
               ev0 w0 = (Ok ev1, w1) ->
      benchmark_tflite_model (model_path info) (py_slice_to 10 test_texts)
                             default_num_runs w1 = (Raise e, w2) \/
      (exists d w1',
          benchmark_tflite_model (model_path info)
                                 (py_slice_to 10 test_texts)
                                 default_num_runs w1 = (Ok d, w1') /\
          _evaluate_tflite_accuracy (model_path info)
                                    test_texts test_labels w1'
          = (Raise e, w2)) ->
      for_each (done ++ (m, info) :: rest)
               (evaluate_one b_size b_acc b_lat test_texts test_labels)
               ev0 w0 = (Raise e, w2)).
Proof.
  intros s1 s2 s3 models.
  split; [apply quantize_all_methods_kept|]. split.
  2:{ intros b_size b_acc b_lat test_texts test_labels
             done m info rest ev0 w0 ev1 w1 e w2 Hdone Hfail.
      rewrite for_each_app, Hdone. cbn [for_each]. unfold bind.
      now rewrite (evaluate_one_raises b_size b_acc b_lat test_texts
                     test_labels m info ev1 w1 e w2 Hfail). }
  intros test_texts test_labels ev w2 Hrun.
  assert (Hwf : dict_wf models) by apply kept_three_wf.
  destruct (evaluate_quantized_models_run
              models test_texts test_labels (snd s3) ev w2 Hrun)
    as (_ & _ & _ & _ & _ & _ & _ & _ & Hkeys & _).
  specialize (Hkeys Hwf). split; [exact Hkeys|].
  intros Hne output_path.
  assert (Hev_ne : ev <> []).
  { intros ->. destruct models; [congruence|discriminate]. }
  assert (Hev_wf : dict_wf ev) by (unfold dict_wf; now rewrite Hkeys).
  destruct (quantization_report_lists_methods ev Hev_ne Hev_wf)
    as (report & summary & detailed & Hrep & Hsum & Htested & Hdet & Hdk).
  destruct (create_quantization_report_written ev output_path w2 report Hrep)
    as (w3 & Hcreate & Hfile).
  exists report, summary, detailed, w3. rewrite <- Hkeys. auto 7.
Qed.
End Isolation.

(** C7, as the code has it, where the float16 conversion fails: dynamic
    and int8
    are converted, evaluated and reported. *)
Lemma conversion_failure_is_isolated_witness :
  exists models w1 ev w2 report summary w3,
    @quantize_all_methods float16_failing_env "models/quantized"
        (calibration_texts_of sample_data) empty_world = (Ok models, w1) /\
    dict_keys models = ["dynamic"; "int8"] /\
    @evaluate_quantized_models float16_failing_env models
        (test_texts sample_data) (test_labels sample_data) w1 = (Ok ev, w2) /\
    dict_keys ev = ["dynamic"; "int8"] /\
    @create_quantization_report float16_failing_env ev report_path w2
    = (Ok tt, w3) /\
    dict_get (files w3) report_path
    = Some (@json_dump float16_failing_env report) /\
    json_field report "summary" = Some summary /\
    json_field summary "quantization_methods_tested"
    = Some (JList [JStr "dynamic"; JStr "int8"]).
Proof.
  destruct (@conversion_failure_is_isolated
              float16_failing_env "models/quantized"
              (calibration_texts_of sample_data) empty_world)
    as (Hconv & Hrest & _).
  match type of Hconv with
  | _ = (Ok ?m, ?w) => set (models := m) in *; set (w1 := w) in *
  end.
  destruct (@evaluate_quantized_models float16_failing_env models
              (test_texts sample_data) (test_labels sample_data) w1)
    as [[ev|e] w2] eqn:Hrun.
  - destruct (Hrest _ _ ev w2 Hrun) as (Hkeys & Hreport).
    destruct (Hreport ltac:(vm_compute; discriminate) report_path)
      as (report & summary & detailed & w3 & Hcreate & Hfile & Hsum
          & Htested & _).
    exists models, w1, ev, w2, report, summary, w3.
    split; [exact Hconv|]. split; [reflexivity|]. split; [exact Hrun|].
    split; [exact Hkeys|]. split; [exact Hcreate|]. split; [exact Hfile|].
    split; [exact Hsum|exact Htested].
  - vm_compute in Hrun. discriminate.
Defined.

(** C7 fails as stated for benchmark and evaluation failures: all three
    strategies convert, the interpreter fails on the dynamic-range model
    only (the other two alone evaluate without error), and yet
    [evaluate_quantized_models] raises, [quantize_model] raises with it
    and no report is written. *)
Lemma benchmark_failure_aborts_the_run :
  let conversion :=
    @quantize_all_methods failing_benchmark_env "models/quantized"
        (calibration_texts_of sample_data) empty_world in
  let run := @quantize_model failing_benchmark_env sample_data 20
                             empty_world in
  exists dynamic float16 int8,
    fst conversion
    = Ok [("dynamic", dynamic); ("float16", float16); ("int8", int8)] /\
    is_ok (fst (@evaluate_quantized_models failing_benchmark_env
                  [("float16", float16); ("int8", int8)]
                  (test_texts sample_data) (test_labels sample_data)
                  (snd conversion))) = true /\
    fst (@evaluate_quantized_models failing_benchmark_env
           [("dynamic", dynamic); ("float16", float16); ("int8", int8)]
           (test_texts sample_data) (test_labels sample_data)
           (snd conversion))
    = Raise (ExternalError "invoke failed") /\
    fst run = Raise (ExternalError "invoke failed") /\
    dict_get (files (snd run)) report_path = None.
Proof.
  intros conversion run.
  eexists. eexists. eexists.
  split; [vm_compute; reflexivity|].
  split; [vm_compute; reflexivity|].
  split; [vm_compute; reflexivity|].
  split; vm_compute; reflexivity.
Qed.

(** ** The calibration sample *)

Lemma range_loop_step_one fuel :
  forall i stop,
    (stop - i <= fuel)%nat -> range_loop fuel i stop 1 = seq i (stop - i).
Proof.
  induction fuel as [|fuel IH]; intros i stop Hfuel; simpl.
  - replace (stop - i)%nat with 0%nat by lia. reflexivity.
  - destruct (Nat.ltb_spec i stop) as [Hlt|Hge].
    + replace (stop - i)%nat with (S (stop - (i + 1)))%nat by lia.
      simpl. f_equal. rewrite IH by lia. now rewrite Nat.add_1_r.
    + replace (stop - i)%nat with 0%nat by lia. reflexivity.
Qed.

Lemma py_slice_singleton {A} (pre : list A) a post i n :
  i = List.length pre ->
  n = (List.length pre + S (List.length post))%nat ->
  py_slice i (Nat.min (i + 1) n) (pre ++ a :: post) = [a].
Proof.
  intros -> ->. unfold py_slice.
  replace (Nat.min (List.length pre + 1)
                   (List.length pre + S (List.length post))
           - List.length pre)%nat with 1%nat by lia.
  rewrite skipn_app, skipn_all, Nat.sub_diag. reflexivity.
Qed.

Lemma singleton_batches {A B C} (f : A -> B) (g : A -> C) (texts : list A) :
  forall pre,
    map (fun i =>
           let end_idx :=
             Nat.min (i + 1) (List.length (pre ++ texts)) in
           (py_slice i end_idx (map f (pre ++ texts)),
            py_slice i end_idx (map g (pre ++ texts))))
        (seq (List.length pre) (List.length texts))
    = map (fun t => ([f t], [g t])) texts.
Proof.
  induction texts as [|a texts IH]; intros pre; [reflexivity|].
  cbn [List.length seq map]. f_equal.
  - cbv zeta. rewrite !map_app. cbn [map]. f_equal.
    + apply py_slice_singleton; rewrite ?length_app, ?length_map;
        reflexivity.
    + apply py_slice_singleton; rewrite ?length_app, ?length_map;
        reflexivity.
  - specialize (IH (pre ++ [a])).
    replace ((pre ++ [a]) ++ texts) with (pre ++ a :: texts) in IH
      by (now rewrite <- app_assoc).
    replace (List.length (pre ++ [a])) with (S (List.length pre)) in IH
      by (rewrite length_app; simpl; lia).
    exact IH.
Qed.

Section Calibration.
Context {E : Env}.

(** With batches of one text the generator yields every text once, in
    the order of the list. *)
Lemma create_representative_dataset_one_by_one texts :
  create_representative_dataset texts 1
  = Ok (map (fun text => ([fst (tokenizer text)], [snd (tokenizer text)]))
            texts).
Proof.
  unfold create_representative_dataset, py_range, preprocess_data.
  cbn [Nat.eqb rbind input_ids attention_mask].
  rewrite range_loop_step_one by lia. rewrite Nat.sub_0_r. f_equal.
  exact (singleton_batches (fun t => fst (tokenizer t))
                           (fun t => snd (tokenizer t)) texts []).
Qed.

(** C4, as the code has it: the calibration sample is
    [train_texts[:500]], which never fails; it is the prefix of the
    training corpus, in order, of length min(500, len(corpus)) (500 texts
    when there are that many, the whole corpus otherwise), and the
    representative dataset of the int8 conversion yields these texts one
    by one in that order. *)
Theorem calibration_sample_is_order_preserving_prefix
        (data : pipeline_data) :
  let sample := calibration_texts_of data in
  (exists rest, train_texts data = sample ++ rest) /\
  List.length sample
  = Nat.min calibration_sample_size (List.length (train_texts data)) /\
  (calibration_sample_size <= List.length (train_texts data) ->
   List.length sample = calibration_sample_size)%nat /\
  (List.length (train_texts data) <= calibration_sample_size ->
   sample = train_texts data)%nat /\
  representative_dataset (int8_converter sample true)
  = Some (Ok (map (fun text => ([fst (tokenizer text)],
                                [snd (tokenizer text)]))
                  sample)).
Proof.
  intros sample. subst sample. unfold calibration_texts_of, py_slice_to.
  split; [|split; [|split; [|split]]].
  - exists (skipn calibration_sample_size (train_texts data)).
    symmetry. apply firstn_skipn.
  - apply length_firstn.
  - intros Hle. rewrite length_firstn. lia.
  - intros Hle. now apply firstn_all2.
  - unfold int8_converter, set_supported_types, set_representative_dataset.
    cbn [representative_dataset].
    now rewrite create_representative_dataset_one_by_one.
Qed.
End Calibration.

(** C4, as the code has it, on the three training texts of the sample
    data. *)
Lemma calibration_sample_is_order_preserving_prefix_witness :
  @calibration_texts_of sample_data = train_texts sample_data /\
  representative_dataset
    (@int8_converter sample_env (calibration_texts_of sample_data) true)
  = Some (Ok [ ([[15%Z]], [[1%Z]]); ([[16%Z]], [[1%Z]]);
               ([[12%Z]], [[1%Z]]) ]).
Proof.
  destruct (@calibration_sample_is_order_preserving_prefix
              sample_env sample_data) as (_ & _ & _ & Hall & Hgen).
  split.
  - apply Hall. vm_compute. lia.
  - rewrite Hgen. reflexivity.
Defined.

(** C4 fails as stated: 500 calibration texts are asked of a corpus of
    400; nothing fails, the sample is the whole corpus, and the int8
    conversion, which needs the calibration data, is in the results next
    to the others. *)
Lemma short_corpus_is_sampled_whole :
  calibration_sample_size = 500%nat /\
  List.length (train_texts short_corpus_data) = 400%nat /\
  calibration_texts_of short_corpus_data = train_texts short_corpus_data /\
  exists models,
    fst (@quantize_all_methods sample_env "models/quantized"
           (calibration_texts_of short_corpus_data) empty_world)
    = Ok models /\
    dict_keys models = ["dynamic"; "float16"; "int8"].
Proof.
  split; [reflexivity|]. split; [reflexivity|]. split; [reflexivity|].
  eexists. split; [vm_compute; reflexivity|reflexivity].
Qed.

(** ** No candidate, and the other failures of the pipeline *)

Section NoCandidate.
Context {E : Env}.

(** C5, as the code has it: with no candidate at all
    [select_best_quantization] stops with the [ValueError] of [min] on an
    empty sequence, and [quantize_model] stops with it when every
    conversion has failed and the original model could be measured.  It
    is not the only error that reaches the caller: whatever
    [evaluate_quantized_models] raises, [quantize_model] raises too. *)
Theorem no_candidate_is_a_value_error data target_size_mb w models w1 :
  quantize_all_methods "models/quantized" (calibration_texts_of data) w
  = (Ok models, w1) ->
  (forall w2,
      models = [] ->
      evaluate_quantized_models [] (py_slice_to 100 (test_texts data))
                                (py_slice_to 100 (test_labels data)) w1
      = (Ok [], w2) ->
      select_best_quantization [] target_size_mb (9 # 10)
      = Raise ValueError /\
      quantize_model data target_size_mb w = (Raise ValueError, w2)) /\
  (forall e w2,
      evaluate_quantized_models models (py_slice_to 100 (test_texts data))
                                (py_slice_to 100 (test_labels data)) w1
      = (Raise e, w2) ->
      quantize_model data target_size_mb w = (Raise e, w2)).
Proof.
  intros Hconv. split.
  - intros w2 -> Heval. split; [reflexivity|].
    unfold quantize_model. unfold bind at 1. rewrite Hconv.
    unfold bind at 1. rewrite Heval. reflexivity.
  - intros e w2 Heval.
    unfold quantize_model. unfold bind at 1. rewrite Hconv.
    unfold bind at 1. rewrite Heval. reflexivity.
Qed.
End NoCandidate.

(** C5, as the code has it, where no conversion goes through. *)
Lemma no_candidate_is_a_value_error_witness :
  exists w2,
    select_best_quantization [] 20 (9 # 10) = Raise ValueError /\
    @quantize_model failing_convert_env sample_data 20 empty_world
    = (Raise ValueError, w2).
Proof.
  eexists.
  eapply (@no_candidate_is_a_value_error failing_convert_env
                                         sample_data 20 empty_world).
  - vm_compute. reflexivity.
  - reflexivity.
  - vm_compute. reflexivity.
Defined.

(** C5 fails as stated: all three strategies convert, so there are
    candidates, and still [quantize_model] stops with an error that comes
    out of the evaluation (here: no test text). *)
Lemma evaluation_failure_propagates_too :
  exists models,
    fst (@quantize_all_methods sample_env "models/quantized"
           (calibration_texts_of no_test_data) empty_world) = Ok models /\
    dict_keys models = ["dynamic"; "float16"; "int8"] /\
    fst (@quantize_model sample_env no_test_data 20 empty_world)
    = Raise ZeroDivisionError.
Proof.
  eexists. split; [vm_compute; reflexivity|]. split; reflexivity.
Qed.

(** * Further properties of the quantizer *)

(** ** Selection under looser constraints *)

Lemma satisfies_loosen s a s' a' item :
  s <= s' -> a' <= a -> satisfies s a item -> satisfies s' a' item.
Proof.
  unfold satisfies. intros Hs Ha [H1 H2]. split.
  - now apply Qle_trans with s.
  - now apply Qle_trans with a.
Qed.

(** When some candidate complies, raising the size limit or lowering the
    retention limit never makes [select_best_quantization] answer a
    larger model. *)
Theorem select_best_quantization_loosening
        (d : dict QuantizationMetrics) (s a s' a' : Q) :
  d <> [] -> dict_wf d ->
  s <= s' -> a' <= a ->
  (exists y, In y d /\ satisfies s a y) ->
  exists m x m' x',
    select_best_quantization d s a = Ok m /\
    select_best_quantization d s' a' = Ok m' /\
    In (m, x) d /\ In (m', x') d /\
    satisfies s' a' (m', x') /\
    quantized_size_mb x' <= quantized_size_mb x.
Proof.
  intros Hne Hwf Hs Ha (y & Hy & Hsat).
  destruct (select_best_quantization_first_min_general d s a Hne Hwf)
    as (m & x & Hsel & Hvalid & _).
  destruct (select_best_quantization_first_min_general d s' a' Hne Hwf)
    as (m' & x' & Hsel' & Hvalid' & _).
  destruct (Hvalid (ex_intro _ y (conj Hy Hsat)))
    as (pre & post & Hd & Hmx & _ & _).
  destruct (Hvalid' (ex_intro _ y
              (conj Hy (satisfies_loosen s a s' a' y Hs Ha Hsat))))
    as (pre' & post' & Hd' & Hmx' & Hbefore & Hafter).
  exists m, x, m', x'. split; [exact Hsel|]. split; [exact Hsel'|].
  assert (Hin : In (m, x) d)
    by (rewrite Hd; apply in_or_app; right; now left).
  split; [exact Hin|].
  split; [rewrite Hd'; apply in_or_app; right; now left|].
  split; [exact Hmx'|].
  pose proof (satisfies_loosen s a s' a' (m, x) Hs Ha Hmx) as Hloose.
  rewrite Hd' in Hin. apply in_app_or in Hin.
  destruct Hin as [Hin|[Heq|Hin]].
  - apply Qlt_le_weak. exact (Hbefore (m, x) Hin Hloose).
  - injection Heq as _ ->. apply Qle_refl.
  - exact (Hafter (m, x) Hin Hloose).
Qed.

(** On the sample candidates: from 9 MB to 20 MB the answer stays
    dynamic. *)
Lemma select_best_quantization_loosening_witness :
  exists m x m' x',
    select_best_quantization sample_results 9 (9 # 10) = Ok m /\
    select_best_quantization sample_results 20 (9 # 10) = Ok m' /\
    In (m, x) sample_results /\ In (m', x') sample_results /\
    satisfies 20 (9 # 10) (m', x') /\
    quantized_size_mb x' <= quantized_size_mb x.
Proof.
  apply select_best_quantization_loosening.
  - discriminate.
  - repeat constructor; simpl; intuition discriminate.
  - unfold Qle; simpl; lia.
  - unfold Qle; simpl; lia.
  - exists ("dynamic", sample_metrics "dynamic" 8 (97 # 100) 20).
    split; [simpl; auto|]. split; unfold Qle; simpl; lia.
Defined.

(** ** What the report says *)

Section FirstMax.
Context {A : Type} (f : A -> Q) (key : A -> result Q).

Lemma max_loop_first_max rest :
  forall seen best,
    (forall x, In x rest -> key x = Ok (f x)) ->
    first_max f seen best ->
    exists m, max_loop key best (f best) rest = Ok m /\
              first_max f (seen ++ rest) m.
Proof.
  induction rest as [|x rest IH]; intros seen best Hkey Hmax; simpl.
  - exists best. rewrite app_nil_r. auto.
  - rewrite (Hkey x (or_introl eq_refl)). simpl.
    assert (Hrest : forall y, In y rest -> key y = Ok (f y))
      by (intros y Hy; apply Hkey; now right).
    replace (seen ++ x :: rest) with ((seen ++ [x]) ++ rest)
      by (now rewrite <- app_assoc).
    destruct Hmax as (pre & post & -> & Hpre & Hpost).
    destruct (Qltb (f best) (f x)) eqn:Hcmp.
    + apply Qltb_lt in Hcmp. apply IH; auto.
      exists (pre ++ best :: post), []. split; [reflexivity|]. split.
      * intros y Hy. apply in_app_or in Hy. destruct Hy as [Hy|[<-|Hy]].
        -- eapply Qlt_trans; [now apply Hpre|exact Hcmp].
        -- exact Hcmp.
        -- eapply Qle_lt_trans; [now apply Hpost|exact Hcmp].
      * intros y [].
    + apply Qltb_ge in Hcmp. apply IH; auto.
      exists pre, (post ++ [x]). split; [now rewrite <- app_assoc|].
      split; [exact Hpre|].
      intros y Hy. apply in_app_or in Hy. destruct Hy as [Hy|[<-|[]]]; auto.
Qed.

Lemma py_max_first_max l :
  l <> [] ->
  (forall x, In x l -> key x = Ok (f x)) ->
  exists m, py_max l key = Ok m /\ first_max f l m.
Proof.
  destruct l as [|x rest]; [congruence|]. intros _ Hkey. simpl.
  rewrite (Hkey x (or_introl eq_refl)). simpl.
  apply max_loop_first_max with (seen := [x]).
  - intros y Hy. apply Hkey. now right.
  - exists [], []. split; [reflexivity|]. split; intros y [].
Qed.
End FirstMax.

Lemma method_retention_item d item :
  dict_wf d -> In item d -> method_retention d (fst item) = item_retention item.
Proof.
  intros Hwf Hin. destruct item as [m metrics].
  unfold method_retention, item_retention.
  simpl. now rewrite (dict_get_in d m metrics Hwf Hin).
Qed.

Lemma first_max_keys d m :
  dict_wf d ->
  first_max (method_retention d) (dict_keys d) m ->
  exists metrics, first_max item_retention d (m, metrics).
Proof.
  intros Hwf (pre & post & Hsplit & Hpre & Hpost).
  unfold dict_keys in Hsplit.
  apply map_eq_app in Hsplit. destruct Hsplit as (d1 & d2 & -> & <- & H2).
  apply map_eq_cons in H2. destruct H2 as ([m' metrics] & d3 & -> & Hm & <-).
  simpl in Hm. subst m'.
  assert (Hx : method_retention (d1 ++ (m, metrics) :: d3) m
               = item_retention (m, metrics)).
  { apply (method_retention_item (d1 ++ (m, metrics) :: d3) (m, metrics) Hwf).
    apply in_or_app. right. now left. }
  exists metrics, d1, d3. split; [reflexivity|]. split.
  - intros y Hy. rewrite <- Hx.
    rewrite <- (method_retention_item (d1 ++ (m, metrics) :: d3) y Hwf).
    + apply Hpre. now apply in_map.
    + apply in_or_app. now left.
  - intros y Hy. rewrite <- Hx.
    rewrite <- (method_retention_item (d1 ++ (m, metrics) :: d3) y Hwf).
    + apply Hpost. now apply in_map.
    + apply in_or_app. right. now right.
Qed.

(** The report of a non-empty well-formed map, field by field. *)
Lemma quantization_report_fields (d : dict QuantizationMetrics) :
  d <> [] -> dict_wf d ->
  exists first bs xs ba xa detailed,
    hd_error d = Some first /\
    py_min (dict_keys d)
           (fun m => metrics <~ dict_getitem d m ;;
                     Ok (quantized_size_mb metrics)) = Ok bs /\
    first_min item_size d (bs, xs) /\
    first_max item_retention d (ba, xa) /\
    detailed = fold_left (fun acc item =>
                            dict_setitem acc (fst item)
                                         (metrics_json (snd item)))
                         d [] /\
    quantization_report d
    = Ok (JObj [ ("summary",
                  JObj [ ("original_model_size_mb",
                          JNum (original_size_mb (snd first)));
                         ("original_accuracy",
                          JNum (original_accuracy (snd first)));
                         ("quantization_methods_tested",
                          JList (map JStr (dict_keys d)));
                         ("best_method_by_size", JStr bs);
                         ("best_method_by_accuracy", JStr ba);
                         ("recommendation", JNull) ]);
                 ("detailed_results", JObj detailed);
                 ("performance_comparison", JObj []) ]).
Proof.
  intros Hne Hwf.
  destruct (fallback_first_min d Hne Hwf) as (bs & xs & Hbs & Hmin).
  destruct (py_max_first_max (method_retention d)
              (fun m => metrics <~ dict_getitem d m ;;
                        Ok (accuracy_retention metrics)) (dict_keys d))
    as (ba & Hba & Hmax).
  { destruct d; [congruence|discriminate]. }
  { intros x Hx. now apply retention_key_total. }
  destruct (first_max_keys d ba Hwf Hmax) as (xa & Hxa).
  destruct d as [|first rest] eqn:Hd; [congruence|]. rewrite <- Hd in *.
  exists first, bs, xs, ba, xa. eexists.
  split; [now rewrite Hd|]. split; [exact Hbs|]. split; [exact Hmin|].
  split; [exact Hxa|]. split; [reflexivity|].
  unfold quantization_report. rewrite Hbs, Hba.
  rewrite Hd at 1. cbn [dict_values map rbind]. unfold dict_items.
  reflexivity.
Qed.

(** The summary of the report names, for the size, the first method of
    smallest [quantized_size_mb] and, for the accuracy, the first method
    of largest [accuracy_retention]; the baseline figures are those of
    the first entry. *)
Theorem quantization_report_best_methods (d : dict QuantizationMetrics) :
  d <> [] -> dict_wf d ->
  exists report first bs xs ba xa,
    quantization_report d = Ok report /\
    hd_error d = Some first /\
    json_path2 report "summary" "best_method_by_size" = Some (JStr bs) /\
    first_min item_size d (bs, xs) /\
    json_path2 report "summary" "best_method_by_accuracy"
    = Some (JStr ba) /\
    first_max item_retention d (ba, xa) /\
    json_path2 report "summary" "original_model_size_mb"
    = Some (JNum (original_size_mb (snd first))) /\
    json_path2 report "summary" "original_accuracy"
    = Some (JNum (original_accuracy (snd first))).
Proof.
  intros Hne Hwf.
  destruct (quantization_report_fields d Hne Hwf)
    as (first & bs & xs & ba & xa & detailed
        & Hfirst & _ & Hmin & Hmax & _ & Hrep).
  eexists. exists first, bs, xs, ba, xa.
  split; [exact Hrep|]. split; [exact Hfirst|].
  split; [reflexivity|]. split; [exact Hmin|].
  split; [reflexivity|]. split; [exact Hmax|].
  split; reflexivity.
Qed.

(** On the sample candidates: int8 is the smallest and float16 retains
    most. *)
Lemma quantization_report_best_methods_witness :
  exists report first bs xs ba xa,
    quantization_report sample_results = Ok report /\
    hd_error sample_results = Some first /\
    json_path2 report "summary" "best_method_by_size" = Some (JStr bs) /\
    first_min item_size sample_results (bs, xs) /\
    json_path2 report "summary" "best_method_by_accuracy"
    = Some (JStr ba) /\
    first_max item_retention sample_results (ba, xa) /\
    json_path2 report "summary" "original_model_size_mb"
    = Some (JNum (original_size_mb (snd first))) /\
    json_path2 report "summary" "original_accuracy"
    = Some (JNum (original_accuracy (snd first))).
Proof.
  apply quantization_report_best_methods.
  - discriminate.
  - repeat constructor; simpl; intuition discriminate.
Defined.

Lemma two_splits {A} (pre1 : list A) :
  forall a post1 pre2 b post2,
    pre1 ++ a :: post1 = pre2 ++ b :: post2 ->
    a = b \/ (In a pre2 /\ In b post1) \/ (In b pre1 /\ In a post2).
Proof.
  induction pre1 as [|c pre1 IH]; intros a post1 [|c' pre2] b post2 H;
    simpl in H; injection H as Hhead Htail.
  - now left.
  - right. left. subst. split; [now left|].
    apply in_or_app. right. now left.
  - right. right. subst. split; [now left|].
    apply in_or_app. right. now left.
  - destruct (IH a post1 pre2 b post2 Htail) as [Heq|[[H1 H2]|[H1 H2]]].
    + now left.
    + right. left. split; [now right|exact H2].
    + right. right. split; [now right|exact H2].
Qed.

Lemma none_satisfies_or_some s a (d : dict QuantizationMetrics) :
  (forall y, In y d -> ~ satisfies s a y) \/
  (exists y, In y d /\ satisfies s a y).
Proof.
  destruct (filter (meets_constraints s a) d) as [|y valid] eqn:Hvalid.
  - left. intros y Hy Hsat.
    assert (Hin : In y (filter (meets_constraints s a) d)).
    { apply filter_In. split; auto. now apply meets_constraints_satisfies. }
    rewrite Hvalid in Hin. contradiction.
  - right. exists y.
    assert (Hin : In y (filter (meets_constraints s a) d))
      by (rewrite Hvalid; now left).
    apply filter_In in Hin. destruct Hin as [Hin Hm].
    split; [exact Hin|]. now apply meets_constraints_satisfies.
Qed.

(** [select_best_quantization] answers the report's
    [best_method_by_size] exactly when no candidate complies or that
    method itself complies. *)
Theorem selection_is_best_method_by_size
        (d : dict QuantizationMetrics) (s a : Q) :
  d <> [] -> dict_wf d ->
  exists report best xb,
    quantization_report d = Ok report /\
    json_path2 report "summary" "best_method_by_size" = Some (JStr best) /\
    In (best, xb) d /\
    (select_best_quantization d s a = Ok best <->
     (forall y, In y d -> ~ satisfies s a y) \/ satisfies s a (best, xb)).
Proof.
  intros Hne Hwf.
  destruct (quantization_report_fields d Hne Hwf)
    as (first & bs & xs & ba & xa & detailed
        & _ & Hbs & Hmin & _ & _ & Hrep).
  destruct (select_best_quantization_first_min_general d s a Hne Hwf)
    as (m & x & Hsel & Hvalid & Hfall).
  destruct Hmin as (pre2 & post2 & Hd2 & _ & Hpre2 & Hpost2).
  assert (Hin_bs : In (bs, xs) d)
    by (rewrite Hd2; apply in_or_app; right; now left).
  eexists. exists bs, xs. split; [exact Hrep|]. split; [reflexivity|].
  split; [exact Hin_bs|]. rewrite Hsel. split.
  - intros Heq. injection Heq as ->.
    destruct (none_satisfies_or_some s a d) as [Hnone|Hsome]; [now left|].
    right. destruct (Hvalid Hsome) as (pre & post & Hd & Hsat & _ & _).
    assert (Hin : In (bs, x) d)
      by (rewrite Hd; apply in_or_app; right; now left).
    pose proof (dict_get_in d bs x Hwf Hin) as H1.
    pose proof (dict_get_in d bs xs Hwf Hin_bs) as H2.
    rewrite H1 in H2. injection H2 as <-. exact Hsat.
  - intros [Hnone|Hsat].
    + destruct (Hfall Hnone) as (pre & post & Hd & _ & Hpre & Hpost).
      rewrite Hd in Hd2.
      destruct (two_splits pre (m, x) post pre2 (bs, xs) post2 Hd2)
        as [Heq|[[H1 H2]|[H1 H2]]].
      * now injection Heq as -> _.
      * exfalso. apply (Qlt_not_le _ _ (Hpre2 _ H1 I)). now apply Hpost.
      * exfalso. apply (Qlt_not_le _ _ (Hpre _ H1 I)). now apply Hpost2.
    + destruct (Hvalid (ex_intro _ (bs, xs) (conj Hin_bs Hsat)))
        as (pre & post & Hd & Hmx & Hpre & Hpost).
      rewrite Hd in Hd2.
      destruct (two_splits pre (m, x) post pre2 (bs, xs) post2 Hd2)
        as [Heq|[[H1 H2]|[H1 H2]]].
      * now injection Heq as -> _.
      * exfalso. apply (Qlt_not_le _ _ (Hpre2 _ H1 I)). now apply Hpost.
      * exfalso. apply (Qlt_not_le _ _ (Hpre _ H1 Hsat)). now apply Hpost2.
Qed.

(** On the sample candidates with 20 MB and 0.90: the smallest method,
    int8, does not comply, and the selection is another one. *)
Lemma selection_is_best_method_by_size_witness :
  exists report best xb,
    quantization_report sample_results = Ok report /\
    json_path2 report "summary" "best_method_by_size" = Some (JStr best) /\
    In (best, xb) sample_results /\
    (select_best_quantization sample_results 20 (9 # 10) = Ok best <->
     (forall y, In y sample_results -> ~ satisfies 20 (9 # 10) y) \/
     satisfies 20 (9 # 10) (best, xb)).
Proof.
  apply selection_is_best_method_by_size.
  - discriminate.
  - repeat constructor; simpl; intuition discriminate.
Defined.

(** ** The detailed results *)

Lemma detailed_results_map (items : dict QuantizationMetrics) :
  forall acc : dict json,
    NoDup (dict_keys acc ++ dict_keys items) ->
    fold_left (fun acc item =>
                 dict_setitem acc (fst item) (metrics_json (snd item)))
              items acc
    = acc ++ map (fun item => (fst item, metrics_json (snd item))) items.
Proof.
  induction items as [|[m metrics] items IH]; intros acc Hnodup; simpl.
  - now rewrite app_nil_r.
  - simpl in Hnodup.
    assert (Hfresh : ~ In m (dict_keys acc)).
    { intros Hin. apply NoDup_remove_2 in Hnodup. apply Hnodup.
      apply in_or_app. now left. }
    rewrite (dict_setitem_new acc m (metrics_json metrics) Hfresh).
    rewrite IH.
    + now rewrite <- app_assoc.
    + unfold dict_keys in *. rewrite map_app, <- app_assoc. exact Hnodup.
Qed.

(** Every method of the map has its six figures in the report under
    [detailed_results], and a name that is not in the map has none. *)
Theorem quantization_report_detailed_results
        (d : dict QuantizationMetrics) :
  d <> [] -> dict_wf d ->
  exists report detailed,
    quantization_report d = Ok report /\
    json_field report "detailed_results" = Some detailed /\
    (forall m metrics,
        In (m, metrics) d ->
        json_field detailed m
        = Some (JObj [ ("quantized_size_mb", JNum (quantized_size_mb metrics));
                       ("size_reduction_ratio",
                        JNum (size_reduction_ratio metrics));
                       ("quantized_accuracy",
                        JNum (quantized_accuracy metrics));
                       ("accuracy_retention",
                        JNum (accuracy_retention metrics));
                       ("inference_time_ms",
                        JNum (quantized_inference_ms metrics));
                       ("speedup_ratio", JNum (speedup_ratio metrics)) ])) /\
    (forall m, ~ In m (dict_keys d) -> json_field detailed m = None).
Proof.
  intros Hne Hwf.
  destruct (quantization_report_fields d Hne Hwf)
    as (first & bs & xs & ba & xa & detailed
        & _ & _ & _ & _ & Hdet & Hrep).
  eexists. exists (JObj detailed). split; [exact Hrep|].
  split; [reflexivity|].
  rewrite (detailed_results_map d [] Hwf) in Hdet. simpl in Hdet.
  subst detailed. cbn [json_field].
  assert (Hkeys : dict_keys (map (fun item : string * QuantizationMetrics =>
                                    (fst item, metrics_json (snd item))) d)
                  = dict_keys d).
  { unfold dict_keys. rewrite map_map. reflexivity. }
  split.
  - intros m metrics Hin.
    apply dict_get_in.
    + unfold dict_wf. now rewrite Hkeys.
    + change (m, JObj _) with
        ((fun item : string * QuantizationMetrics =>
            (fst item, metrics_json (snd item))) (m, metrics)).
      now apply in_map.
  - intros m Hnot.
    destruct (dict_get _ m) as [v|] eqn:Hget; [|reflexivity].
    exfalso. apply Hnot. rewrite <- Hkeys.
    clear - Hget. revert Hget.
    induction (map _ d) as [|[k v'] l IH]; simpl; [discriminate|].
    destruct (String.eqb_spec k m) as [->|Hne]; intros H.
    + now left.
    + right. now apply IH.
Qed.

(** On the sample candidates. *)
Lemma quantization_report_detailed_results_witness :
  exists report detailed,
    quantization_report sample_results = Ok report /\
    json_field report "detailed_results" = Some detailed /\
    (forall m metrics,
        In (m, metrics) sample_results ->
        json_field detailed m
        = Some (JObj [ ("quantized_size_mb", JNum (quantized_size_mb metrics));
                       ("size_reduction_ratio",
                        JNum (size_reduction_ratio metrics));
                       ("quantized_accuracy",
                        JNum (quantized_accuracy metrics));
                       ("accuracy_retention",
                        JNum (accuracy_retention metrics));
                       ("inference_time_ms",
                        JNum (quantized_inference_ms metrics));
                       ("speedup_ratio", JNum (speedup_ratio metrics)) ])) /\
    (forall m, ~ In m (dict_keys sample_results) ->
               json_field detailed m = None).
Proof.
  apply quantization_report_detailed_results.
  - discriminate.
  - repeat constructor; simpl; intuition discriminate.
Defined.

(** ** More on the accuracy evaluation *)

Lemma combine_firstn_length {A B} (l : list A) (l' : list B) :
  combine l (firstn (List.length l) l') = combine l l'.
Proof.
  revert l'. induction l as [|a l IH]; intros [|b l']; simpl;
    try reflexivity.
  now rewrite IH.
Qed.

Section AccuracyBounds.
Context {E : Env}.

(** Labels beyond the last text are never looked at. *)
Theorem evaluate_tflite_accuracy_ignores_surplus_labels
        path (texts : list string) (labels : list Z) w :
  _evaluate_tflite_accuracy path texts labels w
  = _evaluate_tflite_accuracy path texts
                              (firstn (List.length texts) labels) w.
Proof.
  unfold _evaluate_tflite_accuracy.
  now rewrite combine_firstn_length.
Qed.

Lemma evaluate_tflite_accuracy_ok_loaded path texts labels w acc w' :
  _evaluate_tflite_accuracy path texts labels w = (Ok acc, w') ->
  exists content,
    dict_get (files w) path = Some content /\
    is_ok (tflite_interpreter content) = true.
Proof.
  unfold _evaluate_tflite_accuracy. unfold bind at 1. unfold read_file at 1.
  destruct (dict_get (files w) path) as [content|]; [|discriminate].
  unfold bind at 1. unfold lift at 1.
  destruct (tflite_interpreter content) as [details|e] eqn:Hint;
    [|discriminate].
  intros _. exists content. split; [reflexivity|now rewrite Hint].
Qed.

(** An accuracy that [_evaluate_tflite_accuracy] returns lies between 0
    and 1, and is at most the share of texts that have a label. *)
Theorem evaluate_tflite_accuracy_in_unit_interval
        path (texts : list string) (labels : list Z) w acc w' :
  _evaluate_tflite_accuracy path texts labels w = (Ok acc, w') ->
  0 <= acc /\ acc <= 1 /\
  acc <= (Z.of_nat (Nat.min (List.length texts) (List.length labels))
          # Pos.of_nat (List.length texts)).
Proof.
  intros Hrun.
  destruct (evaluate_tflite_accuracy_ok_loaded path texts labels w acc w' Hrun)
    as (content & Hfile & Hload).
  assert (Hne : List.length texts <> 0%nat).
  { intros H0. apply length_zero_iff_nil in H0. subst texts.
    rewrite (evaluate_tflite_accuracy_loaded path content [] labels w
                                             Hfile Hload) in Hrun.
    discriminate. }
  rewrite (evaluate_tflite_accuracy_loaded path content texts labels w
                                           Hfile Hload) in Hrun.
  destruct (for_each (combine texts labels) (accuracy_step content) 0%nat w)
    as [[c|e] w1] eqn:Hloop; [|discriminate].
  apply accuracy_loop_ok in Hloop.
  destruct Hloop as (outs & Hlen & _ & _ & Hc).
  injection Hrun as Hdiv _. apply int_true_div_ok in Hdiv.
  assert (Hcount : (c <= Nat.min (List.length texts) (List.length labels))%nat).
  { rewrite Hc. simpl. unfold count_correct.
    eapply Nat.le_trans; [apply filter_length_le|].
    rewrite length_combine, Hlen, length_map, length_combine. lia. }
  subst acc. unfold Qle. cbn [Qnum Qden].
  rewrite !Z.mul_1_r.
  assert (Hpos : Z.pos (Pos.of_nat (List.length texts))
                 = Z.of_nat (List.length texts)).
  { lia. }
  split; [lia|]. split.
  - rewrite Z.mul_1_l, Hpos. lia.
  - apply Z.mul_le_mono_nonneg_r; lia.
Qed.
End AccuracyBounds.

(** On the sample environment: three texts, two labels, accuracy 2/3. *)
Lemma evaluate_tflite_accuracy_in_unit_interval_witness :
  fst (@_evaluate_tflite_accuracy sample_env "model.tflite"
         ["ab"; "abc"; "a"] [0; 1]%Z sample_world) = Ok (2 # 3) /\
  0 <= 2 # 3 /\ 2 # 3 <= 1 /\
  2 # 3 <= (Z.of_nat (Nat.min 3 2) # Pos.of_nat 3).
Proof.
  split; [reflexivity|].
  apply (@evaluate_tflite_accuracy_in_unit_interval
           sample_env "model.tflite" ["ab"; "abc"; "a"] [0; 1]%Z
           sample_world (2 # 3)
           (snd (@_evaluate_tflite_accuracy sample_env "model.tflite"
                   ["ab"; "abc"; "a"] [0; 1]%Z sample_world))).
  reflexivity.
Defined.

(** ** More on the benchmark *)

Section BenchmarkInvariants.
Context {E : Env}.

Lemma benchmark_loop_length content processed n :
  forall times w times' w',
    for_range n (benchmark_run content processed) times w = (Ok times', w') ->
    List.length times' = (List.length times + n)%nat.
Proof.
  induction n as [|n IH]; intros times w times' w' Hrun;
    cbn [for_range] in Hrun.
  - unfold ret in Hrun. injection Hrun as <- _. lia.
  - unfold bind in Hrun at 1.
    destruct (benchmark_run content processed times w) as [[t1|e] w1] eqn:Hstep;
      [|discriminate].
    apply IH in Hrun. rewrite Hrun.
    unfold benchmark_run, bind, now, invoke, ret in Hstep.
    destruct (tflite_invoke _ _ _ _) as [out|e]; [|discriminate].
    injection Hstep as <- _. rewrite length_app. simpl. lia.
Qed.

(** X7.  A benchmark that returns has made at least one run; it answers
    with the five statistics under their names, in the order of the
    code, and the minimum it reports is at most the maximum.  With zero
    runs a model that loads gives [ValueError] (the minimum of no
    times), and nothing was asked of the clock or the interpreter. *)
Theorem benchmark_tflite_model_consistent
        path (test_texts : list string) (num_runs : nat) w :
  (forall d w',
      benchmark_tflite_model path test_texts num_runs w = (Ok d, w') ->
      (0 < num_runs)%nat /\
      dict_keys d = [ "avg_inference_time_ms"; "min_inference_time_ms";
                      "max_inference_time_ms"; "std_inference_time_ms";
                      "total_benchmark_time_s" ] /\
      exists mn mx,
        dict_get d "min_inference_time_ms" = Some mn /\
        dict_get d "max_inference_time_ms" = Some mx /\
        mn <= mx) /\
  (forall content,
      num_runs = 0%nat ->
      dict_get (files w) path = Some content ->
      is_ok (tflite_interpreter content) = true ->
      benchmark_tflite_model path test_texts num_runs w
      = (Raise ValueError, w)).
Proof.
  split.
  - intros d w'. unfold benchmark_tflite_model.
    unfold bind at 1. unfold read_file at 1.
    destruct (dict_get (files w) path) as [content|]; [|discriminate].
    unfold bind at 1. unfold lift at 1.
    destruct (tflite_interpreter content) as [details|e]; [|discriminate].
    unfold bind at 1.
    destruct (for_range num_runs _ [] w) as [[times|e] w1] eqn:Hloop;
      [|discriminate].
    apply benchmark_loop_length in Hloop. simpl in Hloop.
    unfold bind, lift, ret.
    destruct (np_min times) as [mn|e] eqn:Hmn; [|discriminate].
    destruct (np_max times) as [mx|e] eqn:Hmx; [|discriminate].
    intros H. injection H as <- _.
    assert (Hne : times <> []) by (intros ->; discriminate).
    destruct (np_min_spec times Hne) as (mn' & Hmn' & Hin & Hlow).
    destruct (np_max_spec times Hne) as (mx' & Hmx' & _ & Hhigh).
    rewrite Hmn in Hmn'. injection Hmn' as <-.
    rewrite Hmx in Hmx'. injection Hmx' as <-.
    split; [destruct times; [congruence|simpl in Hloop; lia]|].
    split; [reflexivity|].
    exists mn, mx. split; [reflexivity|]. split; [reflexivity|].
    apply Hhigh. exact Hin.
  - intros content -> Hfile Hload.
    destruct (tflite_interpreter content) as [details|e] eqn:Hint;
      [|discriminate].
    unfold benchmark_tflite_model, bind, read_file, lift.
    rewrite Hfile, Hint. reflexivity.
Qed.
End BenchmarkInvariants.

(** On the sample environment, three runs. *)
Lemma benchmark_tflite_model_consistent_witness :
  exists d w' mn mx,
    @benchmark_tflite_model sample_env "model.tflite" ["ab"] 3 sample_world
    = (Ok d, w') /\
    dict_get d "min_inference_time_ms" = Some mn /\
    dict_get d "max_inference_time_ms" = Some mx /\
    mn <= mx.
Proof.
  destruct (@benchmark_tflite_model sample_env "model.tflite" ["ab"] 3
                                    sample_world) as [[d|e] w'] eqn:Hrun.
  - destruct (@benchmark_tflite_model_consistent
                sample_env "model.tflite" ["ab"] 3%nat sample_world)
      as (Hok & _).
    destruct (Hok d w' Hrun) as (_ & _ & mn & mx & H).
    exists d, w', mn, mx. split; [reflexivity|exact H].
  - vm_compute in Hrun. discriminate.
Defined.

(** ** The representative dataset, for any batch size *)

Lemma range_loop_below fuel :
  forall i stop step j,
    In j (range_loop fuel i stop step) -> (j < stop)%nat.
Proof.
  induction fuel as [|fuel IH]; intros i stop step j; simpl; [intros []|].
  destruct (Nat.ltb_spec i stop) as [Hlt|Hge]; [|intros []].
  intros [<-|Hin]; [exact Hlt|]. now apply IH in Hin.
Qed.

Lemma slices_cover {A} (l : list A) step fuel :
  (0 < step)%nat ->
  forall i,
    (List.length l - i <= fuel)%nat ->
    List.concat (map (fun j => py_slice j (Nat.min (j + step) (List.length l)) l)
                (range_loop fuel i (List.length l) step))
    = skipn i l.
Proof.
  intros Hstep. induction fuel as [|fuel IH]; intros i Hfuel; simpl.
  - symmetry. apply skipn_all2. lia.
  - destruct (Nat.ltb_spec i (List.length l)) as [Hlt|Hge].
    + cbn [map List.concat]. rewrite IH by lia.
      unfold py_slice.
      replace (skipn (i + step) l) with (skipn step (skipn i l))
        by (rewrite skipn_skipn; f_equal; lia).
      destruct (Nat.le_gt_cases (i + step) (List.length l)) as [Hfit|Hover].
      * replace (Nat.min (i + step) (List.length l) - i)%nat with step by lia.
        apply firstn_skipn.
      * replace (Nat.min (i + step) (List.length l) - i)%nat
          with (List.length (skipn i l)) by (rewrite length_skipn; lia).
        rewrite firstn_all.
        rewrite (skipn_all2 (n := step) (skipn i l))
          by (rewrite length_skipn; lia).
        apply app_nil_r.
    + symmetry. apply skipn_all2. lia.
Qed.

Section RepresentativeDataset.
Context {E : Env}.

(** With a positive batch size the generator of
    [create_representative_dataset] yields batches of at least one and at
    most [batch_size] rows, ids and masks of equal length, and the
    batches put end to end are the token ids and the attention masks of
    all the texts, in order.  With batch size 0 it fails with
    [ValueError]. *)
Theorem create_representative_dataset_covers_all_texts
        (texts : list string) (batch_size : nat) :
  (batch_size = 0%nat ->
   create_representative_dataset texts batch_size = Raise ValueError) /\
  ((0 < batch_size)%nat ->
   exists batches,
     create_representative_dataset texts batch_size = Ok batches /\
     List.concat (map fst batches) = input_ids (preprocess_data texts) /\
     List.concat (map snd batches) = attention_mask (preprocess_data texts) /\
     forall ids mask,
       In (ids, mask) batches ->
       (0 < List.length ids <= batch_size)%nat /\
       List.length mask = List.length ids).
Proof.
  split.
  - intros ->. reflexivity.
  - intros Hpos. unfold create_representative_dataset, py_range.
    destruct (Nat.eqb_spec batch_size 0) as [->|_]; [lia|].
    cbn [rbind]. eexists. split; [reflexivity|].
    unfold preprocess_data. cbn [input_ids attention_mask].
    split; [|split].
    + rewrite map_map. cbn [fst].
      rewrite <- (length_map (fun t => fst (tokenizer t)) texts).
      apply (slices_cover (map (fun t => fst (tokenizer t)) texts)
                          batch_size _ Hpos 0%nat). lia.
    + rewrite map_map. cbn [snd].
      rewrite <- (length_map (fun t => snd (tokenizer t)) texts).
      apply (slices_cover (map (fun t => snd (tokenizer t)) texts)
                          batch_size _ Hpos 0%nat). lia.
    + intros ids mask Hin. apply in_map_iff in Hin.
      destruct Hin as (j & Heq & Hj). apply range_loop_below in Hj.
      injection Heq as <- <-. unfold py_slice.
      rewrite !length_firstn, !length_skipn, !length_map. lia.
Qed.
End RepresentativeDataset.

(** Three texts in batches of two: one batch of two rows and one of one. *)
Lemma create_representative_dataset_covers_all_texts_witness :
  exists batches,
    @create_representative_dataset sample_env ["ab"; "abc"; "a"] 2
    = Ok batches /\
    List.length batches = 2%nat /\
    List.concat (map fst batches) = [[2]; [3]; [1]]%Z.
Proof.
  destruct (@create_representative_dataset_covers_all_texts
              sample_env ["ab"; "abc"; "a"] 2%nat) as (_ & Hcover).
  destruct (Hcover ltac:(lia)) as (batches & Hrun & Hids & _).
  exists batches. split; [exact Hrun|]. split; [|exact Hids].
  vm_compute in Hrun. injection Hrun as <-. reflexivity.
Defined.

(** ** Single conversions *)

Lemma dict_get_setitem_other {V} (d : dict V) k k' v :
  k' <> k -> dict_get (dict_setitem d k v) k' = dict_get d k'.
Proof.
  intros Hne. induction d as [|[k0 v0] d IH]; simpl.
  - destruct (String.eqb_spec k k'); [congruence|reflexivity].
  - destruct (String.eqb_spec k0 k) as [->|Hk]; simpl.
    + destruct (String.eqb_spec k k'); [congruence|reflexivity].
    + destruct (String.eqb_spec k0 k'); [reflexivity|exact IH].
Qed.

Section SingleConversions.
Context {E : Env}.

Lemma get_tflite_model_info_ok path content qtype t info :
  _get_tflite_model_info path content qtype t = Ok info ->
  model_path info = path /\
  size_mb info = (Z.of_nat (List.length content) # 1048576) /\
  quantization_type info = qtype /\
  inference_time_ms info = 0 /\
  accuracy info = 0.
Proof.
  unfold _get_tflite_model_info.
  destruct (tflite_interpreter content) as [details|e]; [|discriminate].
  cbn [rbind].
  destruct (py_index (input_details details) 0); [|discriminate].
  destruct (py_index (output_details details) 0); [|discriminate].
  cbn [rbind]. intros H. injection H as <-. cbn. auto.
Qed.

(** [quantize_dynamic], [quantize_float16] and [quantize_int8] with
    [use_fallback=True] each ask for exactly one conversion.  If it
    fails, its error is raised and no file is written or changed (there
    is no second attempt, also not for int8); if it succeeds, the model
    is written to [output_path] before it is described, so the file is
    there even when describing it fails. *)
Theorem quantize_once_writes_after_conversion
        (output_path : string) (calibration_texts : list string) w :
  single_attempt (quantize_dynamic output_path)
                 dynamic_converter output_path "dynamic" w /\
  single_attempt (quantize_float16 output_path)
                 float16_converter output_path "float16" w /\
  single_attempt (quantize_int8 output_path calibration_texts true)
                 (int8_converter calibration_texts true)
                 output_path "int8_fallback" w.
Proof.
  split; [|split].
  - unfold single_attempt, quantize_dynamic.
    unfold bind, now, convert, lift, ret, write_file, record_event.
    cbn [trace files].
    destruct (tflite_convert _ dynamic_converter) as [model|e] eqn:Hconv.
    + eexists. eexists. eexists. eexists. split; [reflexivity|].
      cbn [trace files]. rewrite <- !app_assoc.
      split; [reflexivity|].
      split; [reflexivity|]. split; [discriminate|].
      intros model' Hm. injection Hm as <-. split; [reflexivity|].
      eexists. reflexivity.
    + eexists. eexists. eexists. eexists. split; [reflexivity|].
      cbn [trace files]. rewrite <- !app_assoc.
      split; [reflexivity|].
      split; [reflexivity|]. split; [|discriminate].
      intros e' He. injection He as <-. split; reflexivity.
  - unfold single_attempt, quantize_float16.
    unfold bind, now, convert, lift, ret, write_file, record_event.
    cbn [trace files].
    destruct (tflite_convert _ float16_converter) as [model|e] eqn:Hconv.
    + eexists. eexists. eexists. eexists. split; [reflexivity|].
      cbn [trace files]. rewrite <- !app_assoc.
      split; [reflexivity|].
      split; [reflexivity|]. split; [discriminate|].
      intros model' Hm. injection Hm as <-. split; [reflexivity|].
      eexists. reflexivity.
    + eexists. eexists. eexists. eexists. split; [reflexivity|].
      cbn [trace files]. rewrite <- !app_assoc.
      split; [reflexivity|].
      split; [reflexivity|]. split; [|discriminate].
      intros e' He. injection He as <-. split; reflexivity.
  - unfold single_attempt, quantize_int8. cbn [quantize_int8_rec].
    unfold bind, try_except, now, convert, lift, ret, write_file,
      record_event.
    cbn [trace files negb].
    destruct (tflite_convert _ (int8_converter calibration_texts true))
      as [model|e] eqn:Hconv.
    + cbn [trace files].
      destruct (_get_tflite_model_info output_path model "int8_fallback" _)
        as [info|e3] eqn:Hinfo.
      * eexists. eexists. eexists. eexists. split; [reflexivity|].
        cbn [trace files]. rewrite <- !app_assoc.
        split; [reflexivity|].
        split; [reflexivity|]. split; [discriminate|].
        intros model' Hm. injection Hm as <-. split; [reflexivity|].
        eexists. symmetry. exact Hinfo.
      * eexists. eexists. eexists. eexists. split; [reflexivity|].
        cbn [trace files]. rewrite <- !app_assoc.
        split; [reflexivity|].
        split; [reflexivity|]. split; [discriminate|].
        intros model' Hm. injection Hm as <-. split; [reflexivity|].
        eexists. symmetry. exact Hinfo.
    + eexists. eexists. eexists. eexists. split; [reflexivity|].
      cbn [trace files]. rewrite <- !app_assoc.
      split; [reflexivity|].
      split; [reflexivity|]. split; [|discriminate].
      intros e' He. injection He as <-. split; reflexivity.
Qed.
End SingleConversions.

(** ** What [quantize_all_methods] leaves behind *)

Lemma string_app_inj (s a b : string) :
  (s ++ a)%string = (s ++ b)%string -> a = b.
Proof.
  induction s as [|c s IH]; simpl; intros H; [exact H|].
  injection H as H. now apply IH.
Qed.

Lemma string_app_assoc (a b c : string) :
  ((a ++ b) ++ c)%string = (a ++ b ++ c)%string.
Proof. induction a as [|x a IH]; simpl; [reflexivity|now rewrite IH]. Qed.

Lemma string_concat_snoc (names : list string) (name : string) :
  String.concat "/" (names ++ [name])
  = (match names with
     | [] => ""
     | _ => String.concat "/" names ++ "/"
     end ++ name)%string.
Proof.
  induction names as [|x names IH]; [reflexivity|].
  destruct names as [|y names].
  - cbn. now rewrite string_app_assoc.
  - change (String.concat "/" ((x :: y :: names) ++ [name]))
      with (x ++ "/" ++ String.concat "/" ((y :: names) ++ [name]))%string.
    rewrite IH.
    change (String.concat "/" (x :: y :: names))
      with (x ++ "/" ++ String.concat "/" (y :: names))%string.
    now rewrite !string_app_assoc.
Qed.

(** A plain file name is put behind the directory. *)
Lemma path_join_name dir name :
  Path name = {| path_root := ""; path_names := [name] |} ->
  name <> "" ->
  path_join dir name = (path_dir_prefix dir ++ name)%string.
Proof.
  intros Hname Hne. unfold path_join, path_div, path_str, path_dir_prefix.
  rewrite Hname. cbn [path_root path_names String.eqb].
  rewrite string_concat_snoc, <- string_app_assoc.
  assert (Hnonempty : forall prefix : string,
             match (prefix ++ name)%string with
             | EmptyString => "."
             | s => s
             end = (prefix ++ name)%string).
  { intros prefix. destruct (prefix ++ name)%string eqn:Happ; [|reflexivity].
    exfalso. apply Hne. destruct prefix; [exact Happ|discriminate]. }
  destruct (path_names (Path dir)); apply Hnonempty.
Qed.

Lemma path_join_inj dir a b :
  Path a = {| path_root := ""; path_names := [a] |} -> a <> "" ->
  Path b = {| path_root := ""; path_names := [b] |} -> b <> "" ->
  path_join dir a = path_join dir b -> a = b.
Proof.
  intros Ha Hane Hb Hbne.
  rewrite (path_join_name dir a Ha Hane), (path_join_name dir b Hb Hbne).
  apply string_app_inj.
Qed.

Section ConversionResults.
Context {E : Env}.

Lemma single_attempt_frame run converter path qtype w res w' :
  single_attempt run converter path qtype w ->
  run w = (res, w') ->
  forall p, p <> path -> dict_get (files w') p = dict_get (files w) p.
Proof.
  intros (res0 & w0 & evs & r & Hrun & _ & _ & Hfail & Hok) Hrun' p Hp.
  rewrite Hrun in Hrun'. injection Hrun' as -> ->.
  destruct r as [model|e].
  - destruct (Hok model eq_refl) as (Hfiles & _). rewrite Hfiles.
    now apply dict_get_setitem_other.
  - destruct (Hfail e eq_refl) as (_ & Hfiles). now rewrite Hfiles.
Qed.

Lemma single_attempt_entry run converter path qtype w info w' :
  single_attempt run converter path qtype w ->
  run w = (Ok info, w') ->
  exists model,
    dict_get (files w') path = Some model /\
    model_path info = path /\
    size_mb info = (Z.of_nat (List.length model) # 1048576) /\
    quantization_type info = qtype.
Proof.
  intros (res0 & w0 & evs & r & Hrun & _ & _ & Hfail & Hok) Hrun'.
  rewrite Hrun in Hrun'. injection Hrun' as -> ->.
  destruct r as [model|e].
  - destruct (Hok model eq_refl) as (Hfiles & t & Hres).
    symmetry in Hres. apply get_tflite_model_info_ok in Hres.
    destruct Hres as (Hp & Hs & Hq & _). exists model.
    rewrite Hfiles. split; [apply dict_get_setitem_same|]. auto.
  - destruct (Hfail e eq_refl) as (Hres & _). discriminate.
Qed.

Lemma single_attempt_events run converter path qtype w res w' :
  single_attempt run converter path qtype w ->
  run w = (res, w') ->
  exists evs r,
    trace w' = trace w ++ evs /\
    convert_events evs = [EvConvert converter r].
Proof.
  intros (res0 & w0 & evs & r & Hrun & Htr & Hconv & _) Hrun'.
  rewrite Hrun in Hrun'. injection Hrun' as -> ->.
  exists evs, r. auto.
Qed.

(** The outcome of [quantize_all_methods], in full. *)
Lemma quantize_all_methods_outcome
        (output_dir : string) (calibration_texts : list string) w :
  exists models w' evs r1 r2 r3,
    quantize_all_methods output_dir calibration_texts w = (Ok models, w') /\
    trace w' = trace w ++ evs /\
    convert_events evs
    = [ EvConvert dynamic_converter r1;
        EvConvert float16_converter r2;
        EvConvert (int8_converter calibration_texts true) r3 ] /\
    forall m info,
      In (m, info) models ->
      model_path info = path_join output_dir (model_file_name m) /\
      quantization_type info = entry_quantization_type m /\
      exists content,
        dict_get (files w') (model_path info) = Some content /\
        size_mb info = (Z.of_nat (List.length content) # 1048576).
Proof.
  pose proof (quantize_all_methods_kept output_dir calibration_texts w)
    as Hkept. cbv zeta in Hkept.
  set (p1 := path_join output_dir "mobile_classifier_dynamic.tflite") in *.
  set (p2 := path_join output_dir "mobile_classifier_float16.tflite") in *.
  set (p3 := path_join output_dir "mobile_classifier_int8.tflite") in *.
  destruct (quantize_once_writes_after_conversion p1 calibration_texts w)
    as (A1 & _ & _).
  destruct (quantize_dynamic p1 w) as [res1 w1] eqn:H1.
  cbn [fst snd] in Hkept.
  destruct (quantize_once_writes_after_conversion p2 calibration_texts w1)
    as (_ & A2 & _).
  destruct (quantize_float16 p2 w1) as [res2 w2] eqn:H2.
  cbn [fst snd] in Hkept.
  destruct (quantize_once_writes_after_conversion p3 calibration_texts w2)
    as (_ & _ & A3).
  destruct (quantize_int8 p3 calibration_texts true w2) as [res3 w3] eqn:H3.
  cbn [fst snd] in Hkept.
  destruct (single_attempt_events _ _ _ _ _ _ _ A1 H1)
    as (evs1 & r1 & Htr1 & Hc1).
  destruct (single_attempt_events _ _ _ _ _ _ _ A2 H2)
    as (evs2 & r2 & Htr2 & Hc2).
  destruct (single_attempt_events _ _ _ _ _ _ _ A3 H3)
    as (evs3 & r3 & Htr3 & Hc3).
  assert (H12 : p1 <> p2)
    by (intros H; apply path_join_inj in H;
        [discriminate|reflexivity|discriminate|reflexivity|discriminate]).
  assert (H13 : p1 <> p3)
    by (intros H; apply path_join_inj in H;
        [discriminate|reflexivity|discriminate|reflexivity|discriminate]).
  assert (H23 : p2 <> p3)
    by (intros H; apply path_join_inj in H;
        [discriminate|reflexivity|discriminate|reflexivity|discriminate]).
  eexists. exists w3, (evs1 ++ evs2 ++ evs3), r1, r2, r3.
  split; [exact Hkept|]. split.
  { rewrite Htr3, Htr2, Htr1, <- !app_assoc. reflexivity. }
  split.
  { unfold convert_events in *. rewrite !filter_app, Hc1, Hc2, Hc3.
    reflexivity. }
  intros m info Hin.
  apply in_app_or in Hin. destruct Hin as [Hin|Hin];
    [|apply in_app_or in Hin; destruct Hin as [Hin|Hin]].
  - destruct res1 as [i1|e1]; [|contradiction].
    destruct Hin as [Heq|[]]. injection Heq as <- <-.
    destruct (single_attempt_entry _ _ _ _ _ _ _ A1 H1)
      as (model & Hfile & Hp & Hs & Hq).
    split; [exact Hp|]. split; [exact Hq|]. exists model. rewrite Hp.
    split; [|exact Hs].
    rewrite (single_attempt_frame _ _ _ _ _ _ _ A3 H3 p1 H13).
    rewrite (single_attempt_frame _ _ _ _ _ _ _ A2 H2 p1 H12).
    exact Hfile.
  - destruct res2 as [i2|e2]; [|contradiction].
    destruct Hin as [Heq|[]]. injection Heq as <- <-.
    destruct (single_attempt_entry _ _ _ _ _ _ _ A2 H2)
      as (model & Hfile & Hp & Hs & Hq).
    split; [exact Hp|]. split; [exact Hq|]. exists model. rewrite Hp.
    split; [|exact Hs].
    rewrite (single_attempt_frame _ _ _ _ _ _ _ A3 H3 p2 H23).
    exact Hfile.
  - destruct res3 as [i3|e3]; [|contradiction].
    destruct Hin as [Heq|[]]. injection Heq as <- <-.
    destruct (single_attempt_entry _ _ _ _ _ _ _ A3 H3)
      as (model & Hfile & Hp & Hs & Hq).
    split; [exact Hp|]. split; [exact Hq|]. exists model. rewrite Hp.
    split; [exact Hfile|exact Hs].
Qed.
(** [quantize_all_methods] asks for exactly three conversions: dynamic
    range, float16 and int8 with float fallback, in this order and
    whatever fails; the converter that forces int8 inputs and outputs is
    never used.  Every entry of its result has its model file in the
    store, under [mobile_classifier_<method>.tflite] in the output
    directory, and [size_mb] is the length of that file in bytes over
    2^20; the entry named int8 is labelled int8_fallback. *)
Theorem quantize_all_methods_conversions_and_files
        (output_dir : string) (calibration_texts : list string) w :
  exists models w' evs r1 r2 r3,
    quantize_all_methods output_dir calibration_texts w = (Ok models, w') /\
    trace w' = trace w ++ evs /\
    convert_events evs
    = [ EvConvert dynamic_converter r1;
        EvConvert float16_converter r2;
        EvConvert (int8_converter calibration_texts true) r3 ] /\
    forall m info,
      In (m, info) models ->
      model_path info = path_join output_dir (model_file_name m) /\
      quantization_type info = entry_quantization_type m /\
      exists content,
        dict_get (files w') (model_path info) = Some content /\
        size_mb info = (Z.of_nat (List.length content) # 1048576).
Proof.
  exact (quantize_all_methods_outcome output_dir calibration_texts w).
Qed.
End ConversionResults.

(** ** The evaluation reads files and writes none *)

Lemma keeps_files_ret {A} (a : A) : keeps_files (ret a).
Proof. intros w. reflexivity. Qed.

Lemma keeps_files_lift {A} (r : result A) : keeps_files (lift r).
Proof. intros w. reflexivity. Qed.

Lemma keeps_files_bind {A B} (c : M A) (k : A -> M B) :
  keeps_files c -> (forall a, keeps_files (k a)) -> keeps_files (bind c k).
Proof.
  intros Hc Hk w. unfold bind. specialize (Hc w).
  destruct (c w) as [[a|e] w1]; cbn [snd] in *.
  - now rewrite Hk.
  - exact Hc.
Qed.

Lemma keeps_files_read_file path : keeps_files (read_file path).
Proof.
  intros w. unfold read_file. now destruct (dict_get (files w) path).
Qed.

Lemma keeps_files_for_each {A S} (body : A -> S -> M S) (l : list A) :
  (forall x s, keeps_files (body x s)) ->
  forall s, keeps_files (for_each l body s).
Proof.
  intros Hbody. induction l as [|x l IH]; intros s; cbn [for_each].
  - apply keeps_files_ret.
  - apply keeps_files_bind; [apply Hbody|exact IH].
Qed.

Lemma keeps_files_for_range {S} (body : S -> M S) (n : nat) :
  (forall s, keeps_files (body s)) ->
  forall s, keeps_files (for_range n body s).
Proof.
  intros Hbody. induction n as [|n IH]; intros s; cbn [for_range].
  - apply keeps_files_ret.
  - apply keeps_files_bind; [apply Hbody|exact IH].
Qed.

Section ReadOnlyEvaluation.
Context {E : Env}.

Lemma keeps_files_now : keeps_files now.
Proof. intros w. reflexivity. Qed.

Lemma keeps_files_invoke content ids mask :
  keeps_files (invoke content ids mask).
Proof. intros w. reflexivity. Qed.

Lemma keeps_files_benchmark path texts n :
  keeps_files (benchmark_tflite_model path texts n).
Proof.
  unfold benchmark_tflite_model.
  apply keeps_files_bind; [apply keeps_files_read_file|intros content].
  apply keeps_files_bind; [apply keeps_files_lift|intros _].
  apply keeps_files_bind.
  - apply keeps_files_for_range. intros times. unfold benchmark_run.
    apply keeps_files_bind; [apply keeps_files_now|intros t0].
    apply keeps_files_bind; [apply keeps_files_invoke|intros _].
    apply keeps_files_bind; [apply keeps_files_now|intros t1].
    apply keeps_files_ret.
  - intros times.
    apply keeps_files_bind; [apply keeps_files_lift|intros mn].
    apply keeps_files_bind; [apply keeps_files_lift|intros mx].
    apply keeps_files_ret.
Qed.

Lemma keeps_files_accuracy path texts labels :
  keeps_files (_evaluate_tflite_accuracy path texts labels).
Proof.
  unfold _evaluate_tflite_accuracy.
  apply keeps_files_bind; [apply keeps_files_read_file|intros content].
  apply keeps_files_bind; [apply keeps_files_lift|intros _].
  apply keeps_files_bind; [|intros c; apply keeps_files_lift].
  apply keeps_files_for_each. intros [text label] c. unfold accuracy_step.
  apply keeps_files_bind; [apply keeps_files_invoke|intros out].
  apply keeps_files_bind; [apply keeps_files_lift|intros scores].
  apply keeps_files_bind; [apply keeps_files_lift|intros p].
  apply keeps_files_ret.
Qed.

Lemma keeps_files_evaluate_one b_size b_acc b_lat texts labels item ev :
  keeps_files (evaluate_one b_size b_acc b_lat texts labels item ev).
Proof.
  destruct item as [m info]. unfold evaluate_one.
  apply keeps_files_bind; [apply keeps_files_benchmark|intros d].
  apply keeps_files_bind; [apply keeps_files_accuracy|intros qa].
  apply keeps_files_bind; [apply keeps_files_lift|intros sr].
  apply keeps_files_bind; [apply keeps_files_lift|intros ar].
  apply keeps_files_bind; [apply keeps_files_lift|intros avg].
  apply keeps_files_bind; [apply keeps_files_lift|intros sp].
  apply keeps_files_ret.
Qed.

Lemma dict_delete_idem {V} (d : dict V) k :
  dict_delete (dict_delete d k) k = dict_delete d k.
Proof.
  induction d as [|[k' v] d IH]; [reflexivity|]. cbn [dict_delete].
  destruct (String.eqb k' k) eqn:Hk; [exact IH|].
  cbn [dict_delete]. rewrite Hk. now rewrite IH.
Qed.

Lemma dict_get_delete_same {V} (d : dict V) k :
  dict_get (dict_delete d k) k = None.
Proof.
  induction d as [|[k' v] d IH]; [reflexivity|]. cbn [dict_delete].
  destruct (String.eqb k' k) eqn:Hk; [exact IH|].
  cbn [dict_get]. now rewrite Hk.
Qed.

Lemma dict_get_delete_other {V} (d : dict V) k k' :
  k' <> k -> dict_get (dict_delete d k) k' = dict_get d k'.
Proof.
  intros Hne. induction d as [|[k0 v] d IH]; [reflexivity|].
  cbn [dict_delete dict_get].
  destruct (String.eqb_spec k0 k) as [->|Hk].
  - destruct (String.eqb_spec k k'); [congruence|exact IH].
  - cbn [dict_get]. now rewrite IH.
Qed.

(** The body of the evaluation loop reads the file of its model. *)
Lemma evaluate_one_reads b_size b_acc b_lat texts labels m info ev w ev' w' :
  evaluate_one b_size b_acc b_lat texts labels (m, info) ev w = (Ok ev', w') ->
  exists content, dict_get (files w) (model_path info) = Some content.
Proof.
  unfold evaluate_one. unfold bind at 1. unfold benchmark_tflite_model.
  unfold bind at 1. unfold read_file at 1.
  destruct (dict_get (files w) (model_path info)) as [content|];
    [eauto|discriminate].
Qed.

Lemma evaluate_loop_reads b_size b_acc b_lat texts labels models :
  forall ev w ev' w',
    for_each models (evaluate_one b_size b_acc b_lat texts labels) ev w
    = (Ok ev', w') ->
    files w' = files w /\
    forall m info,
      In (m, info) models ->
      exists content, dict_get (files w) (model_path info) = Some content.
Proof.
  induction models as [|[m info] models IH]; intros ev w ev' w' Hrun;
    cbn [for_each] in Hrun.
  - unfold ret in Hrun. injection Hrun as _ <-.
    split; [reflexivity|intros m info []].
  - unfold bind in Hrun at 1.
    pose proof (keeps_files_evaluate_one b_size b_acc b_lat texts labels
                  (m, info) ev w) as Hkeep.
    destruct (evaluate_one _ _ _ _ _ (m, info) ev w) as [[ev1|e] w1] eqn:Hone;
      [|discriminate].
    cbn [snd] in Hkeep.
    apply evaluate_one_reads in Hone.
    apply IH in Hrun. destruct Hrun as (Hfiles & Hread).
    split; [congruence|].
    intros m' info' [Heq|Hin].
    + injection Heq as <- <-. exact Hone.
    + rewrite <- Hkeep. exact (Hread m' info' Hin).
Qed.

(** What a run of [evaluate_quantized_models] that returns has done to
    the files, and what it has read. *)
Lemma evaluate_quantized_models_files models texts labels w ev w' :
  evaluate_quantized_models models texts labels w = (Ok ev, w') ->
  files w' = dict_delete (files w) temp_model_path /\
  forall m info,
    In (m, info) models ->
    model_path info <> temp_model_path /\
    exists content,
      dict_get (files w) (model_path info) = Some content /\
      dict_get (files w') (model_path info) = Some content.
Proof.
  rewrite evaluate_quantized_models_unfold.
  destruct (classifier_calculate_model_size (trace w)) as [b_size|e];
    [|discriminate].
  cbv zeta.
  destruct (classifier_evaluate_model _ texts labels) as [b|e];
    [|discriminate].
  intros Hloop. apply evaluate_loop_reads in Hloop.
  destruct Hloop as (Hfiles & Hread).
  unfold record_event, unlink in Hfiles, Hread. cbn [files] in Hfiles, Hread.
  rewrite dict_delete_idem in Hfiles, Hread.
  split; [exact Hfiles|].
  intros m info Hin. destruct (Hread m info Hin) as (content & Hget).
  assert (Hne : model_path info <> temp_model_path).
  { intros Heq. rewrite Heq, dict_get_delete_same in Hget. discriminate. }
  split; [exact Hne|]. exists content.
  rewrite Hfiles. split; [|exact Hget].
  now rewrite dict_get_delete_other in Hget.
Qed.

Lemma evaluate_quantized_models_entries_run models texts labels w ev w' :
  dict_wf models ->
  evaluate_quantized_models models texts labels w = (Ok ev, w') ->
  Forall2 entry_of_model models ev.
Proof.
  intros Hwf Hrun.
  destruct (evaluate_quantized_models_run models texts labels w ev w' Hrun)
    as (b_size & b_acc & b_lat & evs & _ & _ & _ & _ & _ & Hall).
  eapply Forall2_impl; [|exact (Hall Hwf)].
  intros model entry (Hk & Hm & Hs & _). unfold entry_of_model. auto.
Qed.

(** X11.  A run of [evaluate_quantized_models] that returns gives one
    entry per model, in the order of the models: same key, the key again
    as [quantization_method], and the [size_mb] of the model as
    [quantized_size_mb].  It has read the file of every model, and these
    files are as they were.  The one file it has touched is temp_model.h5
    in the working directory, to which the original model is saved for
    its size: that file is gone afterwards, whatever it held before, so
    that no model can be evaluated from it. *)
Theorem evaluate_quantized_models_entries models texts labels w ev w' :
  dict_wf models ->
  evaluate_quantized_models models texts labels w = (Ok ev, w') ->
  Forall2 entry_of_model models ev /\
  files w' = dict_delete (files w) temp_model_path /\
  dict_get (files w') temp_model_path = None /\
  (forall path, path <> temp_model_path ->
                dict_get (files w') path = dict_get (files w) path) /\
  forall m info,
    In (m, info) models ->
    model_path info <> temp_model_path /\
    exists content,
      dict_get (files w) (model_path info) = Some content /\
      dict_get (files w') (model_path info) = Some content.
Proof.
  intros Hwf Hrun.
  destruct (evaluate_quantized_models_files models texts labels w ev w' Hrun)
    as (Hfiles & Hread).
  split.
  { exact (evaluate_quantized_models_entries_run models texts labels w ev w'
                                                  Hwf Hrun). }
  split; [exact Hfiles|]. rewrite Hfiles.
  split; [apply dict_get_delete_same|].
  split; [intros path Hne; now apply dict_get_delete_other|].
  rewrite <- Hfiles. exact Hread.
Qed.

End ReadOnlyEvaluation.

(** On the sample environment and the three converted models, with a
    file temp_model.h5 lying around. *)
Lemma evaluate_quantized_models_entries_witness :
  exists ev w',
    let w := {| files := (temp_model_path, [Byte.x00])
                         :: files sample_models_world;
                trace := trace sample_models_world |} in
    @evaluate_quantized_models sample_env sample_models
        (test_texts sample_data) (test_labels sample_data) w = (Ok ev, w') /\
    files w' = files sample_models_world /\
    Forall2 entry_of_model sample_models ev.
Proof.
  set (w := {| files := (temp_model_path, [Byte.x00])
                        :: files sample_models_world;
               trace := trace sample_models_world |}).
  destruct (@evaluate_quantized_models sample_env sample_models
              (test_texts sample_data) (test_labels sample_data) w)
    as [[ev|e] w'] eqn:Hrun; [|vm_compute in Hrun; discriminate].
  assert (Hwf : dict_wf sample_models).
  { vm_compute. repeat constructor; simpl; intuition discriminate. }
  destruct (@evaluate_quantized_models_entries sample_env sample_models
              (test_texts sample_data) (test_labels sample_data)
              w ev w' Hwf Hrun) as (Hentries & Hfiles & _).
  exists ev, w'. cbv zeta. fold w. split; [exact Hrun|].
  split; [rewrite Hfiles; reflexivity|exact Hentries].
Defined.

(** ** What [quantize_model] hands to its caller *)

Lemma Forall2_entry_lookup models ev m metrics :
  Forall2 entry_of_model models ev ->
  In (m, metrics) ev ->
  exists info, In (m, info) models /\
               quantized_size_mb metrics = size_mb info /\
               quantization_method metrics = m.
Proof.
  induction 1 as [|[m0 info0] [m1 x1] models ev Hentry HF IH]; [intros []|].
  intros [Heq|Hin].
  - injection Heq as -> ->. destruct Hentry as (Hk & Hm & Hs). simpl in *.
    subst m0. exists info0. split; [now left|]. auto.
  - destruct (IH Hin) as (info & Hin' & Hrest). exists info.
    split; [now right|exact Hrest].
Qed.

Section PipelineOutcome.
Context {E : Env}.

(** The methods of a run of [quantize_model] are among the three
    strategies. *)
Lemma quantize_model_methods data target_size_mb w results w' :
  quantize_model data target_size_mb w = (Ok results, w') ->
  forall m,
    In m (dict_keys (quantized_models results)) ->
    m = "dynamic" \/ m = "float16" \/ m = "int8".
Proof.
  unfold quantize_model. unfold bind at 1.
  rewrite quantize_all_methods_kept.
  set (r1 := fst (quantize_dynamic _ w)).
  set (r2 := fst (quantize_float16 _ _)).
  set (r3 := fst (quantize_int8 _ _ _ _)).
  clearbody r1 r2 r3.
  unfold bind at 1.
  destruct (evaluate_quantized_models _ _ _ _) as [[ev|e] w3];
    [|discriminate].
  unfold bind at 1.
  destruct (lift _ w3) as [[best|e] w4]; [|discriminate].
  unfold bind at 1.
  destruct (create_quantization_report _ _ w4) as [[[]|e] w5];
    [|discriminate].
  unfold ret. intros H. injection H as <- _. cbn [quantized_models].
  intros m Hin.
  destruct r1, r2, r3; cbn in Hin; intuition.
Qed.

(** A run of [quantize_model] that returns, in full. *)
Lemma quantize_model_outcome data target_size_mb w results w' :
  quantize_model data target_size_mb w = (Ok results, w') ->
  select_best_quantization (evaluation_results results)
                           target_size_mb (9 # 10)
  = Ok (best_method results) /\
  evaluation_results results <> [] /\
  dict_wf (evaluation_results results) /\
  dict_keys (evaluation_results results)
  = dict_keys (quantized_models results) /\
  (exists report,
      quantization_report (evaluation_results results) = Ok report /\
      dict_get (files w') report_path = Some (json_dump report)) /\
  exists metrics info content,
    In (best_method results, metrics) (evaluation_results results) /\
    In (best_method results, info) (quantized_models results) /\
    quantized_size_mb metrics = size_mb info /\
    dict_get (files w')
             (path_join "models/quantized"
                        (model_file_name (best_method results)))
    = Some content /\
    size_mb info = (Z.of_nat (List.length content) # 1048576).
Proof.
  unfold quantize_model. unfold bind at 1.
  destruct (quantize_all_methods_outcome
              "models/quantized" (calibration_texts_of data) w)
    as (models & w1 & evs & r1 & r2 & r3 & Hconv & _ & _ & Hfiles).
  pose proof (quantize_all_methods_kept
                "models/quantized" (calibration_texts_of data) w) as Hkept.
  cbv zeta in Hkept. rewrite Hconv in Hkept.
  assert (Hwf : dict_wf models).
  { injection Hkept as -> _. apply kept_three_wf. }
  rewrite Hconv. unfold bind at 1.
  destruct (evaluate_quantized_models models _ _ w1) as [[ev|e] w2] eqn:Heval;
    [|discriminate].
  pose proof (evaluate_quantized_models_files _ _ _ _ _ _ Heval)
    as (_ & Hkeep).
  pose proof (evaluate_quantized_models_entries_run _ _ _ _ _ _ Hwf Heval)
    as Hentries.
  destruct (evaluate_quantized_models_run _ _ _ _ _ _ Heval)
    as (_ & _ & _ & _ & _ & _ & _ & _ & Hkeys & _).
  specialize (Hkeys Hwf).
  unfold bind at 1. unfold lift at 1.
  destruct (select_best_quantization ev target_size_mb (9 # 10))
    as [best|e] eqn:Hsel; [|discriminate].
  assert (Hne : ev <> []) by (intros ->; discriminate).
  assert (Hev_wf : dict_wf ev) by (unfold dict_wf; now rewrite Hkeys).
  destruct (quantization_report_lists_methods ev Hne Hev_wf)
    as (report & _ & _ & Hrep & _).
  unfold bind at 1. unfold create_quantization_report, bind, lift, write_file.
  rewrite Hrep. unfold ret. intros H. injection H as <- <-.
  cbn [evaluation_results quantized_models best_method files].
  split; [exact Hsel|]. split; [exact Hne|]. split; [exact Hev_wf|].
  split; [exact Hkeys|]. split.
  { exists report. split; [exact Hrep|]. apply dict_get_setitem_same. }
  destruct (select_best_quantization_first_min_general
              ev target_size_mb (9 # 10) Hne Hev_wf)
    as (m & metrics & Hsel' & Hvalid & Hfall).
  rewrite Hsel in Hsel'. injection Hsel' as <-.
  assert (Hin : In (best, metrics) ev).
  { destruct (none_satisfies_or_some target_size_mb (9 # 10) ev)
      as [Hnone|Hsome].
    - destruct (Hfall Hnone) as (pre & post & -> & _).
      apply in_or_app. right. now left.
    - destruct (Hvalid Hsome) as (pre & post & -> & _).
      apply in_or_app. right. now left. }
  destruct (Forall2_entry_lookup models ev best metrics Hentries Hin)
    as (info & Hin_info & Hsize & _).
  destruct (Hfiles best info Hin_info) as (Hpath & _ & content & Hfile & Hlen).
  exists metrics, info, content. split; [exact Hin|].
  split; [exact Hin_info|]. split; [exact Hsize|]. split; [|exact Hlen].
  destruct (Hkeep best info Hin_info) as (_ & content' & Hbefore & Hafter).
  rewrite Hfile in Hbefore. injection Hbefore as <-.
  rewrite dict_get_setitem_other.
  - rewrite <- Hpath. exact Hafter.
  - injection Hkept as Hmodels _. rewrite Hmodels in Hin_info.
    assert (Hbest : best = "dynamic" \/ best = "float16" \/ best = "int8").
    { apply in_app_or in Hin_info. destruct Hin_info as [Hin1|Hin23].
      - destruct (fst (quantize_dynamic _ w)); [|destruct Hin1].
        destruct Hin1 as [Heq|[]].
        injection Heq as <- _. auto.
      - apply in_app_or in Hin23. destruct Hin23 as [Hin2|Hin3].
        + destruct (fst (quantize_float16 _ _)); [|destruct Hin2].
        destruct Hin2 as [Heq|[]].
          injection Heq as <- _. auto.
        + destruct (fst (quantize_int8 _ _ _ _)); [|destruct Hin3].
        destruct Hin3 as [Heq|[]].
          injection Heq as <- _. auto. }
    destruct Hbest as [-> | [-> | ->]]; vm_compute; discriminate.
Qed.

(** When [quantize_model] returns, its [best_method] is what
    [select_best_quantization] answers for its [evaluation_results]
    with the configured size and 0.90; [evaluation_results] and
    [quantized_models] have the same methods, [best_method] among them;
    the quantization report is on file; and the file
    [models/quantized/mobile_classifier_<best_method>.tflite] exists,
    its length in bytes over 2^20 being the [quantized_size_mb] of the
    best method. *)
Theorem quantize_model_returns_a_deployable_choice
        data target_size_mb w results w' :
  quantize_model data target_size_mb w = (Ok results, w') ->
  select_best_quantization (evaluation_results results)
                           target_size_mb (9 # 10)
  = Ok (best_method results) /\
  dict_keys (evaluation_results results)
  = dict_keys (quantized_models results) /\
  (exists report,
      quantization_report (evaluation_results results) = Ok report /\
      dict_get (files w') report_path = Some (json_dump report)) /\
  exists metrics content,
    In (best_method results, metrics) (evaluation_results results) /\
    dict_get (files w')
             (path_join "models/quantized"
                        (model_file_name (best_method results)))
    = Some content /\
    quantized_size_mb metrics = (Z.of_nat (List.length content) # 1048576).
Proof.
  intros Hrun.
  destruct (quantize_model_outcome data target_size_mb w results w' Hrun)
    as (Hsel & _ & _ & Hkeys & Hreport
        & metrics & info & content & Hin & _ & Hsize & Hfile & Hlen).
  split; [exact Hsel|]. split; [exact Hkeys|]. split; [exact Hreport|].
  exists metrics, content. split; [exact Hin|]. split; [exact Hfile|].
  now rewrite Hsize.
Qed.
End PipelineOutcome.

(** On the sample environment and data, with 20 MB. *)
Lemma quantize_model_returns_a_deployable_choice_witness :
  exists results w' metrics content,
    @quantize_model sample_env sample_data 20 empty_world = (Ok results, w') /\
    In (best_method results, metrics) (evaluation_results results) /\
    dict_get (files w')
             (path_join "models/quantized"
                        (model_file_name (best_method results)))
    = Some content /\
    quantized_size_mb metrics = (Z.of_nat (List.length content) # 1048576).
Proof.
  destruct (@quantize_model sample_env sample_data 20 empty_world)
    as [[results|e] w'] eqn:Hrun.
  - destruct (@quantize_model_returns_a_deployable_choice
                sample_env sample_data 20 empty_world results w' Hrun)
      as (_ & _ & _ & metrics & content & H).
    exists results, w', metrics, content. split; [reflexivity|exact H].
  - vm_compute in Hrun. discriminate.
Defined.

(** ** The final report *)

Lemma py_last_raises {A} (l : list A) e :
  py_last l = Raise e <-> l = [] /\ e = IndexError.
Proof.
  unfold py_last. split.
  - destruct (rev l) as [|x r] eqn:Hrev; [|discriminate].
    intros H. injection H as <-. split; [|reflexivity].
    apply (f_equal (@rev A)) in Hrev. now rewrite rev_involutive in Hrev.
  - intros [-> ->]. reflexivity.
Qed.

(** The final report, when it is built, around the metrics of the best
    method. *)
Lemma final_report_built config history metrics results report :
  final_report config history metrics results = Ok report ->
  exists bm,
    dict_get (evaluation_results results) (best_method results) = Some bm /\
    pyval_path2 report "deployment_info" "recommended_model"
    = Some (PStr ("models/quantized/mobile_classifier_"
                  ++ best_method results ++ ".tflite")) /\
    pyval_path2 report "quantization_results" "final_size_mb"
    = Some (PFloat (quantized_size_mb bm)) /\
    pyval_path2 report "quantization_results" "meets_mobile_requirements"
    = Some (PDict
              [ ("size_ok",
                 PBool (Qle_bool (quantized_size_mb bm)
                                 (config_target_size_mb config)));
                ("inference_ok",
                 PNpBool (Qle_bool (quantized_inference_ms bm)
                                   (config_target_inference_ms config)));
                ("accuracy_ok",
                 PBool (Qle_bool (90 # 100) (accuracy_retention bm))) ]) /\
    json_serializable report = false.
Proof.
  unfold final_report, dict_getitem.
  destruct (dict_get (evaluation_results results) (best_method results))
    as [bm|]; [|discriminate].
  cbn [rbind].
  destruct (dict_get metrics "accuracy"); [|discriminate]. cbn [rbind].
  destruct (match dict_get history "val_loss" with
            | Some val_loss => x <~ py_last val_loss ;; Ok (PFloat x)
            | None => Ok PNone
            end) as [final_loss|]; [|discriminate].
  cbn [rbind].
  destruct (dict_get metrics "model_size_mb"); [|discriminate]. cbn [rbind].
  intros H. injection H as <-. exists bm.
  split; [reflexivity|]. split; [reflexivity|]. split; [reflexivity|].
  split; [reflexivity|].
  cbn [json_serializable forallb snd].
  rewrite !andb_false_r. reflexivity.
Qed.

(** When the final report is built. *)
Lemma final_report_built_iff config history metrics results :
  (exists report, final_report config history metrics results = Ok report)
  <->
  (exists bm, dict_get (evaluation_results results) (best_method results)
              = Some bm) /\
  (exists a, dict_get metrics "accuracy" = Some a) /\
  dict_get history "val_loss" <> Some [] /\
  (exists s, dict_get metrics "model_size_mb" = Some s).
Proof.
  unfold final_report, dict_getitem. split.
  - intros (report & H).
    destruct (dict_get (evaluation_results results) (best_method results))
      as [bm|]; [|discriminate].
    cbn [rbind] in H.
    destruct (dict_get metrics "accuracy") as [a|]; [|discriminate].
    cbn [rbind] in H.
    destruct (dict_get history "val_loss") as [[|x l]|];
      [discriminate| |];
      (destruct (dict_get metrics "model_size_mb") as [s|];
       [|cbn in H; try destruct (py_last (x :: l)); discriminate]);
      (split; [eauto|]; split; [eauto|]; split; [discriminate|eauto]).
  - intros ((bm & Hbm) & (a & Ha) & Hloss & (s & Hs)).
    rewrite Hbm, Ha, Hs. cbn [rbind].
    destruct (dict_get history "val_loss") as [l|].
    + destruct (py_last l) as [x|e] eqn:Hlast.
      * cbn [rbind]. eauto.
      * apply py_last_raises in Hlast. destruct Hlast as [-> _].
        congruence.
    + cbn [rbind]. eauto.
Qed.

(** The outcome of [create_final_report], in full. *)
Lemma create_final_report_run
      (dump dump_prefix : pyval -> bytes) config
      (history : dict (list Q)) (metrics : dict Q)
      (results : quantization_results) w :
  (exists e,
      final_report config history metrics results = Raise e /\
      create_final_report dump dump_prefix config history metrics results w
      = (Raise e, w)) \/
  (exists report,
      final_report config history metrics results = Ok report /\
      create_final_report dump dump_prefix config history metrics results w
      = (Raise TypeError,
         {| files := dict_setitem (files w) final_report_path
                                  (dump_prefix report);
            trace := trace w |})).
Proof.
  unfold create_final_report, bind, lift, write_file.
  destruct (final_report config history metrics results) as [report|e] eqn:Hb.
  - right. exists report. split; [reflexivity|].
    destruct (final_report_built _ _ _ _ _ Hb) as (_ & _ & _ & _ & _ & Hser).
    rewrite Hser. reflexivity.
  - left. exists e. split; reflexivity.
Qed.



Section ExitCode.
Context {E : Env}.

(** X14.  The complete pipeline never reports success.  Whatever the
    first three steps do and whatever the quantization gives, [main]
    returns 1: a run that gets as far as the final report ends in the
    [TypeError] of the dump, which the handler of [main] turns into 1
    like every other exception, so the exit code 0 of a model that is
    ready for mobile use is never reached. *)
Theorem main_never_reports_success
        (dump dump_prefix : pyval -> bytes) (config : model_config)
        (steps : M (pipeline_data * dict (list Q) * dict Q)) w :
  exists w',
    main_complete_pipeline dump dump_prefix config steps w = (Ok 1%Z, w').
Proof.
  unfold main_complete_pipeline, try_except.
  unfold bind at 1. unfold now at 1.
  unfold bind at 1.
  destruct (steps _) as [[[[data history] metrics]|e] w1];
    [|eexists; reflexivity].
  unfold bind at 1.
  destruct (quantize_model data _ w1) as [[results|e] w2];
    [|eexists; reflexivity].
  unfold bind at 1.
  destruct (create_final_report_run dump dump_prefix config history metrics
              results w2) as [(e & _ & Hr)|(r & _ & Hr)];
    rewrite Hr; eexists; reflexivity.
Qed.
End ExitCode.

(** ** From [quantize_model] to the final report *)

Section EndToEnd.
Context {E : Env}.

(** X15.  After [quantize_model] has returned, [create_final_report]
    under the same configuration finds the metrics of the best method;
    with [accuracy] and [model_size_mb] among the evaluation metrics and
    a [val_loss] that is not empty it builds its report, in which the
    recommended model is a file of the store and [final_size_mb] is the
    length of that file in bytes over 2^20.  The call then fails in the
    dump with [TypeError]: the final report is left incomplete, while the
    recommended model and the quantization report written by
    [quantize_model] stay as they are. *)
Theorem final_report_after_quantize_model
        (dump dump_prefix : pyval -> bytes) config data
        (history : dict (list Q)) (metrics : dict Q)
        w results w1 :
  quantize_model data (config_target_size_mb config) w = (Ok results, w1) ->
  (exists a, dict_get metrics "accuracy" = Some a) ->
  dict_get history "val_loss" <> Some [] ->
  (exists s, dict_get metrics "model_size_mb" = Some s) ->
  exists report w2 path content quantization_report_text,
    final_report config history metrics results = Ok report /\
    create_final_report dump dump_prefix config history metrics results w1
    = (Raise TypeError, w2) /\
    dict_get (files w2) final_report_path = Some (dump_prefix report) /\
    pyval_path2 report "deployment_info" "recommended_model"
    = Some (PStr path) /\
    dict_get (files w2) path = Some content /\
    pyval_path2 report "quantization_results" "final_size_mb"
    = Some (PFloat (Z.of_nat (List.length content) # 1048576)) /\
    dict_get (files w1) report_path = Some quantization_report_text /\
    dict_get (files w2) report_path = Some quantization_report_text.
Proof.
  intros Hq Hacc Hloss Hsize_mb.
  destruct (quantize_model_outcome data _ w results w1 Hq)
    as (Hsel & Hne & Hwf & _ & (qr & _ & Hqr)
        & m & info & content & Hin & Hin_info & Hsize & Hfile & Hlen).
  pose proof (dict_get_in _ _ _ Hwf Hin) as Hm.
  destruct (proj2 (final_report_built_iff config history metrics results))
    as (report & Hb).
  { split; [eauto|]. auto. }
  destruct (final_report_built _ _ _ _ _ Hb)
    as (bm & Hbm & Hrec & Hfinal & _ & _).
  rewrite Hbm in Hm. injection Hm as ->.
  destruct (create_final_report_run dump dump_prefix config history metrics
              results w1) as [(e & Hb' & _)|(r & Hb' & Hr)]; [congruence|].
  assert (r = report) by congruence. subst r.
  assert (Hbest : path_join "models/quantized"
                            (model_file_name (best_method results))
                  = ("models/quantized/mobile_classifier_"
                     ++ best_method results ++ ".tflite")%string
                  /\ path_join "models/quantized"
                               (model_file_name (best_method results))
                     <> final_report_path).
  { assert (Hkeys : In (best_method results)
                       (dict_keys (quantized_models results))).
    { apply (in_map fst) in Hin_info. exact Hin_info. }
    destruct (quantize_model_methods _ _ _ _ _ Hq _ Hkeys)
      as [-> | [-> | ->]];
      (split; [vm_compute; reflexivity|vm_compute; discriminate]). }
  destruct Hbest as (Hpath & Hnot_report).
  exists report. eexists.
  exists ("models/quantized/mobile_classifier_"
          ++ best_method results ++ ".tflite")%string, content,
    (json_dump qr).
  split; [exact Hb|]. split; [exact Hr|]. cbn [files].
  split; [apply dict_get_setitem_same|].
  split; [exact Hrec|].
  split.
  { rewrite dict_get_setitem_other; [|rewrite <- Hpath; exact Hnot_report].
    rewrite <- Hpath. exact Hfile. }
  split; [now rewrite Hfinal, Hsize, Hlen|].
  split; [exact Hqr|].
  rewrite dict_get_setitem_other; [exact Hqr|].
  unfold report_path, final_report_path. discriminate.
Qed.
End EndToEnd.

(** On the sample environment and inputs, with 20 MB. *)
Lemma final_report_after_quantize_model_witness :
  exists results w1 report w2,
    @quantize_model sample_env sample_data
                    (config_target_size_mb sample_config) empty_world
    = (Ok results, w1) /\
    final_report sample_config sample_history sample_evaluation_metrics
                 results = Ok report /\
    @create_final_report sample_dump sample_dump_prefix sample_config
                         sample_history sample_evaluation_metrics results w1
    = (Raise TypeError, w2) /\
    dict_get (files w2) final_report_path = Some (sample_dump_prefix report).
Proof.
  destruct (@quantize_model sample_env sample_data
              (config_target_size_mb sample_config) empty_world)
    as [[results|e] w1] eqn:Hq; [|vm_compute in Hq; discriminate].
  destruct (@final_report_after_quantize_model
              sample_env sample_dump sample_dump_prefix sample_config
              sample_data sample_history sample_evaluation_metrics
              empty_world results w1 Hq)
    as (report & w2 & path & content & text & Hb & Hr & Hfile & _).
  - eexists. reflexivity.
  - discriminate.
  - eexists. reflexivity.
  - exists results, w1, report, w2. auto.
Defined.

(** ** Sample runs of the conversions *)

(** Where full int8 cannot be converted, the relaxed int8 conversion of
    the pipeline is a single attempt that goes through. *)
Lemma quantize_once_writes_after_conversion_witness :
  @single_attempt strict_failing_env
     (@quantize_int8 strict_failing_env "int8.tflite" ["ab"; "abc"] true)
     (@int8_converter strict_failing_env ["ab"; "abc"] true)
     "int8.tflite" "int8_fallback" empty_world.
Proof.
  destruct (@quantize_once_writes_after_conversion
              strict_failing_env "int8.tflite" ["ab"; "abc"] empty_world)
    as (_ & _ & H).
  exact H.
Defined.

(** Where the float16 conversion fails, three conversions are still
    asked for and two entries are left. *)
Lemma quantize_all_methods_conversions_and_files_witness :
  exists models w' evs,
    @quantize_all_methods float16_failing_env "models/quantized"
        (calibration_texts_of sample_data) empty_world = (Ok models, w') /\
    trace w' = trace empty_world ++ evs /\
    List.length (convert_events evs) = 3%nat /\
    dict_keys models = ["dynamic"; "int8"].
Proof.
  destruct (@quantize_all_methods_conversions_and_files
              float16_failing_env "models/quantized"
              (calibration_texts_of sample_data) empty_world)
    as (models & w' & evs & r1 & r2 & r3 & Hrun & Htr & Hconv & _).
  exists models, w', evs. split; [exact Hrun|]. split; [exact Htr|].
  split; [now rewrite Hconv|].
  vm_compute in Hrun. injection Hrun as <- _. reflexivity.
Defined.

(** ** Inference with a loaded model *)

Lemma argmax_loop_spec (rest : list Q) :
  forall seen best bv,
    nth_error seen best = Some bv ->
    (forall x, In x seen -> x <= bv) ->
    (forall j y, (j < best)%nat -> nth_error seen j = Some y -> y < bv) ->
    exists v,
      nth_error (seen ++ rest)
                (argmax_loop best bv (List.length seen) rest) = Some v /\
      (forall x, In x (seen ++ rest) -> x <= v) /\
      (forall j y,
          (j < argmax_loop best bv (List.length seen) rest)%nat ->
          nth_error (seen ++ rest) j = Some y -> y < v).
Proof.
  induction rest as [|y rest IH]; intros seen best bv Hbest Hall Hfirst.
  - cbn [argmax_loop]. rewrite app_nil_r. exists bv. auto.
  - assert (Hlt : (best < List.length seen)%nat).
    { apply nth_error_Some. congruence. }
    cbn [argmax_loop].
    replace (seen ++ y :: rest) with ((seen ++ [y]) ++ rest)
      by (rewrite <- app_assoc; reflexivity).
    replace (S (List.length seen)) with (List.length (seen ++ [y]))
      by (rewrite length_app; simpl; lia).
    destruct (Qltb bv y) eqn:Hcmp.
    + apply Qltb_lt in Hcmp. apply IH.
      * rewrite nth_error_app2 by lia. now rewrite Nat.sub_diag.
      * intros x Hin. apply in_app_or in Hin. destruct Hin as [Hin|[<-|[]]].
        -- apply Qlt_le_weak. eapply Qle_lt_trans; [apply Hall, Hin|exact Hcmp].
        -- apply Qle_refl.
      * intros j z Hj Hz. rewrite nth_error_app1 in Hz by exact Hj.
        apply nth_error_In in Hz.
        eapply Qle_lt_trans; [apply Hall, Hz|exact Hcmp].
    + apply Qltb_ge in Hcmp. apply IH.
      * rewrite nth_error_app1 by exact Hlt. exact Hbest.
      * intros x Hin. apply in_app_or in Hin. destruct Hin as [Hin|[<-|[]]].
        -- apply Hall, Hin.
        -- exact Hcmp.
      * intros j z Hj Hz. rewrite nth_error_app1 in Hz by lia.
        eapply Hfirst; eauto.
Qed.

(** [np.argmax] gives the first position of the largest entry. *)
Lemma np_argmax_spec (l : list Q) (k : nat) :
  np_argmax l = Ok k ->
  exists v,
    nth_error l k = Some v /\
    (forall x, In x l -> x <= v) /\
    (forall j y, (j < k)%nat -> nth_error l j = Some y -> y < v).
Proof.
  destruct l as [|x rest]; [discriminate|].
  cbn [np_argmax]. intros Hk. injection Hk as <-.
  apply (argmax_loop_spec rest [x] 0%nat x).
  - reflexivity.
  - intros y [<-|[]]. apply Qle_refl.
  - intros j y Hj. lia.
Qed.

Lemma fold_setitem_fresh {V} (kvs : list (string * V)) :
  forall d,
    NoDup (dict_keys d ++ map fst kvs) ->
    fold_left (fun d p => dict_setitem d (fst p) (snd p)) kvs d = d ++ kvs.
Proof.
  induction kvs as [|[k v] kvs IH]; intros d Hnd; cbn [fold_left fst snd].
  - now rewrite app_nil_r.
  - cbn [map fst] in Hnd.
    rewrite dict_setitem_new.
    + rewrite IH.
      * now rewrite <- app_assoc.
      * unfold dict_keys in *. rewrite map_app, <- app_assoc. exact Hnd.
    + apply NoDup_remove_2 in Hnd. intros Hin. apply Hnd.
      apply in_or_app. now left.
Qed.

Lemma map_fst_combine {A B} (ks : list A) :
  forall vs : list B, map fst (combine ks vs) = firstn (List.length vs) ks.
Proof.
  induction ks as [|k ks IH]; intros [|v vs]; cbn; try reflexivity.
  now rewrite IH.
Qed.

Lemma NoDup_firstn_of {A} (n : nat) (l : list A) :
  NoDup l -> NoDup (firstn n l).
Proof.
  intros Hnd. rewrite <- (firstn_skipn n l) in Hnd.
  eapply NoDup_app_remove_r. exact Hnd.
Qed.

Lemma nth_error_combine_in {A B} (ks : list A) :
  forall (vs : list B) i k v,
    nth_error ks i = Some k -> nth_error vs i = Some v ->
    In (k, v) (combine ks vs).
Proof.
  induction ks as [|k0 ks IH]; intros [|v0 vs] [|i] k v Hk Hv;
    cbn in *; try discriminate.
  - left. congruence.
  - right. eapply IH; eauto.
Qed.

Lemma CATEGORY_NAMES_NoDup : NoDup CATEGORY_NAMES.
Proof.
  unfold CATEGORY_NAMES.
  repeat (constructor; [cbn; intuition discriminate|]). constructor.
Qed.

(** The names are distinct, so the comprehension pairs them with the
    scores in order. *)
Lemma probability_dict_combine (scores : list Q) :
  probability_dict scores = combine CATEGORY_NAMES scores.
Proof.
  unfold probability_dict. rewrite fold_setitem_fresh; [reflexivity|].
  cbn [dict_keys map app]. rewrite map_fst_combine.
  apply NoDup_firstn_of, CATEGORY_NAMES_NoDup.
Qed.

Section Inference.
Context {E : Env}.

(** What a classification that returns went through. *)
Lemma classify_with_tflite_inv self sms_text w r w' :
  classify_with_tflite self sms_text w = (Ok r, w') ->
  exists content preds scores k c name,
    self_tflite_model self <> None /\
    self_tokenizer_loaded self = true /\
    self_interpreter self = Some content /\
    let ids := [fst (tokenizer sms_text)] in
    let mask := [snd (tokenizer sms_text)] in
    let t0 := time_time (trace w) in
    let tr1 := trace w ++ [EvTime t0] in
    let tr2 := tr1 ++ [EvInvoke content ids mask (Ok preds)] in
    let t1 := time_time tr2 in
    tflite_invoke tr1 content ids mask = Ok preds /\
    nth_error preds 0 = Some scores /\
    np_argmax scores = Ok k /\
    nth_error scores k = Some c /\
    nth_error CATEGORY_NAMES k = Some name /\
    files w' = files w /\
    trace w' = tr2 ++ [EvTime t1] /\
    r = {| category := name;
           category_id := k;
           confidence := c;
           probabilities := probability_dict scores;
           processing_time_ms := (t1 - t0) * 1000;
           result_model_version :=
             (self_model_version self ++ "-tflite")%string |}.
Proof.
  unfold classify_with_tflite, classifier_preprocess_data.
  destruct (self_tflite_model self) as [m|] eqn:Hm; [|discriminate].
  destruct (self_tokenizer_loaded self) eqn:Htok; [|discriminate].
  destruct (self_interpreter self) as [content|] eqn:Hi; [|discriminate].
  unfold bind, now, invoke, lift, ret, record_event, preprocess_data.
  cbn [trace files input_ids attention_mask map].
  destruct (tflite_invoke _ content _ _) as [preds|e] eqn:Hinv;
    [|discriminate].
  unfold py_index at 1.
  destruct (nth_error preds 0) as [scores|] eqn:Hrow; [|discriminate].
  destruct (np_argmax scores) as [k|e] eqn:Hk; [|discriminate].
  unfold py_index at 1.
  destruct (nth_error scores k) as [c|] eqn:Hc; [|discriminate].
  unfold py_index.
  destruct (nth_error CATEGORY_NAMES k) as [name|] eqn:Hn; [|discriminate].
  intros H. injection H as <- <-.
  exists content, preds, scores, k, c, name.
  cbn [trace files]. repeat (split; [first [congruence|eassumption|reflexivity]|]).
  reflexivity.
Qed.

End Inference.

Section InferenceResults.
Context {E : Env}.

(** X16.  A classification that returns read the clock, asked the
    interpreter once for the encoded text and read the clock again,
    leaving the files alone.  The category it reports is one of the six
    names, at the first position of the largest score of the first output
    row, and the confidence is that score; the probabilities pair the
    names with the scores in order (scores past the sixth are dropped,
    names past the last score are absent); the time is the clock
    difference in milliseconds and the version carries the suffix
    "-tflite". *)
Theorem classify_with_tflite_result self sms_text w r w' :
  classify_with_tflite self sms_text w = (Ok r, w') ->
  exists content preds scores t0 t1,
    self_interpreter self = Some content /\
    files w' = files w /\
    trace w' = trace w ++
               [EvTime t0;
                EvInvoke content [fst (tokenizer sms_text)]
                         [snd (tokenizer sms_text)] (Ok preds);
                EvTime t1] /\
    nth_error preds 0 = Some scores /\
    (category_id r < 6)%nat /\
    nth_error CATEGORY_NAMES (category_id r) = Some (category r) /\
    nth_error scores (category_id r) = Some (confidence r) /\
    (forall p, In p scores -> p <= confidence r) /\
    (forall j p, (j < category_id r)%nat ->
                 nth_error scores j = Some p -> p < confidence r) /\
    dict_keys (probabilities r)
    = firstn (List.length scores) CATEGORY_NAMES /\
    dict_get (probabilities r) (category r) = Some (confidence r) /\
    processing_time_ms r = (t1 - t0) * 1000 /\
    result_model_version r = (self_model_version self ++ "-tflite")%string.
Proof.
  intros Hrun.
  destruct (classify_with_tflite_inv self sms_text w r w' Hrun)
    as (content & preds & scores & k & c & name & _ & _ & Hi & Hrest).
  cbv zeta in Hrest.
  destruct Hrest as (_ & Hrow & Hk & Hc & Hn & Hfiles & Htrace & Hr).
  set (t1 := time_time ((_ ++ _) ++ _)) in Htrace, Hr. clearbody t1.
  subst r.
  destruct (np_argmax_spec scores k Hk) as (v & Hv & Hmax & Hfirst).
  assert (v = c) by congruence. subst v.
  exists content, preds, scores, (time_time (trace w)), t1.
  cbn [category category_id confidence probabilities processing_time_ms
       result_model_version].
  split; [exact Hi|]. split; [exact Hfiles|].
  split; [rewrite Htrace, <- !app_assoc; reflexivity|].
  split; [exact Hrow|].
  split; [change 6%nat with (List.length CATEGORY_NAMES);
          apply nth_error_Some; congruence|].
  split; [exact Hn|]. split; [exact Hc|].
  split; [exact Hmax|]. split; [exact Hfirst|].
  rewrite probability_dict_combine.
  split; [apply map_fst_combine|].
  split; [|split; reflexivity].
  apply dict_get_in.
  - unfold dict_wf, dict_keys. rewrite map_fst_combine.
    apply NoDup_firstn_of, CATEGORY_NAMES_NoDup.
  - eapply nth_error_combine_in; eauto.
Qed.

(** X17.  When [classify_with_tflite] fails and when it returns.  With
    no model content it raises [ValueError] and touches nothing.  With
    model content it reads the clock and preprocesses the text: a
    classifier whose tokenizer was never loaded raises [TypeError]
    there.  With a tokenizer but no interpreter (the state in which a
    conversion leaves a classifier that never loaded a file) it raises
    [AttributeError].  With all three it returns exactly when the
    interpreter answers, the output has a first row, the row is not
    empty and its first largest score is among the first six: there is
    no fall-back category for a seventh score. *)
Theorem classify_with_tflite_returns_iff self sms_text w :
  (self_tflite_model self = None ->
   classify_with_tflite self sms_text w = (Raise ValueError, w)) /\
  (self_tflite_model self <> None -> self_tokenizer_loaded self = false ->
   classify_with_tflite self sms_text w
   = (Raise TypeError,
      record_event (EvTime (time_time (trace w))) w)) /\
  (self_tflite_model self <> None -> self_tokenizer_loaded self = true ->
   self_interpreter self = None ->
   classify_with_tflite self sms_text w
   = (Raise AttributeError,
      record_event (EvTime (time_time (trace w))) w)) /\
  (forall content,
      self_tflite_model self <> None ->
      self_tokenizer_loaded self = true ->
      self_interpreter self = Some content ->
      ((exists r w', classify_with_tflite self sms_text w = (Ok r, w')) <->
       (exists preds scores k,
           tflite_invoke (trace w ++ [EvTime (time_time (trace w))])
                         content [fst (tokenizer sms_text)]
                         [snd (tokenizer sms_text)] = Ok preds /\
           nth_error preds 0 = Some scores /\
           np_argmax scores = Ok k /\
           (k < 6)%nat))).
Proof.
  split; [|split; [|split]].
  - intros Hm. unfold classify_with_tflite. now rewrite Hm.
  - intros Hm Htok. unfold classify_with_tflite, classifier_preprocess_data.
    destruct (self_tflite_model self); [|congruence].
    rewrite Htok. reflexivity.
  - intros Hm Htok Hi.
    unfold classify_with_tflite, classifier_preprocess_data.
    destruct (self_tflite_model self); [|congruence].
    rewrite Htok, Hi. reflexivity.
  - intros content Hm Htok Hi. split.
    + intros (r & w' & Hrun).
      destruct (classify_with_tflite_inv self sms_text w r w' Hrun)
        as (content' & preds & scores & k & c & name & _ & _ & Hi' & Hrest).
      cbv zeta in Hrest.
      destruct Hrest as (Hinv & Hrow & Hk & _ & Hn & _).
      assert (content' = content) by congruence. subst content'.
      exists preds, scores, k.
      split; [exact Hinv|]. split; [exact Hrow|]. split; [exact Hk|].
      change 6%nat with (List.length CATEGORY_NAMES).
      apply nth_error_Some. congruence.
    + intros (preds & scores & k & Hinv & Hrow & Hk & Hlt).
      destruct (np_argmax_spec scores k Hk) as (c & Hc & _).
      destruct (nth_error CATEGORY_NAMES k) as [name|] eqn:Hn.
      2:{ apply nth_error_None in Hn. cbn in Hn. lia. }
      unfold classify_with_tflite, classifier_preprocess_data.
      destruct (self_tflite_model self); [|congruence].
      rewrite Htok, Hi.
      unfold bind, now, invoke, lift, ret, record_event, preprocess_data.
      cbn [trace files input_ids attention_mask map].
      rewrite Hinv. unfold py_index. rewrite Hrow, Hk, Hc, Hn.
      eexists. eexists. reflexivity.
Qed.

(** X18.  Loading, then classifying.  [load_tflite_model] returns only
    if the file is there; it changes neither files nor trace and keeps
    the version and the tokenizer.  On a classifier that has its
    tokenizer, every later classification runs the bytes read at loading
    time, whatever the files hold by then: after one reading of the
    clock the interpreter built from those bytes is asked for the
    encoded text, the clock is read once more only if it answers, and no
    file is touched.  On a classifier without tokenizer every later
    classification stops with [TypeError] before the interpreter is
    asked. *)
Theorem load_tflite_model_then_classify self model_path w self' w1 :
  load_tflite_model self model_path w = (Ok self', w1) ->
  exists content,
    dict_get (files w) model_path = Some content /\
    w1 = w /\
    self_model_version self' = self_model_version self /\
    self_tokenizer_loaded self' = self_tokenizer_loaded self /\
    (self_tokenizer_loaded self = false ->
     forall sms_text w2,
       classify_with_tflite self' sms_text w2
       = (Raise TypeError, record_event (EvTime (time_time (trace w2))) w2)) /\
    (self_tokenizer_loaded self = true ->
     forall sms_text w2,
      exists r rest,
        files (snd (classify_with_tflite self' sms_text w2)) = files w2 /\
        trace (snd (classify_with_tflite self' sms_text w2))
        = trace w2 ++
          EvTime (time_time (trace w2))
          :: EvInvoke content [fst (tokenizer sms_text)]
                      [snd (tokenizer sms_text)] r
          :: rest /\
        match r with
        | Ok _ => exists t1, rest = [EvTime t1]
        | Raise e =>
            rest = [] /\
            fst (classify_with_tflite self' sms_text w2) = Raise e
        end).
Proof.
  unfold load_tflite_model, bind, read_file, lift, ret.
  destruct (dict_get (files w) model_path) as [content|] eqn:Hfile;
    [|discriminate].
  destruct (tflite_interpreter content) as [d|e]; [|discriminate].
  intros H. injection H as <- <-.
  exists content. split; [reflexivity|]. split; [reflexivity|].
  split; [reflexivity|]. split; [reflexivity|]. split.
  - intros Htok sms_text w2.
    unfold classify_with_tflite, classifier_preprocess_data.
    cbn [self_tflite_model self_tokenizer_loaded]. rewrite Htok.
    reflexivity.
  - intros Htok sms_text w2.
    unfold classify_with_tflite, classifier_preprocess_data.
    cbn [self_tflite_model self_interpreter self_model_version
         self_tokenizer_loaded].
    rewrite Htok.
    unfold bind, now, invoke, lift, ret, record_event, preprocess_data.
    cbn [trace files input_ids attention_mask map].
    destruct (tflite_invoke _ content _ _) as [preds|e] eqn:Hinv.
    + exists (Ok preds). eexists.
      destruct (py_index preds 0) as [scores|e1];
        [destruct (np_argmax scores) as [k|e2];
         [destruct (py_index scores k) as [c|e3];
          [destruct (py_index CATEGORY_NAMES k) as [name|e4]|]|]|];
        cbn [fst snd files trace];
        (split; [reflexivity|];
         split; [rewrite <- !app_assoc; reflexivity|];
         eexists; reflexivity).
    + exists (Raise e), []. cbn [fst snd files trace].
      split; [reflexivity|].
      split; [rewrite <- !app_assoc; reflexivity|].
      split; reflexivity.
Qed.

End InferenceResults.

(** ** Sample classifications *)

Lemma classify_with_tflite_result_witness :
  exists r w',
    @classify_with_tflite sample_env sample_classifier "ab" empty_world
    = (Ok r, w') /\
    category r = "INBOX" /\
    confidence r == 1.
Proof.
  destruct (@classify_with_tflite sample_env sample_classifier "ab"
              empty_world) as [[r|e] w'] eqn:Hrun;
    [|vm_compute in Hrun; discriminate].
  destruct (@classify_with_tflite_result sample_env sample_classifier "ab"
              empty_world r w' Hrun)
    as (content & preds & scores & t0 & t1 & _).
  exists r, w'. split; [reflexivity|].
  vm_compute in Hrun. injection Hrun as <- _.
  split; reflexivity.
Defined.

Lemma classify_with_tflite_returns_iff_witness :
  exists r w',
    @classify_with_tflite sample_env sample_classifier "abc" empty_world
    = (Ok r, w').
Proof.
  destruct (@classify_with_tflite_returns_iff sample_env sample_classifier
              "abc" empty_world) as (_ & _ & _ & H).
  apply (H [Byte.x01]); [discriminate|reflexivity|reflexivity|].
  exists [[0; 1]], [0; 1], 1%nat.
  split; [reflexivity|]. split; [reflexivity|].
  split; [reflexivity|]. lia.
Defined.

(** A new classifier loads its tokenizer and then the sample model. *)
Lemma load_tflite_model_then_classify_witness :
  exists self' content,
    @load_tflite_model sample_env (load_tokenizer new_classifier)
                       "model.tflite" sample_world
    = (Ok self', sample_world) /\
    dict_get (files sample_world) "model.tflite" = Some content /\
    self_model_version self' = "1.0.0" /\
    exists r w',
      @classify_with_tflite sample_env self' "abc" sample_world = (Ok r, w').
Proof.
  destruct (@load_tflite_model sample_env (load_tokenizer new_classifier)
              "model.tflite" sample_world) as [[self'|e] w1] eqn:Hrun;
    [|vm_compute in Hrun; discriminate].
  destruct (@load_tflite_model_then_classify sample_env
              (load_tokenizer new_classifier)
              "model.tflite" sample_world self' w1 Hrun)
    as (content & Hfile & -> & Hver & _).
  exists self', content. split; [reflexivity|].
  split; [exact Hfile|]. split; [exact Hver|].
  vm_compute in Hrun. injection Hrun as <-.
  eexists. eexists. vm_compute. reflexivity.
Defined.
